(** * Game Boy Printer emulator: byte streamer and packet parser

    A shallow embedding of [src/gbp/gameboy_printer.cpp]: the bit-level
    byte streamer [gbp_rx_tx_byte_update], the packet parser
    [gbp_parse_message_update] and the interrupt routine that chains them.

    Conventions.
    - A [uintN_t] is a [Z] in [0, 2^N); every store into such a field
      writes the wrap-around out ([u8], [u16], [u32]).  [unsigned long]
      is 32 bits wide, as on the boards the sketch is built for.
    - The pins are levels: [true] is HIGH, [false] is LOW.
    - The global [gbp_printer] is the state that is threaded through; the
      pointer arguments of the parser all point into it at its only call
      site, so the parser is a function on [gbp_printer_t].
    - An output parameter that is only assigned together with a flag
      ([*rx_byte] with the returned flag, [*tx_byte] with [*new_tx_byte])
      is an [option].
    - [while (1);], a store outside of an array, and the end of a body
      that lacks the [return] its function is declared with, do not return
      a state: see [outcome]. *)

From Stdlib Require Import ZArith Lia Bool.
From stdpp Require Import base list.

Local Open Scope Z_scope.

(** ** Machine integers *)

Definition u8 (x : Z) : Z := x mod 256.
Definition u16 (x : Z) : Z := x mod 65536.
Definition u32 (x : Z) : Z := x mod 4294967296.

(** [x != 0], the truth value of an integer in a C condition. *)
Definition nonzero (x : Z) : bool := negb (x =? 0).

(** ** Constants of this file *)

Definition GBP_PACKET_PRETEND_PRINT_TIME_MS : Z := 2000.
Definition GBP_PACKET_TIMEOUT_MS : Z := 100.
Definition NO_NEW_BIT : Z := -1.

(** ** Data structures *)

Inductive gbp_parse_state_t : Set :=
  | GBP_PARSE_STATE_COMMAND
  | GBP_PARSE_STATE_COMPRESSION
  | GBP_PARSE_STATE_DATA_LENGTH_LOW
  | GBP_PARSE_STATE_PACKET_DATA_LENGTH_HIGH
  | GBP_PARSE_STATE_VARIABLE_PAYLOAD
  | GBP_PARSE_STATE_CHECKSUM_LOW
  | GBP_PARSE_STATE_CHECKSUM_HIGH
  | GBP_PARSE_STATE_DEVICE_ID
  | GBP_PARSE_STATE_PRINTER_STATUS
  | GBP_PARSE_STATE_PACKET_RECEIVED
  | GBP_PARSE_STATE_DIAGNOSTICS.

Definition parse_state_eqb (a b : gbp_parse_state_t) : bool :=
  match a, b with
  | GBP_PARSE_STATE_COMMAND, GBP_PARSE_STATE_COMMAND
  | GBP_PARSE_STATE_COMPRESSION, GBP_PARSE_STATE_COMPRESSION
  | GBP_PARSE_STATE_DATA_LENGTH_LOW, GBP_PARSE_STATE_DATA_LENGTH_LOW
  | GBP_PARSE_STATE_PACKET_DATA_LENGTH_HIGH, GBP_PARSE_STATE_PACKET_DATA_LENGTH_HIGH
  | GBP_PARSE_STATE_VARIABLE_PAYLOAD, GBP_PARSE_STATE_VARIABLE_PAYLOAD
  | GBP_PARSE_STATE_CHECKSUM_LOW, GBP_PARSE_STATE_CHECKSUM_LOW
  | GBP_PARSE_STATE_CHECKSUM_HIGH, GBP_PARSE_STATE_CHECKSUM_HIGH
  | GBP_PARSE_STATE_DEVICE_ID, GBP_PARSE_STATE_DEVICE_ID
  | GBP_PARSE_STATE_PRINTER_STATUS, GBP_PARSE_STATE_PRINTER_STATUS
  | GBP_PARSE_STATE_PACKET_RECEIVED, GBP_PARSE_STATE_PACKET_RECEIVED
  | GBP_PARSE_STATE_DIAGNOSTICS, GBP_PARSE_STATE_DIAGNOSTICS => true
  | _, _ => false
  end.

(** The values [data_ptr] takes: [NULL] or the address of one of the two
    buffers of [gbp_printer_t]. *)
Inductive buffer_t : Set :=
  | print_buffer
  | print_settings_buffer.

Definition capacity (b : buffer_t) : Z :=
  match b with
  | print_buffer => 650
  | print_settings_buffer => 4
  end.

Record gbp_packet_t : Set := mk_packet {
  command : Z;                    (* uint8_t *)
  compression : Z;                (* uint8_t *)
  data_length : Z;                (* uint16_t *)
  data_ptr : option buffer_t;     (* uint8_t *, None is NULL *)
  checksum : Z;                   (* uint16_t *)
  acknowledgement : Z;            (* uint8_t *)
  printer_status : Z              (* uint8_t *)
}.

Record gbp_rx_tx_byte_buffer_t : Set := mk_rx_tx {
  initialized : bool;
  serial_clock_state_prev : bool;
  syncronised : bool;
  sync_word : Z;                  (* uint16_t *)
  sync_buffer : Z;                (* uint16_t *)
  byte_frame_bit_pos : Z;         (* uint8_t *)
  rx_byte_buffer : Z;             (* uint8_t *)
  tx_byte_staging : Z;            (* uint8_t *)
  tx_byte_buffer : Z              (* uint8_t *)
}.

Record gbp_packet_parser_t : Set := mk_parser {
  parse_state : gbp_parse_state_t;
  data_index : Z;                 (* uint16_t *)
  calculated_checksum : Z;        (* uint16_t *)
  crc_high : Z;                   (* uint8_t *)
  crc_low : Z                     (* uint8_t *)
}.

(** Modelled from the spec: [gbp_printer_status_t] is declared in
    gameboy_printer_protocol.h, which is not among the sources.  The spec
    lists the flags of the printer status; they are the four fields that
    the parser assigns. *)
Record gbp_printer_status_t : Set := mk_status {
  checksum_error : bool;
  unprocessed_data : bool;
  print_buffer_full : bool;
  printer_busy : bool
}.

Record gbp_printer_t : Set := mk_printer {
  printer_initialized : bool;
  gbp_printer_status : gbp_printer_status_t;
  gbp_rx_tx_byte_buffer : gbp_rx_tx_byte_buffer_t;
  gbp_packet_parser : gbp_packet_parser_t;
  gbp_packet : gbp_packet_t;
  packet_ready_flag : bool;
  gbp_print_settings_buffer : list Z;   (* uint8_t [4] *)
  gbp_print_buffer : list Z;            (* uint8_t [650] *)
  uptime_til_timeout_ms : Z;                 (* unsigned long *)
  uptime_til_pretend_print_finish_ms : Z     (* unsigned long *)
}.

(** Modelled from the spec: the constants and the status encoder of
    gameboy_printer_protocol.h, which is not among the sources.  The spec
    calls them a fixed external contract and gives no values, so they are
    parameters of the development. *)
Class gbp_protocol : Type := {
  GBP_SYNC_WORD : Z;
  GBP_COMMAND_INIT : Z;
  GBP_COMMAND_DATA : Z;
  GBP_COMMAND_PRINT : Z;
  GBP_COMMAND_INQUIRY : Z;
  GBP_DEVICE_ID : Z;
  gbp_status_byte : gbp_printer_status_t -> Z
}.

(** The four functions that are declared [static bool] and whose body has
    no [return] statement, each with the object its pointer argument points
    to once the stores of the body are made. *)
Inductive closing_brace : Set :=
  | in_gbp_rx_tx_byte_reset (ptr : gbp_rx_tx_byte_buffer_t)
  | in_gbp_rx_tx_byte_set (ptr : gbp_rx_tx_byte_buffer_t)
  | in_gbp_parse_message_reset (ptr : gbp_packet_parser_t)
  | in_gbp_printer_init (ptr : gbp_printer_t).

(** What a call does: it returns, or it never returns ([while (1);], with
    the state at that point), or it stores outside of the array it was
    given, or control reaches the closing brace of a function that has to
    return a value.  The language leaves the last two undefined: nothing
    is said of the program from there on. *)
Inductive outcome (A : Type) : Type :=
  | Returned (a : A)
  | Hangs (s : gbp_printer_t)
  | OutOfBounds (b : option buffer_t) (i : Z)
  | FlowsOffEnd (f : closing_brace).
Arguments Returned {A} a.
Arguments Hangs {A} s.
Arguments OutOfBounds {A} b i.
Arguments FlowsOffEnd {A} f.

Definition bind {A B : Type} (o : outcome A) (k : A -> outcome B) : outcome B :=
  match o with
  | Returned a => k a
  | Hangs s => Hangs s
  | OutOfBounds b i => OutOfBounds b i
  | FlowsOffEnd f => FlowsOffEnd f
  end.

(** ** Field updates *)

Definition set_parse_state (v : gbp_parse_state_t) (p : gbp_packet_parser_t) :=
  mk_parser v (data_index p) (calculated_checksum p) (crc_high p) (crc_low p).
Definition set_data_index (v : Z) (p : gbp_packet_parser_t) :=
  mk_parser (parse_state p) v (calculated_checksum p) (crc_high p) (crc_low p).
Definition set_calculated_checksum (v : Z) (p : gbp_packet_parser_t) :=
  mk_parser (parse_state p) (data_index p) v (crc_high p) (crc_low p).
Definition set_crc_high (v : Z) (p : gbp_packet_parser_t) :=
  mk_parser (parse_state p) (data_index p) (calculated_checksum p) v (crc_low p).
Definition set_crc_low (v : Z) (p : gbp_packet_parser_t) :=
  mk_parser (parse_state p) (data_index p) (calculated_checksum p) (crc_high p) v.

Definition set_command (v : Z) (k : gbp_packet_t) :=
  mk_packet v (compression k) (data_length k) (data_ptr k) (checksum k)
            (acknowledgement k) (printer_status k).
Definition set_compression (v : Z) (k : gbp_packet_t) :=
  mk_packet (command k) v (data_length k) (data_ptr k) (checksum k)
            (acknowledgement k) (printer_status k).
Definition set_data_length (v : Z) (k : gbp_packet_t) :=
  mk_packet (command k) (compression k) v (data_ptr k) (checksum k)
            (acknowledgement k) (printer_status k).
Definition set_data_ptr (v : option buffer_t) (k : gbp_packet_t) :=
  mk_packet (command k) (compression k) (data_length k) v (checksum k)
            (acknowledgement k) (printer_status k).
Definition set_checksum (v : Z) (k : gbp_packet_t) :=
  mk_packet (command k) (compression k) (data_length k) (data_ptr k) v
            (acknowledgement k) (printer_status k).
Definition set_acknowledgement (v : Z) (k : gbp_packet_t) :=
  mk_packet (command k) (compression k) (data_length k) (data_ptr k) (checksum k)
            v (printer_status k).
Definition set_printer_status (v : Z) (k : gbp_packet_t) :=
  mk_packet (command k) (compression k) (data_length k) (data_ptr k) (checksum k)
            (acknowledgement k) v.

Definition set_checksum_error (v : bool) (t : gbp_printer_status_t) :=
  mk_status v (unprocessed_data t) (print_buffer_full t) (printer_busy t).
Definition set_unprocessed_data (v : bool) (t : gbp_printer_status_t) :=
  mk_status (checksum_error t) v (print_buffer_full t) (printer_busy t).
Definition set_print_buffer_full (v : bool) (t : gbp_printer_status_t) :=
  mk_status (checksum_error t) (unprocessed_data t) v (printer_busy t).
Definition set_printer_busy (v : bool) (t : gbp_printer_status_t) :=
  mk_status (checksum_error t) (unprocessed_data t) (print_buffer_full t) v.

Definition set_serial_clock_state_prev (v : bool) (r : gbp_rx_tx_byte_buffer_t) :=
  mk_rx_tx (initialized r) v (syncronised r) (sync_word r) (sync_buffer r)
           (byte_frame_bit_pos r) (rx_byte_buffer r) (tx_byte_staging r) (tx_byte_buffer r).
Definition set_initialized (v : bool) (r : gbp_rx_tx_byte_buffer_t) :=
  mk_rx_tx v (serial_clock_state_prev r) (syncronised r) (sync_word r) (sync_buffer r)
           (byte_frame_bit_pos r) (rx_byte_buffer r) (tx_byte_staging r) (tx_byte_buffer r).
Definition set_syncronised (v : bool) (r : gbp_rx_tx_byte_buffer_t) :=
  mk_rx_tx (initialized r) (serial_clock_state_prev r) v (sync_word r) (sync_buffer r)
           (byte_frame_bit_pos r) (rx_byte_buffer r) (tx_byte_staging r) (tx_byte_buffer r).
Definition set_sync_word (v : Z) (r : gbp_rx_tx_byte_buffer_t) :=
  mk_rx_tx (initialized r) (serial_clock_state_prev r) (syncronised r) v
           (sync_buffer r) (byte_frame_bit_pos r) (rx_byte_buffer r) (tx_byte_staging r)
           (tx_byte_buffer r).
Definition set_sync_buffer (v : Z) (r : gbp_rx_tx_byte_buffer_t) :=
  mk_rx_tx (initialized r) (serial_clock_state_prev r) (syncronised r) (sync_word r) v
           (byte_frame_bit_pos r) (rx_byte_buffer r) (tx_byte_staging r) (tx_byte_buffer r).
Definition set_byte_frame_bit_pos (v : Z) (r : gbp_rx_tx_byte_buffer_t) :=
  mk_rx_tx (initialized r) (serial_clock_state_prev r) (syncronised r) (sync_word r)
           (sync_buffer r) v (rx_byte_buffer r) (tx_byte_staging r) (tx_byte_buffer r).
Definition set_rx_byte_buffer (v : Z) (r : gbp_rx_tx_byte_buffer_t) :=
  mk_rx_tx (initialized r) (serial_clock_state_prev r) (syncronised r) (sync_word r)
           (sync_buffer r) (byte_frame_bit_pos r) v (tx_byte_staging r) (tx_byte_buffer r).
Definition set_tx_byte_staging (v : Z) (r : gbp_rx_tx_byte_buffer_t) :=
  mk_rx_tx (initialized r) (serial_clock_state_prev r) (syncronised r) (sync_word r)
           (sync_buffer r) (byte_frame_bit_pos r) (rx_byte_buffer r) v (tx_byte_buffer r).
Definition set_tx_byte_buffer (v : Z) (r : gbp_rx_tx_byte_buffer_t) :=
  mk_rx_tx (initialized r) (serial_clock_state_prev r) (syncronised r) (sync_word r)
           (sync_buffer r) (byte_frame_bit_pos r) (rx_byte_buffer r) (tx_byte_staging r) v.

Definition set_printer_initialized (v : bool) (s : gbp_printer_t) :=
  mk_printer v (gbp_printer_status s) (gbp_rx_tx_byte_buffer s) (gbp_packet_parser s)
             (gbp_packet s) (packet_ready_flag s) (gbp_print_settings_buffer s)
             (gbp_print_buffer s) (uptime_til_timeout_ms s)
             (uptime_til_pretend_print_finish_ms s).
Definition set_gbp_printer_status (v : gbp_printer_status_t) (s : gbp_printer_t) :=
  mk_printer (printer_initialized s) v (gbp_rx_tx_byte_buffer s) (gbp_packet_parser s)
             (gbp_packet s) (packet_ready_flag s) (gbp_print_settings_buffer s)
             (gbp_print_buffer s) (uptime_til_timeout_ms s)
             (uptime_til_pretend_print_finish_ms s).
Definition set_gbp_rx_tx_byte_buffer (v : gbp_rx_tx_byte_buffer_t) (s : gbp_printer_t) :=
  mk_printer (printer_initialized s) (gbp_printer_status s) v (gbp_packet_parser s)
             (gbp_packet s) (packet_ready_flag s) (gbp_print_settings_buffer s)
             (gbp_print_buffer s) (uptime_til_timeout_ms s)
             (uptime_til_pretend_print_finish_ms s).
Definition set_gbp_packet_parser (v : gbp_packet_parser_t) (s : gbp_printer_t) :=
  mk_printer (printer_initialized s) (gbp_printer_status s) (gbp_rx_tx_byte_buffer s) v
             (gbp_packet s) (packet_ready_flag s) (gbp_print_settings_buffer s)
             (gbp_print_buffer s) (uptime_til_timeout_ms s)
             (uptime_til_pretend_print_finish_ms s).
Definition set_gbp_packet (v : gbp_packet_t) (s : gbp_printer_t) :=
  mk_printer (printer_initialized s) (gbp_printer_status s) (gbp_rx_tx_byte_buffer s)
             (gbp_packet_parser s) v (packet_ready_flag s) (gbp_print_settings_buffer s)
             (gbp_print_buffer s) (uptime_til_timeout_ms s)
             (uptime_til_pretend_print_finish_ms s).
Definition set_packet_ready_flag (v : bool) (s : gbp_printer_t) :=
  mk_printer (printer_initialized s) (gbp_printer_status s) (gbp_rx_tx_byte_buffer s)
             (gbp_packet_parser s) (gbp_packet s) v (gbp_print_settings_buffer s)
             (gbp_print_buffer s) (uptime_til_timeout_ms s)
             (uptime_til_pretend_print_finish_ms s).
Definition set_gbp_print_settings_buffer (v : list Z) (s : gbp_printer_t) :=
  mk_printer (printer_initialized s) (gbp_printer_status s) (gbp_rx_tx_byte_buffer s)
             (gbp_packet_parser s) (gbp_packet s) (packet_ready_flag s) v
             (gbp_print_buffer s) (uptime_til_timeout_ms s)
             (uptime_til_pretend_print_finish_ms s).
Definition set_gbp_print_buffer (v : list Z) (s : gbp_printer_t) :=
  mk_printer (printer_initialized s) (gbp_printer_status s) (gbp_rx_tx_byte_buffer s)
             (gbp_packet_parser s) (gbp_packet s) (packet_ready_flag s)
             (gbp_print_settings_buffer s) v (uptime_til_timeout_ms s)
             (uptime_til_pretend_print_finish_ms s).
Definition set_uptime_til_timeout_ms (v : Z) (s : gbp_printer_t) :=
  mk_printer (printer_initialized s) (gbp_printer_status s) (gbp_rx_tx_byte_buffer s)
             (gbp_packet_parser s) (gbp_packet s) (packet_ready_flag s)
             (gbp_print_settings_buffer s) (gbp_print_buffer s) v
             (uptime_til_pretend_print_finish_ms s).
Definition set_uptime_til_pretend_print_finish_ms (v : Z) (s : gbp_printer_t) :=
  mk_printer (printer_initialized s) (gbp_printer_status s) (gbp_rx_tx_byte_buffer s)
             (gbp_packet_parser s) (gbp_packet s) (packet_ready_flag s)
             (gbp_print_settings_buffer s) (gbp_print_buffer s)
             (uptime_til_timeout_ms s) v.

(** The array a [data_ptr] points to, and the store [data_ptr[i] = v]
    when [i] is inside of it. *)
Definition buffer_of (b : buffer_t) (s : gbp_printer_t) : list Z :=
  match b with
  | print_buffer => gbp_print_buffer s
  | print_settings_buffer => gbp_print_settings_buffer s
  end.

Definition store (b : buffer_t) (i : Z) (v : Z) (s : gbp_printer_t) : gbp_printer_t :=
  match b with
  | print_buffer =>
      set_gbp_print_buffer (<[Z.to_nat i := v]> (gbp_print_buffer s)) s
  | print_settings_buffer =>
      set_gbp_print_settings_buffer (<[Z.to_nat i := v]> (gbp_print_settings_buffer s)) s
  end.

Section Code.
Context `{gbp_protocol}.

(** ** Byte streamer *)

(** [*ptr = {0}], then the three assignments.  The function is declared
    [static bool] and its body ends without a [return]. *)
Definition gbp_rx_tx_byte_reset (ptr : gbp_rx_tx_byte_buffer_t)
  : outcome gbp_rx_tx_byte_buffer_t :=
  let ptr := mk_rx_tx false false false 0 0 0 0 0 0 in
  let ptr := set_initialized true ptr in
  let ptr := set_syncronised false ptr in
  let ptr := set_sync_word (u16 GBP_SYNC_WORD) ptr in
  FlowsOffEnd (in_gbp_rx_tx_byte_reset ptr).

(** Declared [static bool], no [return]. *)
Definition gbp_rx_tx_byte_set (ptr : gbp_rx_tx_byte_buffer_t) (tx_byte : Z)
  : outcome gbp_rx_tx_byte_buffer_t :=
  let ptr := set_tx_byte_staging tx_byte ptr in
  FlowsOffEnd (in_gbp_rx_tx_byte_set ptr).

(** What one call of [gbp_rx_tx_byte_update] leaves behind: the buffer, the
    byte when the call returns [true], [*rx_bitState], and the level written
    to [GBP_SI_PIN] when [digitalWrite] is called. *)
Record rx_tx_update_t : Set := mk_update {
  rx_tx_ptr : gbp_rx_tx_byte_buffer_t;
  rx_byte_out : option Z;
  rx_bitState : Z;
  si_pin_write : option bool
}.

(** Rising clock, not synchronised: the preamble scan. *)
Definition sync_scan (ptr : gbp_rx_tx_byte_buffer_t) (serial_out_state : bool)
  : gbp_rx_tx_byte_buffer_t :=
  let ptr := set_sync_buffer (u16 (Z.shiftl (sync_buffer ptr) 1)) ptr in
  let ptr := if serial_out_state
             then set_sync_buffer (u16 (Z.lor (sync_buffer ptr) 1)) ptr
             else ptr in
  if sync_buffer ptr =? sync_word ptr
  then set_byte_frame_bit_pos 7 (set_syncronised true ptr)
  else ptr.

(** Rising clock, synchronised: byte read mode. *)
Definition byte_read (ptr : gbp_rx_tx_byte_buffer_t) (serial_out_state : bool)
  : gbp_rx_tx_byte_buffer_t * option Z :=
  let ptr := if serial_out_state
             then set_rx_byte_buffer
                    (u8 (Z.lor (rx_byte_buffer ptr) (Z.shiftl 1 (byte_frame_bit_pos ptr)))) ptr
             else ptr in
  if byte_frame_bit_pos ptr >? 0
  then (set_byte_frame_bit_pos (u8 (byte_frame_bit_pos ptr - 1)) ptr, None)
  else
    let rx_byte := rx_byte_buffer ptr in
    let ptr := set_byte_frame_bit_pos 7 ptr in
    let ptr := set_rx_byte_buffer 0 ptr in
    (ptr, Some rx_byte).

(** Falling clock.  The source reads
    [if ((ptr->syncronised)) ; { ... }]: the [if] guards the empty statement
    and the block after it runs on every falling edge. *)
Definition bit_tx (ptr : gbp_rx_tx_byte_buffer_t) : gbp_rx_tx_byte_buffer_t * bool :=
  let _ := if syncronised ptr then tt else tt in
  let ptr := if 7 =? byte_frame_bit_pos ptr
             then if nonzero (tx_byte_staging ptr)
                  then set_tx_byte_buffer (tx_byte_staging ptr) ptr
                  else set_tx_byte_buffer 0 ptr
             else ptr in
  (ptr, nonzero (Z.land (tx_byte_buffer ptr) (Z.shiftl 1 (byte_frame_bit_pos ptr)))).

(** [gbp_rx_tx_byte_update] from the comment [Clock Edge Detection] on,
    that is past the test of [initialized]: the edge detection, and the
    final store of [serial_clock_state_prev]. *)
Definition clock_edge (ptr : gbp_rx_tx_byte_buffer_t)
    (serial_clock_state serial_out_state : bool) : rx_tx_update_t :=
  let r :=
    if negb (eqb serial_clock_state (serial_clock_state_prev ptr)) then
      if serial_clock_state then
        let bit := if serial_out_state then 1 else 0 in
        if negb (syncronised ptr)
        then mk_update (sync_scan ptr serial_out_state) None bit None
        else let '(ptr, rx) := byte_read ptr serial_out_state in
             mk_update ptr rx bit None
      else
        let '(ptr, level) := bit_tx ptr in
        mk_update ptr None NO_NEW_BIT (Some level)
    else mk_update ptr None NO_NEW_BIT None in
  mk_update (set_serial_clock_state_prev serial_clock_state (rx_tx_ptr r))
            (rx_byte_out r) (rx_bitState r) (si_pin_write r).

(** [serial_clock_state] and [serial_out_state] are the two [digitalRead]s.
    The first call on a streamer that is not initialised goes through
    [gbp_rx_tx_byte_reset]. *)
Definition gbp_rx_tx_byte_update (ptr : gbp_rx_tx_byte_buffer_t)
    (serial_clock_state serial_out_state : bool) : outcome rx_tx_update_t :=
  if negb (initialized ptr) then
    bind (gbp_rx_tx_byte_reset ptr) (fun ptr =>
    let ptr := set_initialized true ptr in
    let ptr := set_serial_clock_state_prev serial_clock_state ptr in
    Returned (mk_update ptr None NO_NEW_BIT None))
  else Returned (clock_edge ptr serial_clock_state serial_out_state).

(** ** Message parser *)

(** [*ptr = {(gbp_parse_state_t)0, 0}]; declared [static bool], no
    [return]. *)
Definition gbp_parse_message_reset (ptr : gbp_packet_parser_t)
  : outcome gbp_packet_parser_t :=
  let ptr := mk_parser GBP_PARSE_STATE_COMMAND 0 0 0 0 in
  FlowsOffEnd (in_gbp_parse_message_reset ptr).

Definition upd_parser (f : gbp_packet_parser_t -> gbp_packet_parser_t) (s : gbp_printer_t) :=
  set_gbp_packet_parser (f (gbp_packet_parser s)) s.
Definition upd_packet (f : gbp_packet_t -> gbp_packet_t) (s : gbp_printer_t) :=
  set_gbp_packet (f (gbp_packet s)) s.
Definition upd_status (f : gbp_printer_status_t -> gbp_printer_status_t) (s : gbp_printer_t) :=
  set_gbp_printer_status (f (gbp_printer_status s)) s.

Definition st (s : gbp_printer_t) : gbp_parse_state_t := parse_state (gbp_packet_parser s).

(** [calculated_checksum += rx_byte] *)
Definition tally (rx_byte : Z) (s : gbp_printer_t) : gbp_printer_t :=
  upd_parser (fun p => set_calculated_checksum (u16 (calculated_checksum p + rx_byte)) p) s.

(** The [switch (packet_ptr->command)] of the COMMAND stage. *)
Definition select_data_ptr (cmd : Z) : option buffer_t :=
  if cmd =? GBP_COMMAND_INIT then None
  else if cmd =? GBP_COMMAND_DATA then Some print_buffer
  else if cmd =? GBP_COMMAND_PRINT then Some print_settings_buffer
  else if cmd =? GBP_COMMAND_INQUIRY then None
  else None.

(** First half of [gbp_parse_message_update]: the [switch] under
    [if (new_rx_byte)]. *)
Definition new_bytes (s : gbp_printer_t) (rx_byte : Z) : outcome gbp_printer_t :=
  match st s with
  | GBP_PARSE_STATE_COMMAND =>
      let s := upd_parser (set_parse_state GBP_PARSE_STATE_COMPRESSION) s in
      let s := upd_packet (set_command rx_byte) s in
      let s := upd_packet (set_data_ptr (select_data_ptr (command (gbp_packet s)))) s in
      let s := upd_parser (set_calculated_checksum 0) s in
      Returned (tally rx_byte s)
  | GBP_PARSE_STATE_COMPRESSION =>
      let s := upd_parser (set_parse_state GBP_PARSE_STATE_DATA_LENGTH_LOW) s in
      let s := upd_packet (set_compression rx_byte) s in
      Returned (tally rx_byte s)
  | GBP_PARSE_STATE_DATA_LENGTH_LOW =>
      let s := upd_parser (set_parse_state GBP_PARSE_STATE_PACKET_DATA_LENGTH_HIGH) s in
      let s := upd_packet (fun k => set_data_length
                 (u16 (Z.lor (data_length k) (Z.land (Z.shiftl rx_byte 0) 0x00FF))) k) s in
      Returned (tally rx_byte s)
  | GBP_PARSE_STATE_PACKET_DATA_LENGTH_HIGH =>
      let s := upd_packet (fun k => set_data_length
                 (u16 (Z.lor (data_length k) (Z.land (Z.shiftl rx_byte 8) 0xFF00))) k) s in
      bind (if data_length (gbp_packet s) >? 0 then
              match data_ptr (gbp_packet s) with
              | None => Hangs s
              | Some _ =>
                  Returned (upd_parser (set_parse_state GBP_PARSE_STATE_VARIABLE_PAYLOAD) s)
              end
            else Returned (upd_parser (set_parse_state GBP_PARSE_STATE_CHECKSUM_LOW) s))
           (fun s => Returned (tally rx_byte s))
  | GBP_PARSE_STATE_VARIABLE_PAYLOAD =>
      let i := data_index (gbp_packet_parser s) in
      match data_ptr (gbp_packet s) with
      | None => OutOfBounds None i
      | Some b =>
          if (0 <=? i) && (i <? capacity b) then
            let s := store b i rx_byte s in
            let s := tally rx_byte s in
            let s := upd_parser (fun p => set_data_index (u16 (data_index p + 1)) p) s in
            if data_index (gbp_packet_parser s) >? data_length (gbp_packet s)
            then Returned (upd_parser (set_parse_state GBP_PARSE_STATE_CHECKSUM_LOW) s)
            else Returned s
          else OutOfBounds (Some b) i
      end
  | GBP_PARSE_STATE_CHECKSUM_LOW =>
      let s := upd_parser (set_parse_state GBP_PARSE_STATE_CHECKSUM_HIGH) s in
      let s := upd_packet (set_checksum 0) s in
      let s := upd_packet (fun k => set_checksum
                 (u16 (Z.lor (checksum k) (Z.land (Z.shiftl rx_byte 0) 0x00FF))) k) s in
      Returned (upd_parser (set_crc_low rx_byte) s)
  | GBP_PARSE_STATE_CHECKSUM_HIGH =>
      let s := upd_parser (set_parse_state GBP_PARSE_STATE_DEVICE_ID) s in
      let s := upd_packet (fun k => set_checksum
                 (u16 (Z.lor (checksum k) (Z.land (Z.shiftl rx_byte 8) 0xFF00))) k) s in
      Returned (upd_parser (set_crc_high rx_byte) s)
  | GBP_PARSE_STATE_DEVICE_ID =>
      Returned (upd_parser (set_parse_state GBP_PARSE_STATE_PRINTER_STATUS) s)
  | GBP_PARSE_STATE_PRINTER_STATUS =>
      Returned (upd_parser (set_parse_state GBP_PARSE_STATE_PACKET_RECEIVED) s)
  | GBP_PARSE_STATE_PACKET_RECEIVED => Returned s
  | GBP_PARSE_STATE_DIAGNOSTICS => Returned s
  end.

(** The [switch (packet_ptr->command)] of the PRINTER_STATUS entry; it has
    no [default].  [millis] is the value [millis()] returns. *)
Definition status_for_command (millis : Z) (s : gbp_printer_t) : gbp_printer_t :=
  let cmd := command (gbp_packet s) in
  if cmd =? GBP_COMMAND_INIT then s
  else if cmd =? GBP_COMMAND_DATA then upd_status (set_unprocessed_data true) s
  else if cmd =? GBP_COMMAND_PRINT then
    let s := upd_status (set_unprocessed_data false) s in
    let s := upd_status (set_print_buffer_full true) s in
    let s := upd_status (set_printer_busy true) s in
    set_uptime_til_pretend_print_finish_ms
      (u32 (millis + GBP_PACKET_PRETEND_PRINT_TIME_MS)) s
  else if cmd =? GBP_COMMAND_INQUIRY then s
  else s.

(** Second half of [gbp_parse_message_update]: the [switch] under
    [if (ptr->parse_state != parse_state_prev)].  The second component is
    [*tx_byte] when [*new_tx_byte] is set. *)
Definition init_next_stage (millis : Z) (s : gbp_printer_t) : gbp_printer_t * option Z :=
  match st s with
  | GBP_PARSE_STATE_COMMAND => (s, None)
  | GBP_PARSE_STATE_COMPRESSION => (s, None)
  | GBP_PARSE_STATE_DATA_LENGTH_LOW => (upd_packet (set_data_length 0) s, None)
  | GBP_PARSE_STATE_PACKET_DATA_LENGTH_HIGH => (s, None)
  | GBP_PARSE_STATE_VARIABLE_PAYLOAD => (upd_parser (set_data_index 0) s, None)
  | GBP_PARSE_STATE_CHECKSUM_LOW => (s, None)
  | GBP_PARSE_STATE_CHECKSUM_HIGH => (s, None)
  | GBP_PARSE_STATE_DEVICE_ID =>
      let tx_byte := u8 GBP_DEVICE_ID in
      (upd_packet (set_acknowledgement tx_byte) s, Some tx_byte)
  | GBP_PARSE_STATE_PRINTER_STATUS =>
      let s := if calculated_checksum (gbp_packet_parser s) =? checksum (gbp_packet s)
               then upd_status (set_checksum_error false) s
               else upd_status (set_checksum_error true) s in
      let s := status_for_command millis s in
      let tx_byte := u8 (gbp_status_byte (gbp_printer_status s)) in
      (upd_packet (set_printer_status tx_byte) s, Some tx_byte)
  | GBP_PARSE_STATE_PACKET_RECEIVED => (set_packet_ready_flag true s, None)
  | GBP_PARSE_STATE_DIAGNOSTICS => (s, None)
  end.

(** [gbp_parse_message_update] at its call site: [ptr], [packet_ready_flag]
    and [packet_ptr] point into [*printer_ptr], which is the global
    [gbp_printer].  [rx] is [Some rx_byte] when [new_rx_byte] is set. *)
Definition gbp_parse_message_update (s : gbp_printer_t) (rx : option Z) (millis : Z)
  : outcome (gbp_printer_t * option Z) :=
  let parse_state_prev := st s in
  bind (match rx with
        | Some rx_byte => new_bytes s rx_byte
        | None => Returned s
        end)
       (fun s =>
          if negb (parse_state_eqb (st s) parse_state_prev)
          then Returned (init_next_stage millis s)
          else Returned (s, None)).

(** ** The printer *)

(** Declared [static bool], no [return]; the two functions it calls are
    of the same kind. *)
Definition gbp_printer_init (ptr : gbp_printer_t) : outcome gbp_printer_t :=
  let ptr := set_printer_initialized true ptr in
  let ptr := set_gbp_printer_status (mk_status false false false false) ptr in
  bind (gbp_rx_tx_byte_reset (gbp_rx_tx_byte_buffer ptr)) (fun rx_tx =>
  let ptr := set_gbp_rx_tx_byte_buffer rx_tx ptr in
  bind (gbp_parse_message_reset (gbp_packet_parser ptr)) (fun parser =>
  let ptr := set_gbp_packet_parser parser ptr in
  FlowsOffEnd (in_gbp_printer_init ptr))).

(** The global [gbp_printer] before [gameboy_printer_setup]: static
    storage is zero-initialised. *)
Definition gbp_printer_zero : gbp_printer_t :=
  mk_printer false (mk_status false false false false)
             (mk_rx_tx false false false 0 0 0 0 0 0)
             (mk_parser GBP_PARSE_STATE_COMMAND 0 0 0 0)
             (mk_packet 0 0 0 None 0 0 0) false
             (replicate 4 0) (replicate 650 0) 0 0.

(** [serialClock_ISR]; the result carries the level written to
    [GBP_SI_PIN], if any. *)
Definition serialClock_ISR (s : gbp_printer_t)
    (serial_clock_state serial_out_state : bool) (millis : Z)
  : outcome (gbp_printer_t * option bool) :=
  bind (gbp_rx_tx_byte_update (gbp_rx_tx_byte_buffer s)
                              serial_clock_state serial_out_state) (fun r =>
  let s := set_gbp_rx_tx_byte_buffer (rx_tx_ptr r) s in
  let s := match rx_byte_out r with
           | Some _ =>
               if syncronised (gbp_rx_tx_byte_buffer s)
               then set_uptime_til_timeout_ms (u32 (millis + GBP_PACKET_TIMEOUT_MS)) s
               else s
           | None => s
           end in
  bind (gbp_parse_message_update s (rx_byte_out r) millis) (fun '(s, tx) =>
  match tx with
  | Some tx_byte =>
      bind (gbp_rx_tx_byte_set (gbp_rx_tx_byte_buffer s) tx_byte) (fun rx_tx =>
      Returned (set_gbp_rx_tx_byte_buffer rx_tx s, si_pin_write r))
  | None => Returned (s, si_pin_write r)
  end)).

(** ** Driving the code *)

(** The parser fed with a list of received bytes, one call per byte. *)
Fixpoint feed (s : gbp_printer_t) (millis : Z) (bytes : list Z) : outcome gbp_printer_t :=
  match bytes with
  | [] => Returned s
  | b :: bytes =>
      bind (gbp_parse_message_update s (Some b) millis)
           (fun '(s, _) => feed s millis bytes)
  end.

(** One clock period seen by the streamer: the call on the falling edge,
    then the call on the rising edge, on which [bit] is sampled.  The
    result is the streamer, the level written on the falling edge and the
    byte completed on the rising edge. *)
Definition clock_period (ptr : gbp_rx_tx_byte_buffer_t) (bit : bool)
  : outcome (gbp_rx_tx_byte_buffer_t * option bool * option Z) :=
  bind (gbp_rx_tx_byte_update ptr false bit) (fun f =>
  bind (gbp_rx_tx_byte_update (rx_tx_ptr f) true bit) (fun r =>
  Returned (rx_tx_ptr r, si_pin_write f, rx_byte_out r))).

(** The streamer after the clock periods of [bits]. *)
Fixpoint clock_in (ptr : gbp_rx_tx_byte_buffer_t) (bits : list bool)
  : outcome gbp_rx_tx_byte_buffer_t :=
  match bits with
  | [] => Returned ptr
  | b :: bits => bind (clock_period ptr b) (fun r => clock_in r.1.1 bits)
  end.

(** The levels written to the pin during the clock periods of [bits]. *)
Fixpoint clock_out (ptr : gbp_rx_tx_byte_buffer_t) (bits : list bool)
  : outcome (list (option bool)) :=
  match bits with
  | [] => Returned []
  | b :: bits =>
      bind (clock_period ptr b) (fun r =>
      bind (clock_out r.1.1 bits) (fun levels =>
      Returned (r.1.2 :: levels)))
  end.

(** What the rising edges of the clock periods of [bits] deliver: the
    completed byte, or nothing. *)
Fixpoint clock_bytes (ptr : gbp_rx_tx_byte_buffer_t) (bits : list bool)
  : outcome (list (option Z)) :=
  match bits with
  | [] => Returned []
  | b :: bits =>
      bind (clock_period ptr b) (fun r =>
      bind (clock_bytes r.1.1 bits) (fun bytes =>
      Returned (r.2 :: bytes)))
  end.

(** The streamer over a list of samples, one call of
    [gbp_rx_tx_byte_update] per pair of clock level and data level. *)
Fixpoint sample_in (ptr : gbp_rx_tx_byte_buffer_t) (samples : list (bool * bool))
  : outcome gbp_rx_tx_byte_buffer_t :=
  match samples with
  | [] => Returned ptr
  | (serial_clock_state, serial_out_state) :: samples =>
      bind (gbp_rx_tx_byte_update ptr serial_clock_state serial_out_state) (fun r =>
      sample_in (rx_tx_ptr r) samples)
  end.

(** *** The initialised streamer

    On an initialised streamer [gbp_rx_tx_byte_update] returns what
    [clock_edge] computes, and the streamer stays initialised.  These are
    the runs above with [clock_edge] for the call. *)
Definition edge_period (ptr : gbp_rx_tx_byte_buffer_t) (bit : bool)
  : gbp_rx_tx_byte_buffer_t * option bool * option Z :=
  let f := clock_edge ptr false bit in
  let r := clock_edge (rx_tx_ptr f) true bit in
  (rx_tx_ptr r, si_pin_write f, rx_byte_out r).

Fixpoint edges_in (ptr : gbp_rx_tx_byte_buffer_t) (bits : list bool)
  : gbp_rx_tx_byte_buffer_t :=
  match bits with
  | [] => ptr
  | b :: bits => edges_in (edge_period ptr b).1.1 bits
  end.

Fixpoint edges_out (ptr : gbp_rx_tx_byte_buffer_t) (bits : list bool)
  : list (option bool) :=
  match bits with
  | [] => []
  | b :: bits => (edge_period ptr b).1.2 :: edges_out (edge_period ptr b).1.1 bits
  end.

Fixpoint edges_bytes (ptr : gbp_rx_tx_byte_buffer_t) (bits : list bool)
  : list (option Z) :=
  match bits with
  | [] => []
  | b :: bits => (edge_period ptr b).2 :: edges_bytes (edge_period ptr b).1.1 bits
  end.

Fixpoint edges_sampled (ptr : gbp_rx_tx_byte_buffer_t) (samples : list (bool * bool))
  : gbp_rx_tx_byte_buffer_t :=
  match samples with
  | [] => ptr
  | (serial_clock_state, serial_out_state) :: samples =>
      edges_sampled (rx_tx_ptr (clock_edge ptr serial_clock_state serial_out_state)) samples
  end.

(** The interrupt routine over whole clock periods: it fires on the
    falling and on the rising edge of each period.  The levels written to
    the pin are collected. *)
Fixpoint isr_periods (s : gbp_printer_t) (millis : Z) (bits : list bool)
  : outcome (gbp_printer_t * list (option bool)) :=
  match bits with
  | [] => Returned (s, [])
  | b :: bits =>
      bind (serialClock_ISR s false b millis) (fun '(s, level) =>
      bind (serialClock_ISR s true b millis) (fun '(s, _) =>
      bind (isr_periods s millis bits) (fun '(s, levels) =>
      Returned (s, level :: levels))))
  end.

(** The bits of a [w]-bit word, most significant first. *)
Fixpoint msb_first (w : nat) (x : Z) : list bool :=
  match w with
  | O => []
  | S w => Z.testbit x (Z.of_nat w) :: msb_first w x
  end.

End Code.

(** ** A concrete contract

    The values the Game Boy Printer link protocol uses for the constants of
    the missing header: sync word 0x8833, commands INIT 0x01, PRINT 0x02,
    DATA 0x04 and INQUIRY 0x0F, device id 0x81, and a status byte with one
    bit per flag (bit 0 checksum error, bit 1 busy, bit 2 buffer full,
    bit 3 unprocessed data).  The theorems below hold for every contract;
    this one serves to run the code on concrete inputs. *)
Definition dmg_status_byte (t : gbp_printer_status_t) : Z :=
  Z.lor (Z.shiftl (Z.b2z (unprocessed_data t)) 3)
    (Z.lor (Z.shiftl (Z.b2z (print_buffer_full t)) 2)
       (Z.lor (Z.shiftl (Z.b2z (printer_busy t)) 1)
          (Z.shiftl (Z.b2z (checksum_error t)) 0))).

Definition dmg : gbp_protocol :=
  {| GBP_SYNC_WORD := 0x8833;
     GBP_COMMAND_INIT := 0x01;
     GBP_COMMAND_DATA := 0x04;
     GBP_COMMAND_PRINT := 0x02;
     GBP_COMMAND_INQUIRY := 0x0F;
     GBP_DEVICE_ID := 0x81;
     gbp_status_byte := dmg_status_byte |}.

(** An initialised printer under [dmg], with what the stores of
    [gbp_printer_init] put into the zeroed global: the streamer scanning
    for the sync word, the parser at COMMAND, flags and buffers clear. *)
Definition dmg_printer : gbp_printer_t :=
  mk_printer true (mk_status false false false false)
             (mk_rx_tx true false false 0x8833 0 0 0 0 0)
             (mk_parser GBP_PARSE_STATE_COMMAND 0 0 0 0)
             (mk_packet 0 0 0 None 0 0 0) false
             (replicate 4 0) (replicate 650 0) 0 0.

(** The streamer of [dmg_printer] once the sync word went by: synchronised,
    at the start of a byte frame, clock high. *)
Definition dmg_synced : gbp_rx_tx_byte_buffer_t :=
  mk_rx_tx true true true 0x8833 0x8833 7 0 0 0.

(** ** Notions used in the statements *)

(** Shifting one bit into the 16-bit sync buffer, as arithmetic. *)
Definition shift_in (buf : Z) (b : bool) : Z := (2 * buf + Z.b2z b) mod 65536.

(** The value of a bit string read most significant bit first. *)
Definition bits_value (bits : list bool) : Z :=
  fold_left (fun acc b => 2 * acc + Z.b2z b) bits 0.

(** The sync word [w] ends with the [k]-th of the sampled [bits]: the
    sixteen most recent bits at that point, those left in the sync buffer
    [buf] from before included, are the bits of [w], most significant
    first. *)
Definition sync_word_ends (w buf : Z) (bits : list bool) (k : nat) : Prop :=
  drop k (msb_first 16 buf ++ take k bits) = msb_first 16 w.

(** The numbers of the parse states, as the [enum] assigns them. *)
Definition state_number (a : gbp_parse_state_t) : Z :=
  match a with
  | GBP_PARSE_STATE_COMMAND => 0
  | GBP_PARSE_STATE_COMPRESSION => 1
  | GBP_PARSE_STATE_DATA_LENGTH_LOW => 2
  | GBP_PARSE_STATE_PACKET_DATA_LENGTH_HIGH => 3
  | GBP_PARSE_STATE_VARIABLE_PAYLOAD => 4
  | GBP_PARSE_STATE_CHECKSUM_LOW => 5
  | GBP_PARSE_STATE_CHECKSUM_HIGH => 6
  | GBP_PARSE_STATE_DEVICE_ID => 7
  | GBP_PARSE_STATE_PRINTER_STATUS => 8
  | GBP_PARSE_STATE_PACKET_RECEIVED => 9
  | GBP_PARSE_STATE_DIAGNOSTICS => 10
  end.

Section Stages.
Context `{gbp_protocol}.

(** The data length once its high byte [b] is in. *)
Definition length_with_high (s : gbp_printer_t) (b : Z) : Z :=
  u16 (Z.lor (data_length (gbp_packet s)) (Z.land (Z.shiftl b 8) 0xFF00)).

(** The parser after a payload byte was stored at the running index. *)
Definition payload_stored (s : gbp_printer_t) (buf : buffer_t) (b : Z) : gbp_printer_t :=
  upd_parser (fun p => set_data_index (u16 (data_index p + 1)) p)
    (tally b (store buf (data_index (gbp_packet_parser s)) b s)).

(** The received checksum once its high byte [b] is in. *)
Definition checksum_with_high (s : gbp_printer_t) (b : Z) : Z :=
  u16 (Z.lor (checksum (gbp_packet s)) (Z.land (Z.shiftl b 8) 0xFF00)).

(** The printer after the entry action of PRINTER_STATUS, before the
    status byte is recorded in the packet. *)
Definition status_entered (s : gbp_printer_t) (millis : Z) : gbp_printer_t :=
  status_for_command millis
    (upd_status
       (set_checksum_error
          (negb (calculated_checksum (gbp_packet_parser s) =? checksum (gbp_packet s))))
       (upd_parser (set_parse_state GBP_PARSE_STATE_PRINTER_STATUS) s)).

End Stages.

(** The printer of [dmg_printer] after the parser was fed [bytes]. *)
Definition dmg_fed (bytes : list Z) : gbp_printer_t :=
  match @feed dmg dmg_printer 0 bytes with
  | Returned s => s
  | _ => dmg_printer
  end.

(** The same after the first [n] bytes of an INQUIRY packet with a correct
    checksum. *)
Definition dmg_after (n : nat) : gbp_printer_t :=
  dmg_fed (take n [0x0F; 0; 0; 0; 0x0F; 0; 0; 0]).

(** The [n] integers from [i] on. *)
Fixpoint upto (i : Z) (n : nat) : list Z :=
  match n with
  | O => []
  | S n => i :: upto (i + 1) n
  end.

(** ** Notions used in the further statements *)

(** Every field of the streamer within the range of its C type, the bit
    position within a byte frame. *)
Definition rx_tx_in_range (ptr : gbp_rx_tx_byte_buffer_t) : Prop :=
  0 <= sync_word ptr < 65536 /\
  0 <= sync_buffer ptr < 65536 /\
  0 <= byte_frame_bit_pos ptr <= 7 /\
  0 <= rx_byte_buffer ptr < 256 /\
  0 <= tx_byte_staging ptr < 256 /\
  0 <= tx_byte_buffer ptr < 256.

(** The sum of a list of bytes. *)
Definition sum_bytes (bytes : list Z) : Z := fold_right Z.add 0 bytes.

(** * Properties *)

(** ** Bit arithmetic *)

Lemma land_bit (x k : Z) : 0 <= k -> nonzero (Z.land x (Z.shiftl 1 k)) = Z.testbit x k.
Proof.
  intros Hk. unfold nonzero. rewrite Z.shiftl_1_l.
  destruct (Z.testbit x k) eqn:Hb.
  - apply negb_true_iff, Z.eqb_neq. intros H0.
    assert (Ht : Z.testbit (Z.land x (2 ^ k)) k = true).
    { rewrite Z.land_spec, Hb, Z.pow2_bits_true by lia. reflexivity. }
    rewrite H0, Z.bits_0 in Ht. discriminate.
  - apply negb_false_iff, Z.eqb_eq. apply Z.bits_inj'. intros n Hn.
    rewrite Z.land_spec, Z.bits_0, Z.pow2_bits_eqb by lia.
    destruct (Z.eqb_spec k n) as [->|]; [rewrite Hb; reflexivity | apply andb_false_r].
Qed.

Lemma lor_one_even (x : Z) : Z.lor (2 * x) 1 = 2 * x + 1.
Proof.
  assert (L : Z.land (2 * x) 1 = 0).
  { change 1 with (Z.ones 1). rewrite Z.land_ones by lia.
    change (2 ^ 1) with 2. rewrite Z.mul_comm. apply Z.mod_mul. lia. }
  pose proof (Z.add_lor_land (2 * x) 1) as E. rewrite L in E. lia.
Qed.

Lemma sync_buffer_shift (buf : Z) (b : bool) :
  (if b then u16 (Z.lor (u16 (Z.shiftl buf 1)) 1) else u16 (Z.shiftl buf 1))
  = shift_in buf b.
Proof.
  unfold u16, shift_in. rewrite Z.shiftl_mul_pow2 by lia. change (2 ^ 1) with 2.
  replace (buf * 2) with (2 * buf) by lia.
  destruct b; cbn [Z.b2z]; [|f_equal; lia].
  replace ((2 * buf) mod 65536) with (2 * (buf mod 32768)).
  - rewrite lor_one_even.
    replace (2 * (buf mod 32768)) with ((2 * buf) mod 65536).
    + apply Z.add_mod_idemp_l. lia.
    + change 65536 with (2 * 32768). apply Zmult_mod_distr_l.
  - change 65536 with (2 * 32768). symmetry. apply Zmult_mod_distr_l.
Qed.

Lemma bits_value_snoc (bits : list bool) (b : bool) :
  bits_value (bits ++ [b]) = 2 * bits_value bits + Z.b2z b.
Proof. unfold bits_value. rewrite fold_left_app. reflexivity. Qed.

Lemma shift_in_snoc (bits : list bool) (b : bool) (buf : Z) :
  fold_left shift_in (bits ++ [b]) buf = shift_in (fold_left shift_in bits buf) b.
Proof. rewrite fold_left_app. reflexivity. Qed.

Lemma fold_shift_in (bits : list bool) (buf : Z) :
  fold_left shift_in bits buf mod 65536
  = (buf * 2 ^ Z.of_nat (length bits) + bits_value bits) mod 65536.
Proof.
  induction bits as [|b bits IH] using rev_ind.
  - cbn. f_equal. lia.
  - rewrite shift_in_snoc, bits_value_snoc, length_app, Nat2Z.inj_add.
    cbn [length]. rewrite Z.pow_add_r by lia. change (2 ^ Z.of_nat 1) with 2.
    unfold shift_in at 1. rewrite Z.mod_mod by lia.
    rewrite <- Z.add_mod_idemp_l, <- Z.mul_mod_idemp_r, IH by lia.
    rewrite Z.mul_mod_idemp_r, Z.add_mod_idemp_l by lia. f_equal. lia.
Qed.

Lemma msb_first_snoc (w : nat) (x : Z) :
  msb_first (S w) x = msb_first w (x / 2) ++ [Z.testbit x 0].
Proof.
  revert x. induction w as [|w IH]; intros x; [reflexivity|].
  change (msb_first (S (S w)) x) with (Z.testbit x (Z.of_nat (S w)) :: msb_first (S w) x).
  rewrite IH. cbn [msb_first app]. f_equal.
  rewrite Nat2Z.inj_succ, <- Z.div2_div, Z.div2_spec, Z.shiftr_spec by lia.
  reflexivity.
Qed.

Lemma length_msb_first (w : nat) (x : Z) : length (msb_first w x) = w.
Proof. induction w as [|w IH]; cbn; [|rewrite IH]; reflexivity. Qed.

Lemma bits_value_msb_first (w : nat) (x : Z) :
  bits_value (msb_first w x) = x mod 2 ^ Z.of_nat w.
Proof.
  revert x. induction w as [|w IH]; intros x.
  - cbn. symmetry. apply Z.mod_1_r.
  - rewrite msb_first_snoc, bits_value_snoc, IH, Nat2Z.inj_succ, Z.pow_succ_r by lia.
    rewrite Z.bit0_mod, (Z.rem_mul_r x 2 (2 ^ Z.of_nat w)) by lia. lia.
Qed.

(** Whatever the sync buffer held, the sixteen bits of a word leave
    exactly that word in it. *)
Lemma shift_in_word (w buf : Z) :
  0 <= w < 65536 -> fold_left shift_in (msb_first 16 w) buf = w.
Proof.
  intros Hw.
  assert (R : fold_left shift_in (msb_first 16 w) buf
              = fold_left shift_in (msb_first 16 w) buf mod 65536).
  { rewrite msb_first_snoc, shift_in_snoc. unfold shift_in at 1 3.
    rewrite Z.mod_mod by lia. reflexivity. }
  rewrite R, fold_shift_in, bits_value_msb_first, length_msb_first.
  change (2 ^ Z.of_nat 16) with 65536.
  rewrite Z.add_mod, Z.mod_mul, Z.mod_mod, Z.add_0_l, Z.mod_mod by lia.
  apply Z.mod_small. lia.
Qed.

(** The two bytes of a length or checksum field, low byte first, as the
    parser assembles them. *)
Lemma low_byte (lo : Z) :
  0 <= lo < 256 -> Z.lor 0 (Z.land (Z.shiftl lo 0) 0x00FF) = lo.
Proof.
  intros Hlo. rewrite Z.lor_0_l, Z.shiftl_0_r.
  change 255 with (Z.ones 8). rewrite Z.land_ones by lia. apply Z.mod_small. lia.
Qed.

Lemma high_byte (lo hi : Z) :
  0 <= lo < 256 -> 0 <= hi < 256 ->
  Z.lor lo (Z.land (Z.shiftl hi 8) 0xFF00) = lo + 256 * hi.
Proof.
  intros Hlo Hhi.
  assert (Hh : Z.land (Z.shiftl hi 8) 65280 = 256 * hi).
  { change 65280 with (Z.shiftl (Z.ones 8) 8).
    rewrite <- Z.shiftl_land, Z.land_ones, Z.mod_small, Z.shiftl_mul_pow2 by lia.
    change (2 ^ 8) with 256. lia. }
  rewrite Hh.
  assert (Hd : Z.land lo (256 * hi) = 0).
  { apply Z.bits_inj'. intros n Hn. rewrite Z.land_spec, Z.bits_0.
    destruct (Z.lt_ge_cases n 8) as [Hlt|Hge].
    - replace (256 * hi) with (Z.shiftl hi 8)
        by (rewrite Z.shiftl_mul_pow2 by lia; change (2 ^ 8) with 256; lia).
      rewrite Z.shiftl_spec_low by lia. apply andb_false_r.
    - rewrite (Z.bits_above_log2 lo n); [reflexivity|lia|].
      destruct (Z.eq_dec lo 0) as [->|Hne]; [cbn; lia|].
      apply Z.log2_lt_pow2; [lia|].
      apply Z.lt_le_trans with (2 ^ 8); [change (2 ^ 8) with 256; lia|].
      apply Z.pow_le_mono_r; lia. }
  pose proof (Z.add_lor_land lo (256 * hi)) as E. rewrite Hd in E. lia.
Qed.

Lemma word_of_bytes (lo hi : Z) :
  0 <= lo < 256 -> 0 <= hi < 256 ->
  u16 (Z.lor (u16 (Z.lor 0 (Z.land (Z.shiftl lo 0) 0x00FF))) (Z.land (Z.shiftl hi 8) 0xFF00))
  = lo + 256 * hi.
Proof.
  intros Hlo Hhi. rewrite (low_byte lo Hlo).
  unfold u16. rewrite (Z.mod_small lo) by lia.
  rewrite (high_byte lo hi Hlo Hhi). apply Z.mod_small. lia.
Qed.

#[local] Arguments Z.eqb : simpl never.
#[local] Arguments Z.gtb : simpl never.
#[local] Arguments Z.ltb : simpl never.
#[local] Arguments Z.leb : simpl never.
#[local] Arguments Z.lor : simpl never.
#[local] Arguments Z.land : simpl never.
#[local] Arguments nonzero : simpl never.
#[local] Arguments u8 : simpl never.
#[local] Arguments u16 : simpl never.
#[local] Arguments u32 : simpl never.
#[local] Arguments shift_in : simpl never.

Lemma bits_value_cons (b : bool) (bits : list bool) :
  bits_value (b :: bits) = Z.b2z b * 2 ^ Z.of_nat (length bits) + bits_value bits.
Proof.
  induction bits as [|c bits IH] using rev_ind.
  - cbn. destruct b; reflexivity.
  - change (b :: bits ++ [c]) with ((b :: bits) ++ [c]).
    rewrite !bits_value_snoc, IH, length_app, Nat2Z.inj_add.
    cbn [length]. rewrite Z.pow_add_r by lia. change (2 ^ Z.of_nat 1) with 2. lia.
Qed.

Lemma bits_value_range (bits : list bool) :
  0 <= bits_value bits < 2 ^ Z.of_nat (length bits).
Proof.
  induction bits as [|c bits IH] using rev_ind.
  - cbn. lia.
  - rewrite bits_value_snoc, length_app, Nat2Z.inj_add. cbn [length].
    rewrite Z.pow_add_r by lia. change (2 ^ Z.of_nat 1) with 2.
    destruct c; cbn [Z.b2z]; lia.
Qed.

Lemma bits_value_app (xs ys : list bool) :
  bits_value (xs ++ ys) = bits_value xs * 2 ^ Z.of_nat (length ys) + bits_value ys.
Proof.
  induction ys as [|y ys IH] using rev_ind.
  - rewrite app_nil_r. cbn. lia.
  - rewrite app_assoc, !bits_value_snoc, IH, length_app, Nat2Z.inj_add.
    cbn [length]. rewrite Z.pow_add_r by lia. change (2 ^ Z.of_nat 1) with 2. lia.
Qed.

(** A bit string is the binary expansion of its value. *)
Lemma msb_first_bits_value (bits : list bool) :
  msb_first (length bits) (bits_value bits) = bits.
Proof.
  induction bits as [|b bits IH] using rev_ind; [reflexivity|].
  rewrite length_app, Nat.add_comm. cbn [length Nat.add].
  rewrite msb_first_snoc, bits_value_snoc.
  replace ((2 * bits_value bits + Z.b2z b) / 2) with (bits_value bits).
  - rewrite IH. f_equal. f_equal. apply Z.testbit_0_r.
  - symmetry. rewrite Z.add_comm. apply Z.add_b2z_double_div2.
Qed.

(** The sync buffer holds the sixteen most recent bits: what it held
    before, followed by the sampled bits, cut to the last sixteen. *)
Lemma sync_buffer_window (buf : Z) (p : list bool) :
  0 <= buf < 65536 ->
  fold_left shift_in p buf mod 65536
  = bits_value (drop (length p) (msb_first 16 buf ++ p)).
Proof.
  intros Hb. rewrite fold_shift_in.
  set (l := msb_first 16 buf ++ p).
  assert (Hl : length l = (length p + 16)%nat)
    by (subst l; rewrite length_app, length_msb_first; lia).
  assert (Hv : bits_value l = buf * 2 ^ Z.of_nat (length p) + bits_value p).
  { subst l. rewrite bits_value_app, bits_value_msb_first.
    change (2 ^ Z.of_nat 16) with 65536. rewrite Z.mod_small by lia. reflexivity. }
  rewrite <- Hv, <- (take_drop (length p) l) at 1.
  rewrite bits_value_app.
  assert (Hd : length (drop (length p) l) = 16%nat) by (rewrite length_drop; lia).
  rewrite Hd. change (2 ^ Z.of_nat 16) with 65536.
  rewrite Z.add_comm, Z.mod_add by lia.
  pose proof (bits_value_range (drop (length p) l)) as R. rewrite Hd in R.
  change (2 ^ Z.of_nat 16) with 65536 in R. apply Z.mod_small, R.
Qed.

(** Whether the sync word ends with a given bit can be read off the sync
    buffer: it holds the word exactly then. *)
Lemma sync_word_ends_window (w buf : Z) (bits : list bool) (k : nat) :
  0 <= w < 65536 -> 0 <= buf < 65536 -> (k <= length bits)%nat ->
  fold_left shift_in (take k bits) buf = w <-> sync_word_ends w buf bits k.
Proof.
  intros Hw Hb Hk. unfold sync_word_ends.
  set (p := take k bits).
  assert (Hp : length p = k) by (subst p; rewrite length_take; lia).
  assert (Hr : fold_left shift_in p buf mod 65536 = fold_left shift_in p buf).
  { apply Z.mod_small. destruct p as [|b p _] using rev_ind; [exact Hb|].
    rewrite shift_in_snoc. unfold shift_in. apply Z.mod_pos_bound. lia. }
  pose proof (sync_buffer_window buf p Hb) as W. rewrite Hr, Hp in W.
  set (win := drop k (msb_first 16 buf ++ p)) in *.
  assert (Hl : length win = 16%nat).
  { subst win. rewrite length_drop, length_app, length_msb_first. lia. }
  split.
  - intros E. rewrite <- E, W, <- Hl. symmetry. apply msb_first_bits_value.
  - intros E. rewrite W, E, bits_value_msb_first.
    change (2 ^ Z.of_nat 16) with 65536. apply Z.mod_small, Hw.
Qed.

Lemma sync_word_ends_dec (w buf : Z) (bits : list bool) (k : nat) :
  sync_word_ends w buf bits k \/ ~ sync_word_ends w buf bits k.
Proof.
  unfold sync_word_ends.
  destruct (decide (drop k (msb_first 16 buf ++ take k bits) = msb_first 16 w)); auto.
Qed.

(** The sync word ends with the last of its own bits. *)
Lemma sync_word_ends_word (w buf : Z) (garbage : list bool) :
  sync_word_ends w buf (garbage ++ msb_first 16 w) (length garbage + 16).
Proof.
  unfold sync_word_ends. rewrite take_ge by (rewrite length_app, length_msb_first; lia).
  rewrite app_assoc, drop_app_length'; [reflexivity|].
  rewrite length_app, length_msb_first. lia.
Qed.

(** The first index from 1 on at which a decidable property holds. *)
Lemma first_index (P : nat -> Prop) (m : nat) :
  (forall k, P k \/ ~ P k) -> (0 < m)%nat -> P m ->
  exists n, (0 < n <= m)%nat /\ P n /\ forall k, (0 < k < n)%nat -> ~ P k.
Proof.
  intros dec Hm Pm.
  assert (G : forall j, (exists n, (0 < n <= j)%nat /\ P n /\
                                   forall k, (0 < k < n)%nat -> ~ P k)
                        \/ forall k, (0 < k <= j)%nat -> ~ P k).
  { induction j as [|j [(n & Hn & Pn & L)|N]].
    - right. intros k Hk. lia.
    - left. exists n. split; [lia|]. split; assumption.
    - destruct (dec (S j)) as [Pj|Nj].
      + left. exists (S j). split; [lia|]. split; [exact Pj|].
        intros k Hk. apply N. lia.
      + right. intros k Hk. destruct (Nat.eq_dec k (S j)) as [->|]; [exact Nj|].
        apply N. lia. }
  destruct (G m) as [E|N]; [exact E|]. exfalso. apply (N m); [lia|exact Pm].
Qed.

(** Case analysis on the innermost undecided test of the goal. *)
Ltac split_test :=
  match goal with
  | |- context [match ?x with Some _ => _ | None => _ end] => is_var x; destruct x
  | |- context [store ?b _ _ _] => is_var b; destruct b
  | |- context [if ?c then _ else _] =>
      lazymatch c with
      | context [if _ then _ else _] => fail
      | _ => destruct c eqn:?
      end
  end.

Section Streamer.
Context `{gbp_protocol}.

(** ** The streamer, one clock period at a time *)

Lemma edges_in_app (ptr : gbp_rx_tx_byte_buffer_t) (xs ys : list bool) :
  edges_in ptr (xs ++ ys) = edges_in (edges_in ptr xs) ys.
Proof. revert ptr. induction xs as [|x xs IH]; intros ptr; cbn; [|rewrite IH]; reflexivity. Qed.

Lemma edges_out_app (ptr : gbp_rx_tx_byte_buffer_t) (xs ys : list bool) :
  edges_out ptr (xs ++ ys) = edges_out ptr xs ++ edges_out (edges_in ptr xs) ys.
Proof.
  revert ptr. induction xs as [|x xs IH]; intros ptr; cbn; [|rewrite IH]; reflexivity.
Qed.

(** While scanning for the preamble a clock period shifts the sampled bit
    into the sync buffer and compares. *)
Lemma edge_period_scan (ptr : gbp_rx_tx_byte_buffer_t) (b : bool) :
  initialized ptr = true -> syncronised ptr = false ->
  let ptr' := (edge_period ptr b).1.1 in
  initialized ptr' = true /\
  sync_word ptr' = sync_word ptr /\
  sync_buffer ptr' = shift_in (sync_buffer ptr) b /\
  syncronised ptr' = (shift_in (sync_buffer ptr) b =? sync_word ptr) /\
  (syncronised ptr' = true -> byte_frame_bit_pos ptr' = 7).
Proof.
  destruct ptr as [ini prev syn word buf pos rxb stg txb]. cbn. intros -> ->.
  rewrite <- (sync_buffer_shift buf b).
  unfold edge_period, clock_edge, sync_scan, bit_tx.
  destruct prev, b; cbn; repeat (split_test; cbn); repeat split; congruence.
Qed.

(** Once synchronised the streamer stays so. *)
Lemma edge_period_synced (ptr : gbp_rx_tx_byte_buffer_t) (b : bool) :
  initialized ptr = true -> syncronised ptr = true ->
  let ptr' := (edge_period ptr b).1.1 in
  initialized ptr' = true /\ syncronised ptr' = true.
Proof.
  destruct ptr as [ini prev syn word buf pos rxb stg txb]. cbn. intros -> ->.
  unfold edge_period, clock_edge, byte_read, bit_tx.
  destruct prev, b; cbn; repeat (split_test; cbn); split; reflexivity.
Qed.

Lemma edges_in_initialized (bits : list bool) (ptr : gbp_rx_tx_byte_buffer_t) :
  initialized ptr = true -> initialized (edges_in ptr bits) = true.
Proof.
  revert ptr. induction bits as [|b bits IH]; intros ptr Hi; [exact Hi|].
  cbn [edges_in]. apply IH. destruct (syncronised ptr) eqn:Hs.
  - apply (edge_period_synced ptr b Hi Hs).
  - apply (edge_period_scan ptr b Hi Hs).
Qed.

Lemma edges_in_synced (bits : list bool) (ptr : gbp_rx_tx_byte_buffer_t) :
  initialized ptr = true -> syncronised ptr = true ->
  syncronised (edges_in ptr bits) = true.
Proof.
  revert ptr. induction bits as [|b bits IH]; intros ptr Hi Hs; [exact Hs|].
  cbn [edges_in]. destruct (edge_period_synced ptr b Hi Hs) as [Hi' Hs'].
  apply IH; assumption.
Qed.

(** As long as no match occurred, the sync buffer is the fold of
    [shift_in] over the sampled bits. *)
Lemma edges_in_scan (bits : list bool) (ptr : gbp_rx_tx_byte_buffer_t) :
  initialized ptr = true ->
  syncronised (edges_in ptr bits) = false ->
  initialized (edges_in ptr bits) = true /\
  sync_word (edges_in ptr bits) = sync_word ptr /\
  sync_buffer (edges_in ptr bits) = fold_left shift_in bits (sync_buffer ptr).
Proof.
  revert ptr. induction bits as [|b bits IH]; intros ptr Hi Hs; [cbn; auto|].
  cbn [edges_in fold_left] in *.
  destruct (syncronised ptr) eqn:Hp.
  - pose proof (edges_in_synced (b :: bits) ptr Hi Hp) as E.
    cbn [edges_in] in E. congruence.
  - destruct (edge_period_scan ptr b Hi Hp) as (Hi' & Hw & Hb & Hs' & _).
    destruct (IH _ Hi' Hs) as (? & ? & ?). repeat split; congruence.
Qed.

(** A clock period of a synchronised streamer: the falling edge loads the
    transmit buffer at the start of a frame and drives the pin with the
    bit at the frame position, the rising edge moves the position on. *)
Lemma edge_period_frame (ptr : gbp_rx_tx_byte_buffer_t) (b : bool) :
  initialized ptr = true -> syncronised ptr = true ->
  serial_clock_state_prev ptr = true -> 0 <= byte_frame_bit_pos ptr <= 7 ->
  let r := edge_period ptr b in
  initialized r.1.1 = true /\ syncronised r.1.1 = true /\
  serial_clock_state_prev r.1.1 = true /\
  tx_byte_staging r.1.1 = tx_byte_staging ptr /\
  tx_byte_buffer r.1.1
  = (if 7 =? byte_frame_bit_pos ptr then tx_byte_staging ptr else tx_byte_buffer ptr) /\
  byte_frame_bit_pos r.1.1
  = (if byte_frame_bit_pos ptr >? 0 then byte_frame_bit_pos ptr - 1 else 7) /\
  r.1.2 = Some (Z.testbit (tx_byte_buffer r.1.1) (byte_frame_bit_pos ptr)).
Proof.
  destruct ptr as [ini prev syn word buf pos rxb stg txb]. cbn. intros -> -> -> Hpos.
  unfold edge_period, clock_edge, byte_read, bit_tx.
  assert (Hstg : (if nonzero stg then stg else 0) = stg).
  { unfold nonzero. destruct (Z.eqb_spec stg 0); cbn; congruence. }
  assert (Hdec : u8 (pos - 1) = pos - 1 \/ pos = 0).
  { destruct (Z.eq_dec pos 0); [right; assumption|left].
    unfold u8. apply Z.mod_small. lia. }
  destruct b; cbn; repeat (split_test; cbn).
  all: rewrite ?land_bit by lia; repeat split; try reflexivity.
  all: try (symmetry in Hstg; exact Hstg).
  all: try match goal with E : nonzero ?x = false |- _ =>
             unfold nonzero in E; apply negb_false_iff, Z.eqb_eq in E; subst x
           end; try reflexivity.
  all: destruct Hdec as [Hdec|Hdec]; try exact Hdec.
  all: try (subst pos; discriminate).
Qed.

(** From frame position [k] on, the remaining [k + 1] falling edges of the
    frame drive the pin with bits [k], ..., 0 of the byte being sent, and
    the streamer is back at position 7 with the staged byte untouched. *)
Lemma edges_out_frame (k : nat) (B : Z) (ptr : gbp_rx_tx_byte_buffer_t) (bits : list bool) :
  initialized ptr = true -> syncronised ptr = true ->
  serial_clock_state_prev ptr = true ->
  byte_frame_bit_pos ptr = Z.of_nat k -> (k <= 7)%nat ->
  (if 7 =? byte_frame_bit_pos ptr then tx_byte_staging ptr else tx_byte_buffer ptr) = B ->
  length bits = S k ->
  edges_out ptr bits = map Some (msb_first (S k) B) /\
  initialized (edges_in ptr bits) = true /\ syncronised (edges_in ptr bits) = true /\
  serial_clock_state_prev (edges_in ptr bits) = true /\
  byte_frame_bit_pos (edges_in ptr bits) = 7 /\
  tx_byte_staging (edges_in ptr bits) = tx_byte_staging ptr.
Proof.
  revert ptr bits. induction k as [|k IH]; intros ptr bits Hi Hs Hc Hp Hk HB Hl.
  - destruct bits as [|b [|? ?]]; try discriminate.
    destruct (edge_period_frame ptr b Hi Hs Hc ltac:(lia)) as (Hi' & Hs' & Hc' & Hg & Ht & Hq & Ho).
    cbn [edges_out edges_in msb_first map]. rewrite Ho, Ht, HB, Hp.
    rewrite Hp in Hq. cbn in Hq. repeat split; assumption.
  - destruct bits as [|b bits]; [discriminate|]. injection Hl as Hl.
    destruct (edge_period_frame ptr b Hi Hs Hc ltac:(lia)) as (Hi' & Hs' & Hc' & Hg & Ht & Hq & Ho).
    assert (Hq' : byte_frame_bit_pos (edge_period ptr b).1.1 = Z.of_nat k).
    { rewrite Hq, Hp. destruct (Z.gtb_spec (Z.of_nat (S k)) 0); lia. }
    destruct (IH (edge_period ptr b).1.1 bits Hi' Hs' Hc' Hq' ltac:(lia)) as (E & R); [|exact Hl|].
    + rewrite Hq'. destruct (Z.eqb_spec 7 (Z.of_nat k)); [lia|]. rewrite Ht. exact HB.
    + cbn [edges_out edges_in]. rewrite E, Ho, Ht, HB, Hp.
      split; [reflexivity|]. destruct R as (? & ? & ? & ? & R). repeat split; try assumption.
      rewrite R. exact Hg.
Qed.

End Streamer.

(** ** The calls that return *)

Section Returns.
Context `{gbp_protocol}.

(** On an initialised streamer the update returns what [clock_edge]
    computes, and leaves the streamer initialised. *)
Lemma update_returns (ptr : gbp_rx_tx_byte_buffer_t) (c d : bool) :
  initialized ptr = true ->
  gbp_rx_tx_byte_update ptr c d = Returned (clock_edge ptr c d).
Proof. intros Hi. unfold gbp_rx_tx_byte_update. rewrite Hi. reflexivity. Qed.



Lemma clock_edge_initialized (ptr : gbp_rx_tx_byte_buffer_t) (c d : bool) :
  initialized (rx_tx_ptr (clock_edge ptr c d)) = initialized ptr.
Proof.
  destruct ptr as [ini prev syn word buf pos rxb stg txb].
  unfold clock_edge, sync_scan, byte_read, bit_tx.
  destruct c, d, prev, syn; cbn; repeat (split_test; cbn); reflexivity.
Qed.

Lemma edge_period_initialized (ptr : gbp_rx_tx_byte_buffer_t) (b : bool) :
  initialized (edge_period ptr b).1.1 = initialized ptr.
Proof. unfold edge_period. cbn [fst]. rewrite !clock_edge_initialized. reflexivity. Qed.

Lemma clock_period_returns (ptr : gbp_rx_tx_byte_buffer_t) (b : bool) :
  initialized ptr = true -> clock_period ptr b = Returned (edge_period ptr b).
Proof.
  intros Hi. unfold clock_period. rewrite update_returns by exact Hi. cbn [bind].
  rewrite update_returns by (rewrite clock_edge_initialized; exact Hi). reflexivity.
Qed.

Lemma clock_in_returns (bits : list bool) (ptr : gbp_rx_tx_byte_buffer_t) :
  initialized ptr = true -> clock_in ptr bits = Returned (edges_in ptr bits).
Proof.
  revert ptr. induction bits as [|b bits IH]; intros ptr Hi; [reflexivity|].
  cbn [clock_in edges_in]. rewrite clock_period_returns by exact Hi. cbn [bind].
  apply IH. rewrite edge_period_initialized. exact Hi.
Qed.

Lemma clock_out_returns (bits : list bool) (ptr : gbp_rx_tx_byte_buffer_t) :
  initialized ptr = true -> clock_out ptr bits = Returned (edges_out ptr bits).
Proof.
  revert ptr. induction bits as [|b bits IH]; intros ptr Hi; [reflexivity|].
  cbn [clock_out edges_out]. rewrite clock_period_returns by exact Hi. cbn [bind].
  rewrite IH by (rewrite edge_period_initialized; exact Hi). reflexivity.
Qed.

Lemma clock_bytes_returns (bits : list bool) (ptr : gbp_rx_tx_byte_buffer_t) :
  initialized ptr = true -> clock_bytes ptr bits = Returned (edges_bytes ptr bits).
Proof.
  revert ptr. induction bits as [|b bits IH]; intros ptr Hi; [reflexivity|].
  cbn [clock_bytes edges_bytes]. rewrite clock_period_returns by exact Hi. cbn [bind].
  rewrite IH by (rewrite edge_period_initialized; exact Hi). reflexivity.
Qed.

Lemma sample_in_returns (samples : list (bool * bool)) (ptr : gbp_rx_tx_byte_buffer_t) :
  initialized ptr = true -> sample_in ptr samples = Returned (edges_sampled ptr samples).
Proof.
  revert ptr. induction samples as [|[c d] samples IH]; intros ptr Hi; [reflexivity|].
  cbn [sample_in edges_sampled]. rewrite update_returns by exact Hi. cbn [bind].
  apply IH. rewrite clock_edge_initialized. exact Hi.
Qed.

End Returns.

(** ** Scanning up to the first sync word *)

(** A scanning streamer that is given bits none of which completes the
    sync word keeps scanning. *)
Lemma edges_in_no_match (bits : list bool) (ptr : gbp_rx_tx_byte_buffer_t) :
  initialized ptr = true -> syncronised ptr = false ->
  (forall k, (0 < k <= length bits)%nat ->
     fold_left shift_in (take k bits) (sync_buffer ptr) <> sync_word ptr) ->
  syncronised (edges_in ptr bits) = false.
Proof.
  intros Hi Hs. induction bits as [|b bits IH] using rev_ind; intros Hn; [exact Hs|].
  assert (Hb : syncronised (edges_in ptr bits) = false).
  { apply IH. intros k Hk. specialize (Hn k).
    rewrite length_app, take_app_le in Hn by lia. apply Hn. lia. }
  destruct (edges_in_scan bits ptr Hi Hb) as (Hi' & Hw & Hbuf).
  destruct (edge_period_scan (edges_in ptr bits) b Hi' Hb) as (_ & _ & _ & Hsyn & _).
  rewrite edges_in_app. cbn [edges_in]. rewrite Hsyn, Hbuf, Hw.
  apply Z.eqb_neq. rewrite <- shift_in_snoc.
  specialize (Hn (length (bits ++ [b]))). rewrite take_ge in Hn by lia.
  apply Hn. rewrite length_app. cbn [length]. lia.
Qed.

(** The bit that completes the sync word for the first time synchronises
    the streamer, at the start of a byte frame. *)
Lemma edges_in_first_match (bits : list bool) (b : bool) (ptr : gbp_rx_tx_byte_buffer_t) :
  initialized ptr = true -> syncronised ptr = false ->
  (forall k, (0 < k <= length bits)%nat ->
     fold_left shift_in (take k bits) (sync_buffer ptr) <> sync_word ptr) ->
  fold_left shift_in (bits ++ [b]) (sync_buffer ptr) = sync_word ptr ->
  syncronised (edges_in ptr bits) = false /\
  initialized (edges_in ptr (bits ++ [b])) = true /\
  syncronised (edges_in ptr (bits ++ [b])) = true /\
  byte_frame_bit_pos (edges_in ptr (bits ++ [b])) = 7.
Proof.
  intros Hi Hs Hn Hm.
  pose proof (edges_in_no_match bits ptr Hi Hs Hn) as Hb.
  destruct (edges_in_scan bits ptr Hi Hb) as (Hi' & Hw & Hbuf).
  destruct (edge_period_scan (edges_in ptr bits) b Hi' Hb) as (Hi2 & _ & _ & Hsyn & Hpos).
  rewrite Hbuf, Hw, <- shift_in_snoc, Hm, Z.eqb_refl in Hsyn.
  rewrite edges_in_app. cbn [edges_in]. auto.
Qed.

(** The run of a scanning streamer over bits that end with the sync word:
    it synchronises with the bit that completes the word for the first
    time, and with no other. *)
Lemma edges_in_sync_word (ptr : gbp_rx_tx_byte_buffer_t) (bits : list bool) (m : nat) :
  initialized ptr = true -> syncronised ptr = false ->
  0 <= sync_word ptr < 65536 -> 0 <= sync_buffer ptr < 65536 ->
  (0 < m <= length bits)%nat ->
  sync_word_ends (sync_word ptr) (sync_buffer ptr) bits m ->
  exists n : nat,
    (0 < n <= m)%nat /\
    sync_word_ends (sync_word ptr) (sync_buffer ptr) bits n /\
    (forall k, (0 < k < n)%nat ->
       ~ sync_word_ends (sync_word ptr) (sync_buffer ptr) bits k) /\
    forall k, (k <= length bits)%nat ->
      (syncronised (edges_in ptr (take k bits)) = true <-> (n <= k)%nat) /\
      (k = n -> byte_frame_bit_pos (edges_in ptr (take k bits)) = 7).
Proof.
  intros Hi Hs Hw Hb Hm He.
  destruct (first_index (sync_word_ends (sync_word ptr) (sync_buffer ptr) bits) m
              (sync_word_ends_dec _ _ _) ltac:(lia) He) as (n & Hn & En & Ln).
  exists n. split; [exact Hn|]. split; [exact En|]. split; [exact Ln|].
  assert (Hnone : forall j, (j < n)%nat ->
            forall k, (0 < k <= length (take j bits))%nat ->
              fold_left shift_in (take k (take j bits)) (sync_buffer ptr) <> sync_word ptr).
  { intros j Hj k Hk. rewrite length_take in Hk.
    rewrite take_take, Nat.min_l by lia.
    rewrite sync_word_ends_window by (try assumption; lia). apply Ln. lia. }
  assert (Hat : take n bits = take (n - 1) bits ++ drop (n - 1) (take n bits)).
  { rewrite <- (take_drop (n - 1) (take n bits)) at 1.
    rewrite take_take, Nat.min_l by lia. reflexivity. }
  assert (Hlast : exists b, drop (n - 1) (take n bits) = [b]).
  { assert (L : length (drop (n - 1) (take n bits)) = 1%nat)
      by (rewrite length_drop, length_take; lia).
    destruct (drop (n - 1) (take n bits)) as [|b [|? ?]]; try discriminate. eauto. }
  destruct Hlast as (b & Hlast). rewrite Hlast in Hat.
  destruct (edges_in_first_match (take (n - 1) bits) b ptr Hi Hs (Hnone (n - 1)%nat ltac:(lia)))
    as (_ & Hi' & Hs' & Hp').
  { rewrite <- Hat. apply sync_word_ends_window; try assumption. lia. }
  rewrite <- Hat in Hi', Hs', Hp'.
  intros k Hk. split; [split|].
  - intros Hsync. destruct (Nat.le_gt_cases n k) as [|Hlt]; [assumption|].
    rewrite (edges_in_no_match (take k bits) ptr Hi Hs (Hnone k Hlt)) in Hsync.
    discriminate.
  - intros Hle. rewrite <- (take_drop n (take k bits)), take_take, Nat.min_l by lia.
    rewrite edges_in_app. apply edges_in_synced; assumption.
  - intros ->. exact Hp'.
Qed.

(** ** Preamble detection *)

(** C5, as the code has it.  A scanning streamer that is given any bits
    followed by the sixteen bits of the sync word, most significant first,
    synchronises exactly once during them, namely with the first bit at
    which the sixteen most recent bits are the sync word, and it sets
    [byte_frame_bit_pos] to 7 there.  That bit is the last bit of the
    given word exactly when the word is not completed earlier; in every
    case the streamer is synchronised once the given word has gone by. *)
Theorem first_sync_word_synchronises `{gbp_protocol}
    (ptr : gbp_rx_tx_byte_buffer_t) (garbage : list bool) :
  initialized ptr = true -> syncronised ptr = false ->
  0 <= sync_word ptr < 65536 -> 0 <= sync_buffer ptr < 65536 ->
  let bits := garbage ++ msb_first 16 (sync_word ptr) in
  let ends := sync_word_ends (sync_word ptr) (sync_buffer ptr) bits in
  exists n : nat,
    (0 < n <= length bits)%nat /\ ends n /\
    (forall k, (0 < k < n)%nat -> ~ ends k) /\
    ((forall k, (0 < k < length bits)%nat -> ~ ends k) -> n = length bits) /\
    forall k, (k <= length bits)%nat ->
      exists q,
        clock_in ptr (take k bits) = Returned q /\
        (syncronised q = true <-> (n <= k)%nat) /\
        (k = n -> byte_frame_bit_pos q = 7).
Proof.
  intros Hi Hs Hw Hb bits ends.
  assert (Hl : length bits = (length garbage + 16)%nat)
    by (subst bits; rewrite length_app, length_msb_first; reflexivity).
  destruct (edges_in_sync_word ptr bits (length bits) Hi Hs Hw Hb ltac:(lia))
    as (n & Hn & En & Ln & R).
  { rewrite Hl. apply sync_word_ends_word. }
  exists n. split; [exact Hn|]. split; [exact En|]. split; [exact Ln|]. split.
  - intros Hnone. destruct (Nat.eq_dec n (length bits)) as [|Hne]; [assumption|].
    exfalso. apply (Hnone n); [lia|exact En].
  - intros k Hk. exists (edges_in ptr (take k bits)).
    split; [apply clock_in_returns, Hi | apply R, Hk].
Qed.

Lemma first_sync_word_synchronises_witness :
  let ptr := gbp_rx_tx_byte_buffer dmg_printer in
  let bits := [true; false; false; true; true] ++ msb_first 16 0x8833 in
  exists before after,
    @clock_in dmg ptr (take 20 bits) = Returned before /\
    syncronised before = false /\
    @clock_in dmg ptr (take 21 bits) = Returned after /\
    syncronised after = true /\
    byte_frame_bit_pos after = 7.
Proof.
  intros ptr bits.
  destruct (@first_sync_word_synchronises dmg ptr [true; false; false; true; true]
              eq_refl eq_refl ltac:(cbn; lia) ltac:(cbn; lia))
    as (n & _ & _ & _ & Hlast & R).
  assert (Hn : n = 21%nat).
  { apply Hlast. intros k Hk. cbn [length app msb_first] in Hk.
    do 22 (destruct k as [|k]; [first [lia | vm_compute; discriminate]|]). lia. }
  subst n.
  destruct (R 20%nat ltac:(cbn; lia)) as (before & Eb & Sb & _).
  destruct (R 21%nat ltac:(cbn; lia)) as (after & Ea & Sa & Pa).
  exists before, after. split; [exact Eb|]. split.
  - destruct (syncronised before); [|reflexivity].
    pose proof (proj1 Sb eq_refl). lia.
  - split; [exact Ea|]. split; [apply Sa; lia | apply Pa; reflexivity].
Defined.

(** C5 fails as stated: when the bits before the sync word hold the sync
    word themselves, here followed by a single 1, the streamer is already
    synchronised before the last bit of the second word, so there is no
    transition on that edge; the bits of the second word are read as data
    (the bytes 0xC4 and 0x19 are delivered while it goes by), and after
    its last bit [byte_frame_bit_pos] is 6, not 7. *)
Lemma sync_word_after_sync_word :
  let ptr := gbp_rx_tx_byte_buffer dmg_printer in
  let word := msb_first 16 0x8833 in
  let garbage := word ++ [true] in
  exists before after,
    @clock_in dmg ptr (garbage ++ take 15 word) = Returned before /\
    @clock_in dmg ptr (garbage ++ word) = Returned after /\
    syncronised before = true /\
    syncronised after = true /\
    byte_frame_bit_pos after = 6 /\
    byte_frame_bit_pos after <> 7 /\
    @clock_bytes dmg ptr (garbage ++ word)
    = Returned (replicate 23 None ++ [Some 0xC4] ++ replicate 7 None ++ [Some 0x19; None]).
Proof.
  do 2 eexists. split; [vm_compute; reflexivity|]. split; [vm_compute; reflexivity|].
  repeat split; try reflexivity. vm_compute. discriminate.
Qed.

(** ** Transmission *)

(** C2.  The code departs from the claim: on a falling clock edge the
    streamer writes a level to the output pin although it is not
    synchronised.  The test [if ((ptr->syncronised))] is followed by [;],
    so the transmit block is not guarded by it. *)
Theorem falling_edge_drives_pin_unsynchronised `{gbp_protocol}
    (ptr : gbp_rx_tx_byte_buffer_t) (serial_out_state : bool) :
  initialized ptr = true ->
  serial_clock_state_prev ptr = true ->
  syncronised ptr = false ->
  exists r,
    gbp_rx_tx_byte_update ptr false serial_out_state = Returned r /\
    si_pin_write r = Some (bit_tx ptr).2 /\
    syncronised (rx_tx_ptr r) = false.
Proof.
  intros Hi Hc Hs. exists (clock_edge ptr false serial_out_state).
  split; [apply update_returns, Hi|]. revert Hi Hc Hs.
  destruct ptr as [ini prev syn word buf pos rxb stg txb]. cbn. intros -> -> ->.
  unfold clock_edge, bit_tx. cbn.
  repeat (split_test; cbn); split; reflexivity.
Qed.

Lemma falling_edge_drives_pin_unsynchronised_witness :
  let ptr := set_serial_clock_state_prev true (gbp_rx_tx_byte_buffer dmg_printer) in
  syncronised ptr = false /\
  exists r,
    @gbp_rx_tx_byte_update dmg ptr false false = Returned r /\
    si_pin_write r = Some false /\
    syncronised (rx_tx_ptr r) = false.
Proof.
  intros ptr. split; [reflexivity|].
  exact (@falling_edge_drives_pin_unsynchronised dmg ptr false eq_refl eq_refl eq_refl).
Defined.

(** C9.  The code departs from the claim: the staged byte is not consumed
    by the load, so the frame after the one that sent it sends it again.
    With [B] staged at the start of a frame, which is the store of
    [gbp_rx_tx_byte_set], and nothing staged afterwards, the sixteen
    falling edges of two frames drive the pin with the bits of [B], most
    significant first, twice.  The first half is what the claim says of a
    staged byte; the second half is the repeat it excludes. *)
Theorem staged_byte_sent_and_repeated `{gbp_protocol}
    (ptr : gbp_rx_tx_byte_buffer_t) (B : Z) (frame1 frame2 : list bool) :
  initialized ptr = true -> syncronised ptr = true ->
  serial_clock_state_prev ptr = true -> byte_frame_bit_pos ptr = 7 ->
  length frame1 = 8%nat -> length frame2 = 8%nat ->
  clock_out (set_tx_byte_staging B ptr) (frame1 ++ frame2)
  = Returned (map Some (msb_first 8 B) ++ map Some (msb_first 8 B)).
Proof.
  intros Hi Hs Hc Hp H1 H2.
  set (q := set_tx_byte_staging B ptr).
  assert (Hq : initialized q = true /\ syncronised q = true /\
               serial_clock_state_prev q = true /\ byte_frame_bit_pos q = 7 /\
               tx_byte_staging q = B).
  { subst q. destruct ptr. cbn in *. auto. }
  destruct Hq as (Qi & Qs & Qc & Qp & Qb).
  rewrite clock_out_returns by exact Qi. f_equal. rewrite edges_out_app.
  destruct (edges_out_frame 7 B q frame1 Qi Qs Qc Qp ltac:(lia)) as (E1 & Ri & Rs & Rc & Rp & Rb);
    [rewrite Qp; exact Qb | exact H1 |].
  destruct (edges_out_frame 7 B (edges_in q frame1) frame2 Ri Rs Rc Rp ltac:(lia)) as (E2 & _);
    [rewrite Rp, Rb; exact Qb | exact H2 |].
  rewrite E1, E2. reflexivity.
Qed.

Lemma staged_byte_sent_and_repeated_witness :
  @clock_out dmg (set_tx_byte_staging 0x81 dmg_synced)
    (replicate 8 false ++ replicate 8 false)
  = Returned [Some true; Some false; Some false; Some false;
              Some false; Some false; Some false; Some true;
              Some true; Some false; Some false; Some false;
              Some false; Some false; Some false; Some true].
Proof.
  exact (@staged_byte_sent_and_repeated dmg dmg_synced 0x81
           (replicate 8 false) (replicate 8 false)
           eq_refl eq_refl eq_refl eq_refl eq_refl eq_refl).
Defined.

(** ** Reading a field after an update

    One equation per field of [gbp_printer_t] and per update; they are
    the rewrite rules of the database [printer]. *)

Create Rewrite HintDb printer.

(** After [upd_parser f s]. *)
Lemma parser_upd_parser (f : gbp_packet_parser_t -> gbp_packet_parser_t) (s : gbp_printer_t) :
  gbp_packet_parser (upd_parser f s)
  = f (gbp_packet_parser s).
Proof. destruct s; reflexivity. Qed.

Lemma packet_upd_parser (f : gbp_packet_parser_t -> gbp_packet_parser_t) (s : gbp_printer_t) :
  gbp_packet (upd_parser f s)
  = gbp_packet s.
Proof. destruct s; reflexivity. Qed.

Lemma status_upd_parser (f : gbp_packet_parser_t -> gbp_packet_parser_t) (s : gbp_printer_t) :
  gbp_printer_status (upd_parser f s)
  = gbp_printer_status s.
Proof. destruct s; reflexivity. Qed.

Lemma ready_upd_parser (f : gbp_packet_parser_t -> gbp_packet_parser_t) (s : gbp_printer_t) :
  packet_ready_flag (upd_parser f s)
  = packet_ready_flag s.
Proof. destruct s; reflexivity. Qed.

Lemma settings_upd_parser (f : gbp_packet_parser_t -> gbp_packet_parser_t) (s : gbp_printer_t) :
  gbp_print_settings_buffer (upd_parser f s)
  = gbp_print_settings_buffer s.
Proof. destruct s; reflexivity. Qed.

Lemma image_upd_parser (f : gbp_packet_parser_t -> gbp_packet_parser_t) (s : gbp_printer_t) :
  gbp_print_buffer (upd_parser f s)
  = gbp_print_buffer s.
Proof. destruct s; reflexivity. Qed.

Lemma finish_upd_parser (f : gbp_packet_parser_t -> gbp_packet_parser_t) (s : gbp_printer_t) :
  uptime_til_pretend_print_finish_ms (upd_parser f s)
  = uptime_til_pretend_print_finish_ms s.
Proof. destruct s; reflexivity. Qed.

#[export] Hint Rewrite parser_upd_parser packet_upd_parser status_upd_parser
  ready_upd_parser settings_upd_parser image_upd_parser finish_upd_parser : printer.

(** After [upd_packet f s]. *)
Lemma parser_upd_packet (f : gbp_packet_t -> gbp_packet_t) (s : gbp_printer_t) :
  gbp_packet_parser (upd_packet f s)
  = gbp_packet_parser s.
Proof. destruct s; reflexivity. Qed.

Lemma packet_upd_packet (f : gbp_packet_t -> gbp_packet_t) (s : gbp_printer_t) :
  gbp_packet (upd_packet f s)
  = f (gbp_packet s).
Proof. destruct s; reflexivity. Qed.

Lemma status_upd_packet (f : gbp_packet_t -> gbp_packet_t) (s : gbp_printer_t) :
  gbp_printer_status (upd_packet f s)
  = gbp_printer_status s.
Proof. destruct s; reflexivity. Qed.

Lemma ready_upd_packet (f : gbp_packet_t -> gbp_packet_t) (s : gbp_printer_t) :
  packet_ready_flag (upd_packet f s)
  = packet_ready_flag s.
Proof. destruct s; reflexivity. Qed.

Lemma settings_upd_packet (f : gbp_packet_t -> gbp_packet_t) (s : gbp_printer_t) :
  gbp_print_settings_buffer (upd_packet f s)
  = gbp_print_settings_buffer s.
Proof. destruct s; reflexivity. Qed.

Lemma image_upd_packet (f : gbp_packet_t -> gbp_packet_t) (s : gbp_printer_t) :
  gbp_print_buffer (upd_packet f s)
  = gbp_print_buffer s.
Proof. destruct s; reflexivity. Qed.

Lemma finish_upd_packet (f : gbp_packet_t -> gbp_packet_t) (s : gbp_printer_t) :
  uptime_til_pretend_print_finish_ms (upd_packet f s)
  = uptime_til_pretend_print_finish_ms s.
Proof. destruct s; reflexivity. Qed.

#[export] Hint Rewrite parser_upd_packet packet_upd_packet status_upd_packet
  ready_upd_packet settings_upd_packet image_upd_packet finish_upd_packet : printer.

(** After [upd_status f s]. *)
Lemma parser_upd_status (f : gbp_printer_status_t -> gbp_printer_status_t) (s : gbp_printer_t) :
  gbp_packet_parser (upd_status f s)
  = gbp_packet_parser s.
Proof. destruct s; reflexivity. Qed.

Lemma packet_upd_status (f : gbp_printer_status_t -> gbp_printer_status_t) (s : gbp_printer_t) :
  gbp_packet (upd_status f s)
  = gbp_packet s.
Proof. destruct s; reflexivity. Qed.

Lemma status_upd_status (f : gbp_printer_status_t -> gbp_printer_status_t) (s : gbp_printer_t) :
  gbp_printer_status (upd_status f s)
  = f (gbp_printer_status s).
Proof. destruct s; reflexivity. Qed.

Lemma ready_upd_status (f : gbp_printer_status_t -> gbp_printer_status_t) (s : gbp_printer_t) :
  packet_ready_flag (upd_status f s)
  = packet_ready_flag s.
Proof. destruct s; reflexivity. Qed.

Lemma settings_upd_status (f : gbp_printer_status_t -> gbp_printer_status_t) (s : gbp_printer_t) :
  gbp_print_settings_buffer (upd_status f s)
  = gbp_print_settings_buffer s.
Proof. destruct s; reflexivity. Qed.

Lemma image_upd_status (f : gbp_printer_status_t -> gbp_printer_status_t) (s : gbp_printer_t) :
  gbp_print_buffer (upd_status f s)
  = gbp_print_buffer s.
Proof. destruct s; reflexivity. Qed.

Lemma finish_upd_status (f : gbp_printer_status_t -> gbp_printer_status_t) (s : gbp_printer_t) :
  uptime_til_pretend_print_finish_ms (upd_status f s)
  = uptime_til_pretend_print_finish_ms s.
Proof. destruct s; reflexivity. Qed.

#[export] Hint Rewrite parser_upd_status packet_upd_status status_upd_status
  ready_upd_status settings_upd_status image_upd_status finish_upd_status : printer.

(** After [tally b s]. *)
Lemma parser_tally (b : Z) (s : gbp_printer_t) :
  gbp_packet_parser (tally b s)
  = set_calculated_checksum (u16 (calculated_checksum (gbp_packet_parser s) + b))
      (gbp_packet_parser s).
Proof. destruct s; reflexivity. Qed.

Lemma packet_tally (b : Z) (s : gbp_printer_t) :
  gbp_packet (tally b s)
  = gbp_packet s.
Proof. destruct s; reflexivity. Qed.

Lemma status_tally (b : Z) (s : gbp_printer_t) :
  gbp_printer_status (tally b s)
  = gbp_printer_status s.
Proof. destruct s; reflexivity. Qed.

Lemma ready_tally (b : Z) (s : gbp_printer_t) :
  packet_ready_flag (tally b s)
  = packet_ready_flag s.
Proof. destruct s; reflexivity. Qed.

Lemma settings_tally (b : Z) (s : gbp_printer_t) :
  gbp_print_settings_buffer (tally b s)
  = gbp_print_settings_buffer s.
Proof. destruct s; reflexivity. Qed.

Lemma image_tally (b : Z) (s : gbp_printer_t) :
  gbp_print_buffer (tally b s)
  = gbp_print_buffer s.
Proof. destruct s; reflexivity. Qed.

Lemma finish_tally (b : Z) (s : gbp_printer_t) :
  uptime_til_pretend_print_finish_ms (tally b s)
  = uptime_til_pretend_print_finish_ms s.
Proof. destruct s; reflexivity. Qed.

#[export] Hint Rewrite parser_tally packet_tally status_tally ready_tally settings_tally
  image_tally finish_tally : printer.

(** After [set_packet_ready_flag v s]. *)
Lemma parser_ready (v : bool) (s : gbp_printer_t) :
  gbp_packet_parser (set_packet_ready_flag v s)
  = gbp_packet_parser s.
Proof. destruct s; reflexivity. Qed.

Lemma packet_ready (v : bool) (s : gbp_printer_t) :
  gbp_packet (set_packet_ready_flag v s)
  = gbp_packet s.
Proof. destruct s; reflexivity. Qed.

Lemma status_ready (v : bool) (s : gbp_printer_t) :
  gbp_printer_status (set_packet_ready_flag v s)
  = gbp_printer_status s.
Proof. destruct s; reflexivity. Qed.

Lemma ready_ready (v : bool) (s : gbp_printer_t) :
  packet_ready_flag (set_packet_ready_flag v s)
  = v.
Proof. destruct s; reflexivity. Qed.

Lemma settings_ready (v : bool) (s : gbp_printer_t) :
  gbp_print_settings_buffer (set_packet_ready_flag v s)
  = gbp_print_settings_buffer s.
Proof. destruct s; reflexivity. Qed.

Lemma image_ready (v : bool) (s : gbp_printer_t) :
  gbp_print_buffer (set_packet_ready_flag v s)
  = gbp_print_buffer s.
Proof. destruct s; reflexivity. Qed.

Lemma finish_ready (v : bool) (s : gbp_printer_t) :
  uptime_til_pretend_print_finish_ms (set_packet_ready_flag v s)
  = uptime_til_pretend_print_finish_ms s.
Proof. destruct s; reflexivity. Qed.

#[export] Hint Rewrite parser_ready packet_ready status_ready ready_ready settings_ready
  image_ready finish_ready : printer.

(** After [set_uptime_til_pretend_print_finish_ms v s]. *)
Lemma parser_finish (v : Z) (s : gbp_printer_t) :
  gbp_packet_parser (set_uptime_til_pretend_print_finish_ms v s)
  = gbp_packet_parser s.
Proof. destruct s; reflexivity. Qed.

Lemma packet_finish (v : Z) (s : gbp_printer_t) :
  gbp_packet (set_uptime_til_pretend_print_finish_ms v s)
  = gbp_packet s.
Proof. destruct s; reflexivity. Qed.

Lemma status_finish (v : Z) (s : gbp_printer_t) :
  gbp_printer_status (set_uptime_til_pretend_print_finish_ms v s)
  = gbp_printer_status s.
Proof. destruct s; reflexivity. Qed.

Lemma ready_finish (v : Z) (s : gbp_printer_t) :
  packet_ready_flag (set_uptime_til_pretend_print_finish_ms v s)
  = packet_ready_flag s.
Proof. destruct s; reflexivity. Qed.

Lemma settings_finish (v : Z) (s : gbp_printer_t) :
  gbp_print_settings_buffer (set_uptime_til_pretend_print_finish_ms v s)
  = gbp_print_settings_buffer s.
Proof. destruct s; reflexivity. Qed.

Lemma image_finish (v : Z) (s : gbp_printer_t) :
  gbp_print_buffer (set_uptime_til_pretend_print_finish_ms v s)
  = gbp_print_buffer s.
Proof. destruct s; reflexivity. Qed.

Lemma finish_finish (v : Z) (s : gbp_printer_t) :
  uptime_til_pretend_print_finish_ms (set_uptime_til_pretend_print_finish_ms v s)
  = v.
Proof. destruct s; reflexivity. Qed.

#[export] Hint Rewrite parser_finish packet_finish status_finish ready_finish
  settings_finish image_finish finish_finish : printer.

(** After [store buf i v s]. *)
Lemma parser_store (buf : buffer_t) (i v : Z) (s : gbp_printer_t) :
  gbp_packet_parser (store buf i v s)
  = gbp_packet_parser s.
Proof. destruct buf, s; reflexivity. Qed.

Lemma packet_store (buf : buffer_t) (i v : Z) (s : gbp_printer_t) :
  gbp_packet (store buf i v s)
  = gbp_packet s.
Proof. destruct buf, s; reflexivity. Qed.

Lemma status_store (buf : buffer_t) (i v : Z) (s : gbp_printer_t) :
  gbp_printer_status (store buf i v s)
  = gbp_printer_status s.
Proof. destruct buf, s; reflexivity. Qed.

Lemma ready_store (buf : buffer_t) (i v : Z) (s : gbp_printer_t) :
  packet_ready_flag (store buf i v s)
  = packet_ready_flag s.
Proof. destruct buf, s; reflexivity. Qed.

Lemma finish_store (buf : buffer_t) (i v : Z) (s : gbp_printer_t) :
  uptime_til_pretend_print_finish_ms (store buf i v s)
  = uptime_til_pretend_print_finish_ms s.
Proof. destruct buf, s; reflexivity. Qed.

#[export] Hint Rewrite parser_store packet_store status_store ready_store finish_store : printer.

(** After [store print_buffer i v s]. *)
Lemma settings_store_image (i v : Z) (s : gbp_printer_t) :
  gbp_print_settings_buffer (store print_buffer i v s)
  = gbp_print_settings_buffer s.
Proof. destruct s; reflexivity. Qed.

Lemma image_store_image (i v : Z) (s : gbp_printer_t) :
  gbp_print_buffer (store print_buffer i v s)
  = <[Z.to_nat i := v]> (gbp_print_buffer s).
Proof. destruct s; reflexivity. Qed.

#[export] Hint Rewrite settings_store_image image_store_image : printer.

(** After [store print_settings_buffer i v s]. *)
Lemma settings_store_settings (i v : Z) (s : gbp_printer_t) :
  gbp_print_settings_buffer (store print_settings_buffer i v s)
  = <[Z.to_nat i := v]> (gbp_print_settings_buffer s).
Proof. destruct s; reflexivity. Qed.

Lemma image_store_settings (i v : Z) (s : gbp_printer_t) :
  gbp_print_buffer (store print_settings_buffer i v s)
  = gbp_print_buffer s.
Proof. destruct s; reflexivity. Qed.

#[export] Hint Rewrite settings_store_settings image_store_settings : printer.

(** The selected buffer. *)
Lemma buffer_of_store (buf : buffer_t) (i v : Z) (s : gbp_printer_t) :
  buffer_of buf (store buf i v s) = <[Z.to_nat i := v]> (buffer_of buf s).
Proof. destruct buf, s; reflexivity. Qed.

Lemma buffer_of_upd_parser (buf : buffer_t) f (s : gbp_printer_t) :
  buffer_of buf (upd_parser f s) = buffer_of buf s.
Proof. destruct buf, s; reflexivity. Qed.

Lemma buffer_of_tally (buf : buffer_t) (b : Z) (s : gbp_printer_t) :
  buffer_of buf (tally b s) = buffer_of buf s.
Proof. destruct buf, s; reflexivity. Qed.

#[export] Hint Rewrite buffer_of_store buffer_of_upd_parser buffer_of_tally : printer.

(** Normalise the fields read from updated printers in the goal. *)
Ltac fields :=
  unfold st, payload_stored, length_with_high, checksum_with_high;
  autorewrite with printer;
  cbn [parse_state data_index calculated_checksum crc_high crc_low
       set_parse_state set_data_index set_calculated_checksum set_crc_high set_crc_low
       command compression data_length data_ptr checksum acknowledgement printer_status
       set_command set_compression set_data_length set_data_ptr set_checksum
       set_acknowledgement set_printer_status
       checksum_error unprocessed_data print_buffer_full printer_busy
       set_checksum_error set_unprocessed_data set_print_buffer_full set_printer_busy].

Ltac fields_in H :=
  unfold st, payload_stored, length_with_high, checksum_with_high in H;
  autorewrite with printer in H;
  cbn [parse_state data_index calculated_checksum crc_high crc_low
       set_parse_state set_data_index set_calculated_checksum set_crc_high set_crc_low
       command compression data_length data_ptr checksum acknowledgement printer_status
       set_command set_compression set_data_length set_data_ptr set_checksum
       set_acknowledgement set_printer_status
       checksum_error unprocessed_data print_buffer_full printer_busy
       set_checksum_error set_unprocessed_data set_print_buffer_full set_printer_busy] in H.

(** ** The parser, one state at a time *)

Ltac open_printer s :=
  destruct s as [p_ini p_sta p_rxtx [p_st p_di p_cs p_ch p_cl]
                 [p_cmd p_cmp p_dl p_dp p_ck p_ack p_pst] p_rdy p_sbuf p_pbuf p_tmo p_fin];
  cbn in *; subst.

Ltac run_update :=
  unfold gbp_parse_message_update, new_bytes, init_next_stage, status_for_command, tally;
  cbn.

Section Parser.
Context `{gbp_protocol}.

Lemma parse_state_eqb_spec (a b : gbp_parse_state_t) : parse_state_eqb a b = true <-> a = b.
Proof. destruct a, b; cbn; split; congruence. Qed.

Lemma feed_app (s : gbp_printer_t) (millis : Z) (xs ys : list Z) :
  feed s millis (xs ++ ys) = bind (feed s millis xs) (fun s => feed s millis ys).
Proof.
  revert s. induction xs as [|x xs IH]; intros s; [reflexivity|].
  cbn [feed app]. destruct (gbp_parse_message_update s (Some x) millis) as [[s' tx]| | |];
    cbn [bind]; [apply IH|reflexivity..].
Qed.

(** A call never moves the parser to a state with a smaller number. *)
Lemma update_state_monotone (s s' : gbp_printer_t) (rx tx : option Z) (millis : Z) :
  gbp_parse_message_update s rx millis = Returned (s', tx) ->
  state_number (st s) <= state_number (st s').
Proof.
  open_printer s. destruct rx as [b|]; run_update.
  - match goal with ps : gbp_parse_state_t |- _ => destruct ps end; cbn; repeat (split_test; cbn);
      intros E; try discriminate; injection E as <- <-; cbn; lia.
  - rewrite (proj2 (parse_state_eqb_spec _ _) eq_refl). cbn.
    intros E; injection E as <- <-; cbn; lia.
Qed.

(** In PACKET_RECEIVED a call changes nothing and stages nothing. *)
Lemma update_packet_received (s : gbp_printer_t) (rx : option Z) (millis : Z) :
  st s = GBP_PARSE_STATE_PACKET_RECEIVED ->
  gbp_parse_message_update s rx millis = Returned (s, None).
Proof. intros Hs. open_printer s. destruct rx; reflexivity. Qed.

(** What a call does in each state, entry action of the next state
    included. *)
Lemma update_command (s : gbp_printer_t) (b millis : Z) :
  st s = GBP_PARSE_STATE_COMMAND ->
  gbp_parse_message_update s (Some b) millis
  = Returned
      (tally b
         (upd_parser (set_calculated_checksum 0)
            (upd_packet (set_data_ptr (select_data_ptr b))
               (upd_packet (set_command b)
                  (upd_parser (set_parse_state GBP_PARSE_STATE_COMPRESSION) s)))),
       None).
Proof. intros Hs. open_printer s. reflexivity. Qed.

Lemma update_compression (s : gbp_printer_t) (b millis : Z) :
  st s = GBP_PARSE_STATE_COMPRESSION ->
  gbp_parse_message_update s (Some b) millis
  = Returned
      (upd_packet (set_data_length 0)
         (tally b
            (upd_packet (set_compression b)
               (upd_parser (set_parse_state GBP_PARSE_STATE_DATA_LENGTH_LOW) s))),
       None).
Proof. intros Hs. open_printer s. reflexivity. Qed.

Lemma update_length_low (s : gbp_printer_t) (b millis : Z) :
  st s = GBP_PARSE_STATE_DATA_LENGTH_LOW ->
  gbp_parse_message_update s (Some b) millis
  = Returned
      (tally b
         (upd_packet
            (set_data_length
               (u16 (Z.lor (data_length (gbp_packet s)) (Z.land (Z.shiftl b 0) 0x00FF))))
            (upd_parser (set_parse_state GBP_PARSE_STATE_PACKET_DATA_LENGTH_HIGH) s)),
       None).
Proof. intros Hs. open_printer s. reflexivity. Qed.

Lemma update_length_high_zero (s : gbp_printer_t) (b millis : Z) :
  st s = GBP_PARSE_STATE_PACKET_DATA_LENGTH_HIGH ->
  length_with_high s b <= 0 ->
  gbp_parse_message_update s (Some b) millis
  = Returned
      (tally b
         (upd_parser (set_parse_state GBP_PARSE_STATE_CHECKSUM_LOW)
            (upd_packet (set_data_length (length_with_high s b)) s)),
       None).
Proof.
  intros Hs Hl. open_printer s. unfold length_with_high in *; cbn in *. run_update.
  destruct (Z.gtb_spec (u16 (Z.lor p_dl (Z.land (Z.shiftl b 8) 65280))) 0); [lia|].
  reflexivity.
Qed.

Lemma update_length_high_payload (s : gbp_printer_t) (b millis : Z) (buf : buffer_t) :
  st s = GBP_PARSE_STATE_PACKET_DATA_LENGTH_HIGH ->
  0 < length_with_high s b ->
  data_ptr (gbp_packet s) = Some buf ->
  gbp_parse_message_update s (Some b) millis
  = Returned
      (upd_parser (set_data_index 0)
         (tally b
            (upd_parser (set_parse_state GBP_PARSE_STATE_VARIABLE_PAYLOAD)
               (upd_packet (set_data_length (length_with_high s b)) s))),
       None).
Proof.
  intros Hs Hl Hp. open_printer s. unfold length_with_high in *; cbn in *. run_update.
  destruct (Z.gtb_spec (u16 (Z.lor p_dl (Z.land (Z.shiftl b 8) 65280))) 0); [|lia].
  reflexivity.
Qed.

Lemma update_length_high_hangs (s : gbp_printer_t) (b millis : Z) :
  st s = GBP_PARSE_STATE_PACKET_DATA_LENGTH_HIGH ->
  0 < length_with_high s b ->
  data_ptr (gbp_packet s) = None ->
  gbp_parse_message_update s (Some b) millis
  = Hangs (upd_packet (set_data_length (length_with_high s b)) s).
Proof.
  intros Hs Hl Hp. open_printer s. unfold length_with_high in *; cbn in *. run_update.
  destruct (Z.gtb_spec (u16 (Z.lor p_dl (Z.land (Z.shiftl b 8) 65280))) 0); [|lia].
  reflexivity.
Qed.

Lemma update_payload_more (s : gbp_printer_t) (b millis : Z) (buf : buffer_t) :
  st s = GBP_PARSE_STATE_VARIABLE_PAYLOAD ->
  data_ptr (gbp_packet s) = Some buf ->
  0 <= data_index (gbp_packet_parser s) < capacity buf ->
  u16 (data_index (gbp_packet_parser s) + 1) <= data_length (gbp_packet s) ->
  gbp_parse_message_update s (Some b) millis = Returned (payload_stored s buf b, None).
Proof.
  intros Hs Hp Hi Hl. open_printer s. unfold payload_stored. run_update.
  destruct (Z.leb_spec 0 p_di); [|lia].
  destruct (Z.ltb_spec p_di (capacity buf)); [|lia]. cbn.
  destruct buf; cbn in *.
  all: destruct (Z.gtb_spec (u16 (p_di + 1)) p_dl); [lia|]; reflexivity.
Qed.

Lemma update_payload_last (s : gbp_printer_t) (b millis : Z) (buf : buffer_t) :
  st s = GBP_PARSE_STATE_VARIABLE_PAYLOAD ->
  data_ptr (gbp_packet s) = Some buf ->
  0 <= data_index (gbp_packet_parser s) < capacity buf ->
  data_length (gbp_packet s) < u16 (data_index (gbp_packet_parser s) + 1) ->
  gbp_parse_message_update s (Some b) millis
  = Returned (upd_parser (set_parse_state GBP_PARSE_STATE_CHECKSUM_LOW)
                (payload_stored s buf b), None).
Proof.
  intros Hs Hp Hi Hl. open_printer s. unfold payload_stored. run_update.
  destruct (Z.leb_spec 0 p_di); [|lia].
  destruct (Z.ltb_spec p_di (capacity buf)); [|lia]. cbn.
  destruct buf; cbn in *.
  all: destruct (Z.gtb_spec (u16 (p_di + 1)) p_dl); [|lia]; reflexivity.
Qed.

Lemma update_payload_overrun (s : gbp_printer_t) (b millis : Z) (buf : buffer_t) :
  st s = GBP_PARSE_STATE_VARIABLE_PAYLOAD ->
  data_ptr (gbp_packet s) = Some buf ->
  capacity buf <= data_index (gbp_packet_parser s) ->
  gbp_parse_message_update s (Some b) millis
  = OutOfBounds (Some buf) (data_index (gbp_packet_parser s)).
Proof.
  intros Hs Hp Hi. open_printer s. run_update.
  destruct (Z.ltb_spec p_di (capacity buf)); [lia|].
  rewrite andb_false_r. reflexivity.
Qed.

Lemma update_checksum_low (s : gbp_printer_t) (b millis : Z) :
  st s = GBP_PARSE_STATE_CHECKSUM_LOW ->
  gbp_parse_message_update s (Some b) millis
  = Returned
      (upd_parser (set_crc_low b)
         (upd_packet (set_checksum (u16 (Z.lor 0 (Z.land (Z.shiftl b 0) 0x00FF))))
            (upd_parser (set_parse_state GBP_PARSE_STATE_CHECKSUM_HIGH) s)),
       None).
Proof. intros Hs. open_printer s. reflexivity. Qed.

Lemma update_checksum_high (s : gbp_printer_t) (b millis : Z) :
  st s = GBP_PARSE_STATE_CHECKSUM_HIGH ->
  gbp_parse_message_update s (Some b) millis
  = Returned
      (upd_packet (set_acknowledgement (u8 GBP_DEVICE_ID))
         (upd_parser (set_crc_high b)
            (upd_packet (set_checksum (checksum_with_high s b))
               (upd_parser (set_parse_state GBP_PARSE_STATE_DEVICE_ID) s))),
       Some (u8 GBP_DEVICE_ID)).
Proof. intros Hs. open_printer s. reflexivity. Qed.

Lemma update_device_id (s : gbp_printer_t) (b millis : Z) :
  st s = GBP_PARSE_STATE_DEVICE_ID ->
  gbp_parse_message_update s (Some b) millis
  = Returned
      (upd_packet
         (set_printer_status (u8 (gbp_status_byte (gbp_printer_status (status_entered s millis)))))
         (status_entered s millis),
       Some (u8 (gbp_status_byte (gbp_printer_status (status_entered s millis))))).
Proof.
  intros Hs. open_printer s. unfold status_entered. run_update.
  destruct (p_cs =? p_ck); reflexivity.
Qed.

Lemma update_printer_status (s : gbp_printer_t) (b millis : Z) :
  st s = GBP_PARSE_STATE_PRINTER_STATUS ->
  gbp_parse_message_update s (Some b) millis
  = Returned
      (set_packet_ready_flag true
         (upd_parser (set_parse_state GBP_PARSE_STATE_PACKET_RECEIVED) s),
       None).
Proof. intros Hs. open_printer s. reflexivity. Qed.

(** The entry action of PRINTER_STATUS touches the status flags and the
    pretend-print deadline, nothing else. *)
Lemma parser_status_entered (s : gbp_printer_t) (millis : Z) :
  gbp_packet_parser (status_entered s millis)
  = set_parse_state GBP_PARSE_STATE_PRINTER_STATUS (gbp_packet_parser s).
Proof.
  unfold status_entered, status_for_command.
  repeat split_test; autorewrite with printer; reflexivity.
Qed.

Lemma packet_status_entered (s : gbp_printer_t) (millis : Z) :
  gbp_packet (status_entered s millis) = gbp_packet s.
Proof.
  unfold status_entered, status_for_command.
  repeat split_test; autorewrite with printer; reflexivity.
Qed.

Lemma ready_status_entered (s : gbp_printer_t) (millis : Z) :
  packet_ready_flag (status_entered s millis) = packet_ready_flag s.
Proof.
  unfold status_entered, status_for_command.
  repeat split_test; autorewrite with printer; reflexivity.
Qed.

Lemma image_status_entered (s : gbp_printer_t) (millis : Z) :
  gbp_print_buffer (status_entered s millis) = gbp_print_buffer s.
Proof.
  unfold status_entered, status_for_command.
  repeat split_test; autorewrite with printer; reflexivity.
Qed.

Lemma settings_status_entered (s : gbp_printer_t) (millis : Z) :
  gbp_print_settings_buffer (status_entered s millis) = gbp_print_settings_buffer s.
Proof.
  unfold status_entered, status_for_command.
  repeat split_test; autorewrite with printer; reflexivity.
Qed.

Lemma status_entered_checksum_error (s : gbp_printer_t) (millis : Z) :
  checksum_error (gbp_printer_status (status_entered s millis))
  = negb (calculated_checksum (gbp_packet_parser s) =? checksum (gbp_packet s)).
Proof.
  unfold status_entered, status_for_command.
  repeat split_test; fields; reflexivity.
Qed.

Lemma status_entered_frame (s : gbp_printer_t) (millis : Z) :
  command (gbp_packet s) = GBP_COMMAND_INIT \/
  (command (gbp_packet s) <> GBP_COMMAND_DATA /\
   command (gbp_packet s) <> GBP_COMMAND_PRINT) ->
  let s' := status_entered s millis in
  unprocessed_data (gbp_printer_status s') = unprocessed_data (gbp_printer_status s) /\
  print_buffer_full (gbp_printer_status s') = print_buffer_full (gbp_printer_status s) /\
  printer_busy (gbp_printer_status s') = printer_busy (gbp_printer_status s) /\
  uptime_til_pretend_print_finish_ms s' = uptime_til_pretend_print_finish_ms s.
Proof.
  unfold status_entered, status_for_command. intros Hc. fields.
  destruct (Z.eqb_spec (command (gbp_packet s)) GBP_COMMAND_INIT); [fields; auto|].
  destruct (Z.eqb_spec (command (gbp_packet s)) GBP_COMMAND_DATA); [exfalso; tauto|].
  destruct (Z.eqb_spec (command (gbp_packet s)) GBP_COMMAND_PRINT); [exfalso; tauto|].
  destruct (command (gbp_packet s) =? GBP_COMMAND_INQUIRY); fields; auto.
Qed.

End Parser.

#[export] Hint Rewrite @parser_status_entered @packet_status_entered @ready_status_entered
  @image_status_entered @settings_status_entered : printer.

(** ** Whole packets *)

Tactic Notation "step" uconstr(L) :=
  cbn [feed]; rewrite L; [cbn [bind] | try (fields; reflexivity) ..].

(** C10.  An INIT or INQUIRY packet that completes leaves the flags
    [unprocessed_data], [print_buffer_full] and [printer_busy] and the
    pretend-print deadline as they were: only [checksum_error] is assigned
    on entry to PRINTER_STATUS.  Such a packet has data length zero (with
    another length the parser does not return), and it does complete: the
    eight bytes take the parser from COMMAND to PACKET_RECEIVED. *)
Theorem init_inquiry_keep_flags `{gbp_protocol}
    (s : gbp_printer_t) (cmd comp cl ch d t millis : Z) :
  st s = GBP_PARSE_STATE_COMMAND ->
  GBP_COMMAND_INQUIRY <> GBP_COMMAND_DATA ->
  GBP_COMMAND_INQUIRY <> GBP_COMMAND_PRINT ->
  cmd = GBP_COMMAND_INIT \/ cmd = GBP_COMMAND_INQUIRY ->
  exists s',
    feed s millis [cmd; comp; 0; 0; cl; ch; d; t] = Returned s' /\
    st s' = GBP_PARSE_STATE_PACKET_RECEIVED /\
    unprocessed_data (gbp_printer_status s') = unprocessed_data (gbp_printer_status s) /\
    print_buffer_full (gbp_printer_status s') = print_buffer_full (gbp_printer_status s) /\
    printer_busy (gbp_printer_status s') = printer_busy (gbp_printer_status s) /\
    uptime_til_pretend_print_finish_ms s' = uptime_til_pretend_print_finish_ms s.
Proof.
  intros Hs Hd Hp Hc.
  step update_command; [|exact Hs].
  step update_compression.
  step update_length_low.
  step update_length_high_zero.
  step update_checksum_low.
  step update_checksum_high.
  step update_device_id.
  step update_printer_status.
  cbn [feed]. eexists. split; [reflexivity|].
  match goal with |- context [status_entered ?x millis] =>
    pose proof (status_entered_frame x millis) as F
  end.
  cbn zeta in F. fields_in F.
  destruct F as (F1 & F2 & F3 & F4); [destruct Hc as [->| ->]; auto|].
  fields. rewrite F1, F2, F3, F4. fields. repeat split.
Qed.

Lemma init_inquiry_keep_flags_witness :
  let s := set_gbp_printer_status (mk_status false true true true) dmg_printer in
  exists s',
    @feed dmg s 0 [0x01; 0; 0; 0; 0x01; 0; 0; 0] = Returned s' /\
    st s' = GBP_PARSE_STATE_PACKET_RECEIVED /\
    unprocessed_data (gbp_printer_status s') = true /\
    print_buffer_full (gbp_printer_status s') = true /\
    printer_busy (gbp_printer_status s') = true /\
    uptime_til_pretend_print_finish_ms s' = 0.
Proof.
  intros s.
  exact (@init_inquiry_keep_flags dmg s 0x01 0 0x01 0 0 0 0 eq_refl
           ltac:(discriminate) ltac:(discriminate) (or_introl eq_refl)).
Defined.

(** C6.  A checksum field that differs from the running sum does not stop
    the parser.  From CHECKSUM_LOW, the two checksum bytes and the bytes of
    the device-id and status slots are consumed one per call; the device
    id is staged on entry to DEVICE_ID; on entry to PRINTER_STATUS
    [checksum_error] is set and the status byte computed from the flags is
    staged and recorded; the last call enters PACKET_RECEIVED and sets
    [packet_ready_flag]. *)
Theorem checksum_mismatch_not_fatal `{gbp_protocol}
    (s : gbp_printer_t) (lo hi dev stat millis : Z) :
  st s = GBP_PARSE_STATE_CHECKSUM_LOW ->
  0 <= lo < 256 -> 0 <= hi < 256 ->
  calculated_checksum (gbp_packet_parser s) <> lo + 256 * hi ->
  exists s1 s2 s3 s4,
    gbp_parse_message_update s (Some lo) millis = Returned (s1, None) /\
    gbp_parse_message_update s1 (Some hi) millis = Returned (s2, Some (u8 GBP_DEVICE_ID)) /\
    st s2 = GBP_PARSE_STATE_DEVICE_ID /\
    checksum (gbp_packet s2) = lo + 256 * hi /\
    gbp_parse_message_update s2 (Some dev) millis
    = Returned (s3, Some (u8 (gbp_status_byte (gbp_printer_status s3)))) /\
    st s3 = GBP_PARSE_STATE_PRINTER_STATUS /\
    checksum_error (gbp_printer_status s3) = true /\
    printer_status (gbp_packet s3) = u8 (gbp_status_byte (gbp_printer_status s3)) /\
    gbp_parse_message_update s3 (Some stat) millis = Returned (s4, None) /\
    st s4 = GBP_PARSE_STATE_PACKET_RECEIVED /\
    packet_ready_flag s4 = true /\
    checksum_error (gbp_printer_status s4) = true.
Proof.
  intros Hs Hlo Hhi Hne.
  pose (s1 := upd_parser (set_crc_low lo)
                (upd_packet (set_checksum (u16 (Z.lor 0 (Z.land (Z.shiftl lo 0) 0x00FF))))
                   (upd_parser (set_parse_state GBP_PARSE_STATE_CHECKSUM_HIGH) s))).
  pose (s2 := upd_packet (set_acknowledgement (u8 GBP_DEVICE_ID))
                (upd_parser (set_crc_high hi)
                   (upd_packet (set_checksum (checksum_with_high s1 hi))
                      (upd_parser (set_parse_state GBP_PARSE_STATE_DEVICE_ID) s1)))).
  pose (s3 := upd_packet
                (set_printer_status
                   (u8 (gbp_status_byte (gbp_printer_status (status_entered s2 millis)))))
                (status_entered s2 millis)).
  pose (s4 := set_packet_ready_flag true
                (upd_parser (set_parse_state GBP_PARSE_STATE_PACKET_RECEIVED) s3)).
  assert (Hck : checksum (gbp_packet s2) = lo + 256 * hi).
  { subst s2 s1. fields. apply word_of_bytes; assumption. }
  assert (Hcalc : calculated_checksum (gbp_packet_parser s2)
                  = calculated_checksum (gbp_packet_parser s)).
  { subst s2 s1. fields. reflexivity. }
  assert (Herr : checksum_error (gbp_printer_status s3) = true).
  { subst s3. fields. rewrite status_entered_checksum_error.
    apply negb_true_iff, Z.eqb_neq. rewrite Hck, Hcalc. exact Hne. }
  assert (Hst : gbp_printer_status s3 = gbp_printer_status (status_entered s2 millis)).
  { subst s3. fields. reflexivity. }
  exists s1, s2, s3, s4.
  split; [apply update_checksum_low, Hs|].
  split; [apply update_checksum_high; subst s1; fields; reflexivity|].
  split; [subst s2; fields; reflexivity|].
  split; [exact Hck|].
  split; [rewrite Hst; apply update_device_id; subst s2; fields; reflexivity|].
  split; [subst s3; fields; reflexivity|].
  split; [exact Herr|].
  split; [rewrite Hst; subst s3; fields; reflexivity|].
  split; [apply update_printer_status; subst s3; fields; reflexivity|].
  split; [subst s4; fields; reflexivity|].
  split; [subst s4; fields; reflexivity|].
  subst s4. fields. exact Herr.
Qed.

Lemma checksum_mismatch_not_fatal_witness :
  calculated_checksum (gbp_packet_parser (dmg_after 4)) <> 0x10 + 256 * 0 /\
  exists s1 s2 s3 s4,
    @gbp_parse_message_update dmg (dmg_after 4) (Some 0x10) 0 = Returned (s1, None) /\
    @gbp_parse_message_update dmg s1 (Some 0) 0 = Returned (s2, Some (u8 0x81)) /\
    st s2 = GBP_PARSE_STATE_DEVICE_ID /\
    checksum (gbp_packet s2) = 0x10 + 256 * 0 /\
    @gbp_parse_message_update dmg s2 (Some 0) 0
    = Returned (s3, Some (u8 (dmg_status_byte (gbp_printer_status s3)))) /\
    st s3 = GBP_PARSE_STATE_PRINTER_STATUS /\
    checksum_error (gbp_printer_status s3) = true /\
    printer_status (gbp_packet s3) = u8 (dmg_status_byte (gbp_printer_status s3)) /\
    @gbp_parse_message_update dmg s3 (Some 0) 0 = Returned (s4, None) /\
    st s4 = GBP_PARSE_STATE_PACKET_RECEIVED /\
    packet_ready_flag s4 = true /\
    checksum_error (gbp_printer_status s4) = true.
Proof.
  assert (Hne : calculated_checksum (gbp_packet_parser (dmg_after 4)) <> 0x10 + 256 * 0)
    by (vm_compute; discriminate).
  split; [exact Hne|].
  exact (@checksum_mismatch_not_fatal dmg (dmg_after 4) 0x10 0 0 0 0 eq_refl
           ltac:(lia) ltac:(lia) Hne).
Defined.

(** C4, as the code has it.  The parser never moves to a state with a
    smaller number, and PACKET_RECEIVED is final: a call made in it, with
    or without a byte, returns the printer unchanged and stages nothing, so
    the byte after a complete packet is dropped.  Only with the parser
    record that [gbp_parse_message_reset] stores, which puts the parser
    back to COMMAND, is a byte consumed as the command of a new packet. *)
Theorem packet_received_is_final `{gbp_protocol}
    (s : gbp_printer_t) (rx : option Z) (b millis : Z) :
  st s = GBP_PARSE_STATE_PACKET_RECEIVED ->
  gbp_parse_message_update s rx millis = Returned (s, None) /\
  (exists ptr s',
     gbp_parse_message_reset (gbp_packet_parser s)
     = FlowsOffEnd (in_gbp_parse_message_reset ptr) /\
     gbp_parse_message_update (set_gbp_packet_parser ptr s) (Some b) millis
     = Returned (s', None) /\
     st s' = GBP_PARSE_STATE_COMPRESSION /\
     command (gbp_packet s') = b) /\
  (forall s0 s1 rx0 tx0,
     gbp_parse_message_update s0 rx0 millis = Returned (s1, tx0) ->
     state_number (st s0) <= state_number (st s1)).
Proof.
  intros Hs. split; [apply update_packet_received, Hs|]. split.
  - do 2 eexists. split; [reflexivity|].
    split; [apply update_command; destruct s; reflexivity|].
    split; fields; reflexivity.
  - intros s0 s1 rx0 tx0. apply update_state_monotone.
Qed.

Lemma packet_received_is_final_witness :
  st (dmg_after 8) = GBP_PARSE_STATE_PACKET_RECEIVED /\
  @gbp_parse_message_update dmg (dmg_after 8) (Some 0x04) 0
  = Returned (dmg_after 8, None) /\
  exists ptr s',
    gbp_parse_message_reset (gbp_packet_parser (dmg_after 8))
    = FlowsOffEnd (in_gbp_parse_message_reset ptr) /\
    @gbp_parse_message_update dmg
      (set_gbp_packet_parser ptr (dmg_after 8)) (Some 0x04) 0
    = Returned (s', None) /\
    st s' = GBP_PARSE_STATE_COMPRESSION /\
    command (gbp_packet s') = 0x04.
Proof.
  split; [reflexivity|].
  destruct (@packet_received_is_final dmg (dmg_after 8) (Some 0x04) 0x04 0 eq_refl)
    as (Hstay & Hrestart & _).
  split; [exact Hstay | exact Hrestart].
Defined.

(** C4 fails as stated: after a complete INQUIRY packet the byte 0x04 is
    not taken as the command of a new packet; the parser is still in
    PACKET_RECEIVED and the packet still holds the command 0x0F. *)
Lemma packet_received_no_restart :
  st (dmg_after 8) = GBP_PARSE_STATE_PACKET_RECEIVED /\
  exists s',
    @gbp_parse_message_update dmg (dmg_after 8) (Some 0x04) 0 = Returned (s', None) /\
    st s' = GBP_PARSE_STATE_PACKET_RECEIVED /\
    st s' <> GBP_PARSE_STATE_COMPRESSION /\
    command (gbp_packet s') = 0x0F /\
    command (gbp_packet s') <> 0x04.
Proof.
  split; [reflexivity|]. eexists. split; [vm_compute; reflexivity|].
  repeat split; try reflexivity; vm_compute; discriminate.
Qed.

(** C7, as the code has it.  A packet that announces a non-zero data
    length for a command without payload buffer stops the parser for good:
    the call that receives the high byte of the length does not return
    (it spins in [while (1);]), so no byte that follows is processed and
    nothing resynchronises. *)
Theorem protocol_violation_hangs `{gbp_protocol}
    (s : gbp_printer_t) (cmd comp lo hi millis : Z) (more : list Z) :
  st s = GBP_PARSE_STATE_COMMAND ->
  select_data_ptr cmd = None ->
  0 <= lo < 256 -> 0 <= hi < 256 -> 0 < lo + 256 * hi ->
  exists s3 h,
    feed s millis [cmd; comp; lo] = Returned s3 /\
    gbp_parse_message_update s3 (Some hi) millis = Hangs h /\
    st h = GBP_PARSE_STATE_PACKET_DATA_LENGTH_HIGH /\
    data_length (gbp_packet h) = lo + 256 * hi /\
    feed s millis ([cmd; comp; lo; hi] ++ more) = Hangs h.
Proof.
  intros Hs Hp Hlo Hhi Hlen.
  assert (E3 : exists s3, feed s millis [cmd; comp; lo] = Returned s3 /\
                 st s3 = GBP_PARSE_STATE_PACKET_DATA_LENGTH_HIGH /\
                 data_ptr (gbp_packet s3) = None /\
                 length_with_high s3 hi = lo + 256 * hi).
  { step update_command; [|exact Hs].
    step update_compression.
    step update_length_low.
    cbn [feed]. eexists. split; [reflexivity|].
    split; [fields; reflexivity|]. split; [fields; exact Hp|].
    fields. apply word_of_bytes; assumption. }
  destruct E3 as (s3 & F3 & S3 & P3 & L3).
  assert (Hh : gbp_parse_message_update s3 (Some hi) millis
               = Hangs (upd_packet (set_data_length (length_with_high s3 hi)) s3)).
  { apply update_length_high_hangs; [exact S3|lia|exact P3]. }
  exists s3, (upd_packet (set_data_length (length_with_high s3 hi)) s3).
  split; [exact F3|]. split; [exact Hh|].
  split; [fields; exact S3|]. split; [fields; exact L3|].
  change ([cmd; comp; lo; hi] ++ more) with ([cmd; comp; lo] ++ hi :: more).
  rewrite feed_app, F3. cbn [bind feed]. rewrite Hh. reflexivity.
Qed.

Lemma protocol_violation_hangs_witness :
  exists s3 h,
    @feed dmg dmg_printer 0 [0x01; 0; 1] = Returned s3 /\
    @gbp_parse_message_update dmg s3 (Some 0) 0 = Hangs h /\
    st h = GBP_PARSE_STATE_PACKET_DATA_LENGTH_HIGH /\
    data_length (gbp_packet h) = 1 + 256 * 0 /\
    @feed dmg dmg_printer 0 ([0x01; 0; 1; 0] ++ [0x0F; 0; 0; 0; 0x0F; 0; 0; 0]) = Hangs h.
Proof.
  exact (@protocol_violation_hangs dmg dmg_printer 0x01 0 1 0 0
           [0x0F; 0; 0; 0; 0x0F; 0; 0; 0] eq_refl eq_refl
           ltac:(lia) ltac:(lia) ltac:(lia)).
Defined.

(** C7 fails as stated: an INIT packet announcing one byte of data makes
    the parser hang on the fourth byte; it has not returned to COMMAND, and
    the well-formed INQUIRY packet sent afterwards is never parsed. *)
Lemma protocol_violation_no_recovery :
  exists h,
    @feed dmg dmg_printer 0 [0x01; 0; 1; 0] = Hangs h /\
    st h = GBP_PARSE_STATE_PACKET_DATA_LENGTH_HIGH /\
    @feed dmg dmg_printer 0 ([0x01; 0; 1; 0] ++ [0x0F; 0; 0; 0; 0x0F; 0; 0; 0]) = Hangs h /\
    (forall s', @feed dmg dmg_printer 0 ([0x01; 0; 1; 0] ++ [0x0F; 0; 0; 0; 0x0F; 0; 0; 0])
                <> Returned s').
Proof.
  eexists. split; [vm_compute; reflexivity|]. split; [reflexivity|].
  split; [vm_compute; reflexivity|]. intros s'. vm_compute. discriminate.
Qed.

(** ** The payload stage *)

Lemma capacity_bound (buf : buffer_t) : 0 < capacity buf <= 650.
Proof. destruct buf; cbn; lia. Qed.

(** As long as the index stays at or below the data length, payload bytes
    are stored and the parser stays in VARIABLE_PAYLOAD. *)
Lemma payload_run `{gbp_protocol} (buf : buffer_t) (millis : Z) (bytes : list Z) :
  forall s : gbp_printer_t,
    st s = GBP_PARSE_STATE_VARIABLE_PAYLOAD ->
    data_ptr (gbp_packet s) = Some buf ->
    data_length (gbp_packet s) < capacity buf ->
    0 <= data_index (gbp_packet_parser s) ->
    data_index (gbp_packet_parser s) + Z.of_nat (length bytes) <= data_length (gbp_packet s) ->
    exists s',
      feed s millis bytes = Returned s' /\
      st s' = GBP_PARSE_STATE_VARIABLE_PAYLOAD /\
      data_ptr (gbp_packet s') = Some buf /\
      data_length (gbp_packet s') = data_length (gbp_packet s) /\
      data_index (gbp_packet_parser s')
      = data_index (gbp_packet_parser s) + Z.of_nat (length bytes).
Proof.
  pose proof (capacity_bound buf) as Hcap.
  induction bytes as [|b bytes IH]; intros s Hs Hp Hl Hi Hn.
  - exists s. cbn [feed length]. repeat split; try assumption. lia.
  - cbn [length] in Hn. rewrite Nat2Z.inj_succ in Hn.
    assert (Hu : u16 (data_index (gbp_packet_parser s) + 1)
                 = data_index (gbp_packet_parser s) + 1)
      by (unfold u16; apply Z.mod_small; lia).
    cbn [feed]. rewrite (update_payload_more s b millis buf) by (try assumption; lia).
    cbn [bind].
    destruct (IH (payload_stored s buf b)) as (s' & F & S' & P' & L' & I').
    + fields. exact Hs.
    + fields. exact Hp.
    + fields. exact Hl.
    + fields. lia.
    + fields. lia.
    + exists s'. split; [exact F|]. split; [exact S'|]. split; [exact P'|].
      fields_in L'. fields_in I'. split; [exact L'|].
      rewrite I', Hu. cbn [length]. lia.
Qed.

(** C3, as the code has it.  For a data length [L] with [0 < L] that is
    smaller than the capacity of the buffer the command selects, the
    VARIABLE_PAYLOAD stage consumes exactly [L + 1] bytes: after any
    [k <= L] of them the parser is still in VARIABLE_PAYLOAD, after the
    last one it is in CHECKSUM_LOW. *)
Theorem payload_stage_length_plus_one `{gbp_protocol}
    (s : gbp_printer_t) (buf : buffer_t) (bytes : list Z) (millis : Z) :
  st s = GBP_PARSE_STATE_VARIABLE_PAYLOAD ->
  data_ptr (gbp_packet s) = Some buf ->
  data_index (gbp_packet_parser s) = 0 ->
  0 < data_length (gbp_packet s) < capacity buf ->
  Z.of_nat (length bytes) = data_length (gbp_packet s) + 1 ->
  (forall k : nat, Z.of_nat k <= data_length (gbp_packet s) ->
     exists sk, feed s millis (take k bytes) = Returned sk /\
                st sk = GBP_PARSE_STATE_VARIABLE_PAYLOAD /\
                data_index (gbp_packet_parser sk) = Z.of_nat k) /\
  (exists s', feed s millis bytes = Returned s' /\
              st s' = GBP_PARSE_STATE_CHECKSUM_LOW /\
              data_index (gbp_packet_parser s') = data_length (gbp_packet s) + 1).
Proof.
  intros Hs Hp Hi Hl Hn. pose proof (capacity_bound buf) as Hcap.
  assert (Hk : forall k : nat, Z.of_nat k <= data_length (gbp_packet s) ->
            exists sk, feed s millis (take k bytes) = Returned sk /\
                       st sk = GBP_PARSE_STATE_VARIABLE_PAYLOAD /\
                       data_ptr (gbp_packet sk) = Some buf /\
                       data_length (gbp_packet sk) = data_length (gbp_packet s) /\
                       data_index (gbp_packet_parser sk) = Z.of_nat k).
  { intros k Hk.
    assert (Hlen : length (take k bytes) = k) by (rewrite length_take; lia).
    destruct (payload_run buf millis (take k bytes) s Hs Hp) as (sk & F & S' & P' & L' & I');
      [lia | lia | rewrite Hlen; lia |].
    exists sk. rewrite I', Hi, Hlen. auto. }
  split.
  - intros k Hle. destruct (Hk k Hle) as (sk & F & S' & _ & _ & I'). eauto.
  - set (n := Z.to_nat (data_length (gbp_packet s))).
    destruct (Hk n ltac:(lia)) as (sn & F & S' & P' & L' & I').
    assert (Hd : exists last, drop n bytes = [last]).
    { assert (Hlen : length (drop n bytes) = 1%nat) by (rewrite length_drop; lia).
      destruct (drop n bytes) as [|last [|? ?]]; try discriminate. eauto. }
    destruct Hd as (last & Hd).
    rewrite <- (take_drop n bytes), Hd, feed_app, F. cbn [bind feed].
    assert (Hu : u16 (data_index (gbp_packet_parser sn) + 1)
                 = data_length (gbp_packet s) + 1).
    { rewrite I'. unfold u16. rewrite Z.mod_small; lia. }
    rewrite (update_payload_last sn last millis buf) by (try assumption; lia).
    cbn [bind]. eexists. split; [reflexivity|]. split; [fields; reflexivity|].
    fields. exact Hu.
Qed.

Lemma payload_stage_length_plus_one_witness :
  let s := dmg_fed [0x04; 0; 3; 0] in
  (forall k : nat, Z.of_nat k <= 3 ->
     exists sk, @feed dmg s 0 (take k [0x11; 0x22; 0x33; 0x44]) = Returned sk /\
                st sk = GBP_PARSE_STATE_VARIABLE_PAYLOAD /\
                data_index (gbp_packet_parser sk) = Z.of_nat k) /\
  (exists s', @feed dmg s 0 [0x11; 0x22; 0x33; 0x44] = Returned s' /\
              st s' = GBP_PARSE_STATE_CHECKSUM_LOW /\
              data_index (gbp_packet_parser s') = 3 + 1).
Proof.
  intros s.
  refine (@payload_stage_length_plus_one dmg s print_buffer [0x11; 0x22; 0x33; 0x44] 0
            eq_refl eq_refl eq_refl _ eq_refl).
  vm_compute. split; reflexivity.
Defined.

(** C3 fails as stated for the largest data length.  With [L = 65535] a
    DATA packet overruns the 650 bytes of the image buffer at its 651st
    payload byte, long before [L + 1] bytes are consumed; and the 16-bit
    index wraps around, so that no value of it passes the exit test
    [data_index > 65535] and CHECKSUM_LOW is never entered. *)
Lemma payload_stage_longest_length :
  @feed dmg dmg_printer 0 ([0x04; 0; 0xFF; 0xFF] ++ replicate (Z.to_nat (65535 + 1)) 0)
  = OutOfBounds (Some print_buffer) 650 /\
  forallb (fun i => negb (u16 (i + 1) >? 65535)) (upto 0 (Z.to_nat 65536)) = true.
Proof. split; vm_compute; reflexivity. Qed.

(** ** Stores into the buffers *)

(** C8, as the code has it.  No store of a payload byte is checked
    against the capacity of the buffer.  In VARIABLE_PAYLOAD the byte goes
    to offset [data_index] of the selected buffer: below the capacity
    (4 for the settings buffer, 650 for the image buffer) it lands in the
    buffer, at or above the capacity the store is made past the end of the
    buffer; the parser does not take its error path then. *)
Theorem payload_store_unchecked `{gbp_protocol}
    (s : gbp_printer_t) (buf : buffer_t) (b millis : Z) :
  st s = GBP_PARSE_STATE_VARIABLE_PAYLOAD ->
  data_ptr (gbp_packet s) = Some buf ->
  length (buffer_of buf s) = Z.to_nat (capacity buf) ->
  0 <= data_index (gbp_packet_parser s) ->
  (data_index (gbp_packet_parser s) < capacity buf ->
     exists s',
       gbp_parse_message_update s (Some b) millis = Returned (s', None) /\
       buffer_of buf s' !! Z.to_nat (data_index (gbp_packet_parser s)) = Some b /\
       length (buffer_of buf s') = Z.to_nat (capacity buf)) /\
  (capacity buf <= data_index (gbp_packet_parser s) ->
     gbp_parse_message_update s (Some b) millis
     = OutOfBounds (Some buf) (data_index (gbp_packet_parser s)) /\
     forall h, gbp_parse_message_update s (Some b) millis <> Hangs h).
Proof.
  intros Hs Hp Hlen Hi. split.
  - intros Hlt.
    assert (Hb : buffer_of buf (payload_stored s buf b)
                 = <[Z.to_nat (data_index (gbp_packet_parser s)) := b]> (buffer_of buf s)).
    { unfold payload_stored. autorewrite with printer. reflexivity. }
    assert (Hlk : buffer_of buf (payload_stored s buf b)
                    !! Z.to_nat (data_index (gbp_packet_parser s)) = Some b).
    { rewrite Hb. apply list_lookup_insert_eq. rewrite Hlen. lia. }
    assert (Hln : length (buffer_of buf (payload_stored s buf b)) = Z.to_nat (capacity buf)).
    { rewrite Hb, length_insert. exact Hlen. }
    destruct (Z.le_gt_cases (u16 (data_index (gbp_packet_parser s) + 1))
                            (data_length (gbp_packet s))) as [Hle|Hgt].
    + exists (payload_stored s buf b).
      split; [apply update_payload_more; try assumption; lia|]. auto.
    + exists (upd_parser (set_parse_state GBP_PARSE_STATE_CHECKSUM_LOW)
                (payload_stored s buf b)).
      split; [apply update_payload_last; try assumption; lia|].
      rewrite buffer_of_upd_parser. auto.
  - intros Hge. rewrite (update_payload_overrun s b millis buf Hs Hp Hge).
    split; [reflexivity|]. intros h. discriminate.
Qed.

Lemma payload_store_unchecked_witness :
  let s := dmg_fed [0x02; 0; 10; 0; 1; 2; 3; 4] in
  data_index (gbp_packet_parser s) = 4 /\
  @gbp_parse_message_update dmg s (Some 5) 0 = OutOfBounds (Some print_settings_buffer) 4.
Proof.
  intros s. split; [reflexivity|].
  refine (proj1 (proj2 (@payload_store_unchecked dmg s print_settings_buffer 5 0
                          eq_refl eq_refl eq_refl _) _)).
  - vm_compute. discriminate.
  - vm_compute. discriminate.
Defined.

(** C8 fails as stated: a PRINT packet announcing ten bytes of settings
    has its first four payload bytes stored in the four-byte settings
    buffer, and the fifth is stored at offset 4, past its end; the parser
    neither hangs nor reports anything. *)
Lemma payload_overruns_settings_buffer :
  (exists s, @feed dmg dmg_printer 0 [0x02; 0; 10; 0; 1; 2; 3; 4] = Returned s /\
             gbp_print_settings_buffer s = [1; 2; 3; 4] /\
             st s = GBP_PARSE_STATE_VARIABLE_PAYLOAD) /\
  @feed dmg dmg_printer 0 [0x02; 0; 10; 0; 1; 2; 3; 4; 5]
  = OutOfBounds (Some print_settings_buffer) 4 /\
  capacity print_settings_buffer = 4.
Proof.
  split; [eexists; split; [vm_compute; reflexivity|split; reflexivity]|].
  split; [vm_compute; reflexivity|reflexivity].
Qed.

(** ** The round trip of a DATA packet *)

(** The last two bytes of a packet, from CHECKSUM_HIGH on: the first one
    completes the checksum field, the second one is consumed in DEVICE_ID
    and triggers the comparison. *)
Lemma checksum_compared `{gbp_protocol} (s : gbp_printer_t) (lo hi stat millis : Z) :
  st s = GBP_PARSE_STATE_CHECKSUM_HIGH ->
  checksum (gbp_packet s) = lo -> 0 <= lo < 256 -> 0 <= hi < 256 ->
  exists s',
    feed s millis [hi; stat] = Returned s' /\
    st s' = GBP_PARSE_STATE_PRINTER_STATUS /\
    gbp_print_buffer s' = gbp_print_buffer s /\
    calculated_checksum (gbp_packet_parser s') = calculated_checksum (gbp_packet_parser s) /\
    checksum (gbp_packet s') = lo + 256 * hi /\
    checksum_error (gbp_printer_status s')
    = negb (calculated_checksum (gbp_packet_parser s) =? lo + 256 * hi).
Proof.
  intros Hs Hck Hlo Hhi.
  assert (Hw : checksum_with_high s hi = lo + 256 * hi).
  { unfold checksum_with_high. rewrite Hck. rewrite high_byte by assumption.
    unfold u16. apply Z.mod_small. lia. }
  step update_checksum_high; [|exact Hs].
  step update_device_id.
  cbn [feed]. eexists. split; [reflexivity|].
  split; [fields; reflexivity|]. split; [fields; reflexivity|].
  split; [fields; reflexivity|].
  split; [autorewrite with printer; cbn [checksum set_checksum set_acknowledgement
                                           set_printer_status]; exact Hw|].
  autorewrite with printer. rewrite status_entered_checksum_error.
  autorewrite with printer.
  cbn [calculated_checksum set_crc_high set_parse_state checksum set_checksum
       set_acknowledgement].
  rewrite Hw. reflexivity.
Qed.

(** C1.  The code departs from the claim.  The packet of the claim, sent
    with the command code 0x04 of DATA, is: command, compression 0, length
    3 (low byte first), payload 0x11 0x22 0x33, checksum 0x006D (low byte
    first), then the bytes [dev] and [stat] of the device-id and status
    slots.  The payload stage takes four bytes, not three: the low byte of
    the checksum is stored at offset 3 of the image buffer and added to the
    running sum, and the checksum field is read one byte late, from the
    high byte of the checksum and from [dev].  The sums differ for every
    [dev], and [checksum_error] is set. *)
Theorem data_packet_round_trip_fails (dev stat millis : Z) :
  0 <= dev < 256 ->
  exists s',
    @feed dmg dmg_printer millis
      ([0x04; 0; 3; 0] ++ [0x11; 0x22; 0x33] ++ [0x6D; 0x00] ++ [dev; stat]) = Returned s' /\
    st s' = GBP_PARSE_STATE_PRINTER_STATUS /\
    take 4 (gbp_print_buffer s') = [0x11; 0x22; 0x33; 0x6D] /\
    calculated_checksum (gbp_packet_parser s') = 0x6D + 0x6D /\
    checksum (gbp_packet s') = 0x00 + 256 * dev /\
    checksum_error (gbp_printer_status s') = true.
Proof.
  intros Hdev.
  set (s9 := dmg_fed [0x04; 0; 3; 0; 0x11; 0x22; 0x33; 0x6D; 0x00]).
  assert (E9 : @feed dmg dmg_printer millis [0x04; 0; 3; 0; 0x11; 0x22; 0x33; 0x6D; 0x00]
               = Returned s9) by (vm_compute; reflexivity).
  destruct (@checksum_compared dmg s9 0x00 dev stat millis eq_refl eq_refl) as
    (s' & F & S' & B' & C' & K' & X'); [lia | exact Hdev |].
  exists s'.
  change ([0x04; 0; 3; 0] ++ [0x11; 0x22; 0x33] ++ [0x6D; 0x00] ++ [dev; stat])
    with ([0x04; 0; 3; 0; 0x11; 0x22; 0x33; 0x6D; 0x00] ++ [dev; stat]).
  rewrite feed_app, E9. cbn [bind].
  split; [exact F|]. split; [exact S'|].
  split; [rewrite B'; vm_compute; reflexivity|].
  split; [rewrite C'; vm_compute; reflexivity|].
  split; [exact K'|].
  rewrite X'. apply negb_true_iff, Z.eqb_neq.
  change (calculated_checksum (gbp_packet_parser s9)) with 218. lia.
Qed.

Lemma data_packet_round_trip_fails_witness :
  exists s',
    @feed dmg dmg_printer 0
      ([0x04; 0; 3; 0] ++ [0x11; 0x22; 0x33] ++ [0x6D; 0x00] ++ [0x81; 0x00]) = Returned s' /\
    st s' = GBP_PARSE_STATE_PRINTER_STATUS /\
    take 4 (gbp_print_buffer s') = [0x11; 0x22; 0x33; 0x6D] /\
    calculated_checksum (gbp_packet_parser s') = 0x6D + 0x6D /\
    checksum (gbp_packet s') = 0x00 + 256 * 0x81 /\
    checksum_error (gbp_printer_status s') = true.
Proof.
  exact (data_packet_round_trip_fails 0x81 0x00 0 ltac:(lia)).
Defined.

(** ** End to end *)

(** [gameboy_printer_setup] calls [gbp_printer_init] on the zeroed global.
    The call does not get past [gbp_rx_tx_byte_reset], which stores the
    streamer of [dmg_printer] and flows off its end. *)
Example setup_on_the_zeroed_global :
  @gbp_printer_init dmg gbp_printer_zero
  = FlowsOffEnd (in_gbp_rx_tx_byte_reset (gbp_rx_tx_byte_buffer dmg_printer)).
Proof. reflexivity. Qed.

(** The sync word takes the streamer of [dmg_printer] to [dmg_synced]. *)
Example sync_word_on_the_wire :
  @clock_in dmg (gbp_rx_tx_byte_buffer dmg_printer) (msb_first 16 0x8833)
  = Returned dmg_synced.
Proof. vm_compute. reflexivity. Qed.

(** The interrupt routine on the bit stream of an INQUIRY packet: the sync
    word, then the bytes.  The five bytes up to the low byte of the
    checksum are taken in, and the routine returns from each of its calls;
    the clock is low to begin with, so the first call sees no edge, and
    every falling edge after it drives the pin low.
    With the last bit of the sixth byte the parser enters DEVICE_ID and
    hands the device id 0x81 over; the routine calls [gbp_rx_tx_byte_set]
    for it, and that call stores the byte and flows off its end. *)
Example inquiry_packet_on_the_wire :
  (exists s levels,
     @isr_periods dmg dmg_printer 0
       (msb_first 16 0x8833 ++ concat (map (msb_first 8) [0x0F; 0; 0; 0; 0x0F]))
     = Returned (s, levels) /\
     st s = GBP_PARSE_STATE_CHECKSUM_HIGH /\
     gbp_rx_tx_byte_buffer s = dmg_synced /\
     levels = None :: replicate (15 + 40) (Some false)) /\
  @isr_periods dmg dmg_printer 0
    (msb_first 16 0x8833 ++ concat (map (msb_first 8) [0x0F; 0; 0; 0; 0x0F; 0]))
  = FlowsOffEnd (in_gbp_rx_tx_byte_set (set_tx_byte_staging 0x81 dmg_synced)).
Proof.
  split; [do 2 eexists; split; [vm_compute; reflexivity|]; repeat split|].
  vm_compute. reflexivity.
Qed.

(** * Further properties of the streamer *)

Lemma u8_range (x : Z) : 0 <= u8 x < 256.
Proof. unfold u8. apply Z.mod_pos_bound. lia. Qed.

Lemma u16_range (x : Z) : 0 <= u16 x < 65536.
Proof. unfold u16. apply Z.mod_pos_bound. lia. Qed.

(** One call keeps the fields in range, and delivers a byte if anything. *)
Lemma update_in_range (q : gbp_rx_tx_byte_buffer_t) (c d : bool) :
  rx_tx_in_range q ->
  rx_tx_in_range (rx_tx_ptr (clock_edge q c d)) /\
  forall b, rx_byte_out (clock_edge q c d) = Some b -> 0 <= b < 256.
Proof.
  destruct q as [ini prev syn word buf pos rxb stg txb].
  unfold rx_tx_in_range. cbn. intros (Hw & Hb & Hp & Hr & Hs & Ht).
  pose proof (u16_range (Z.shiftl buf 1)).
  pose proof (u16_range (Z.lor (u16 (Z.shiftl buf 1)) 1)).
  pose proof (u8_range (Z.lor rxb (Z.shiftl 1 pos))).
  assert (Hd : (pos >? 0) = true -> u8 (pos - 1) = pos - 1).
  { intros E. unfold u8. apply Z.mod_small. lia. }
  unfold clock_edge, sync_scan, byte_read, bit_tx.
  destruct ini, c, d, prev, syn; cbn; repeat (split_test; cbn);
    rewrite ?Hd by assumption;
    (split; [repeat split; lia | intros b0 E; inversion E; subst; lia]).
Qed.

Lemma edges_sampled_range
    (samples : list (bool * bool)) (ptr : gbp_rx_tx_byte_buffer_t) :
  rx_tx_in_range ptr -> rx_tx_in_range (edges_sampled ptr samples).
Proof.
  revert ptr. induction samples as [|[c d] samples IH]; intros ptr Hr; [exact Hr|].
  cbn [edges_sampled]. apply IH, update_in_range, Hr.
Qed.

(** X1.  Whatever samples an initialised streamer is given, in whatever
    order of clock levels, every call returns, the fields stay within the
    ranges of their C types and the bit position stays within the byte
    frame; a byte it delivers is a byte. *)
Theorem streamer_stays_in_range `{gbp_protocol}
    (ptr : gbp_rx_tx_byte_buffer_t) (samples : list (bool * bool)) :
  initialized ptr = true ->
  rx_tx_in_range ptr ->
  exists q,
    sample_in ptr samples = Returned q /\
    initialized q = true /\
    rx_tx_in_range q /\
    forall c d : bool,
      exists r,
        gbp_rx_tx_byte_update q c d = Returned r /\
        forall b : Z, rx_byte_out r = Some b -> 0 <= b < 256.
Proof.
  intros Hi Hr. pose proof (edges_sampled_range samples ptr Hr) as Hs.
  assert (Hq : initialized (edges_sampled ptr samples) = true).
  { clear Hr Hs. revert ptr Hi.
    induction samples as [|[c d] samples IH]; intros ptr Hi; [exact Hi|].
    cbn [edges_sampled]. apply IH. rewrite clock_edge_initialized. exact Hi. }
  exists (edges_sampled ptr samples).
  split; [apply sample_in_returns, Hi|]. split; [exact Hq|]. split; [exact Hs|].
  intros c d. exists (clock_edge (edges_sampled ptr samples) c d).
  split; [apply update_returns, Hq | apply update_in_range, Hs].
Qed.

Lemma streamer_stays_in_range_witness :
  exists q,
    @sample_in dmg (gbp_rx_tx_byte_buffer dmg_printer)
      [(true, true); (false, true); (true, false); (true, true)] = Returned q /\
    rx_tx_in_range q.
Proof.
  destruct (@streamer_stays_in_range dmg (gbp_rx_tx_byte_buffer dmg_printer)
              [(true, true); (false, true); (true, false); (true, true)] eq_refl)
    as (q & E & _ & R & _).
  - unfold rx_tx_in_range. cbn. lia.
  - exists q. split; [exact E | exact R].
Defined.

(** X2.  Synchronisation is never lost by sampling: once the streamer is
    synchronised it stays so under any samples, and every call returns.
    The only store of [false] into [syncronised] is the one in
    [gbp_rx_tx_byte_reset]. *)
Theorem synchronisation_is_kept `{gbp_protocol}
    (ptr : gbp_rx_tx_byte_buffer_t) (samples : list (bool * bool)) :
  initialized ptr = true -> syncronised ptr = true ->
  exists q,
    sample_in ptr samples = Returned q /\
    syncronised q = true /\
    initialized q = true /\
    exists q0,
      gbp_rx_tx_byte_reset q = FlowsOffEnd (in_gbp_rx_tx_byte_reset q0) /\
      syncronised q0 = false.
Proof.
  intros Hi Hs.
  assert (K : syncronised (edges_sampled ptr samples) = true /\
              initialized (edges_sampled ptr samples) = true).
  { revert ptr Hi Hs. induction samples as [|[c d] samples IH]; intros ptr Hi Hs; [auto|].
    cbn [edges_sampled].
    assert (S1 : initialized (rx_tx_ptr (clock_edge ptr c d)) = true /\
                 syncronised (rx_tx_ptr (clock_edge ptr c d)) = true).
    { destruct ptr as [ini prev syn word buf pos rxb stg txb]. cbn in Hi, Hs. subst.
      unfold clock_edge, byte_read, bit_tx.
      destruct c, d, prev; cbn; repeat (split_test; cbn); split; reflexivity. }
    apply IH; apply S1. }
  destruct K as [K1 K2]. exists (edges_sampled ptr samples).
  split; [apply sample_in_returns, Hi|]. split; [exact K1|]. split; [exact K2|].
  eexists. split; reflexivity.
Qed.

Lemma synchronisation_is_kept_witness :
  exists q,
    @sample_in dmg dmg_synced [(false, true); (false, false); (true, true)] = Returned q /\
    syncronised q = true.
Proof.
  destruct (@synchronisation_is_kept dmg dmg_synced
              [(false, true); (false, false); (true, true)] eq_refl eq_refl)
    as (q & E & S & _).
  exists q. split; [exact E | exact S].
Defined.

(** X3.  Edges are detected, not levels: a second sample at the clock
    level of the sample before it changes nothing, delivers no byte and
    writes nothing to the pin, whatever the data level is and whatever the
    initialised streamer held. *)
Theorem repeated_sample_is_ignored `{gbp_protocol}
    (ptr : gbp_rx_tx_byte_buffer_t) (c d d' : bool) :
  initialized ptr = true ->
  exists first,
    gbp_rx_tx_byte_update ptr c d = Returned first /\
    gbp_rx_tx_byte_update (rx_tx_ptr first) c d'
    = Returned (mk_update (rx_tx_ptr first) None NO_NEW_BIT None).
Proof.
  intros Hi. exists (clock_edge ptr c d). split; [apply update_returns, Hi|].
  rewrite update_returns by (rewrite clock_edge_initialized; exact Hi). f_equal.
  clear Hi. destruct ptr as [ini prev syn word buf pos rxb stg txb].
  unfold clock_edge, sync_scan, byte_read, bit_tx.
  destruct c, d, prev, syn; cbn; repeat (split_test; cbn); reflexivity.
Qed.

Lemma repeated_sample_is_ignored_witness :
  exists first,
    @gbp_rx_tx_byte_update dmg dmg_synced false true = Returned first /\
    @gbp_rx_tx_byte_update dmg (rx_tx_ptr first) false false
    = Returned (mk_update (rx_tx_ptr first) None NO_NEW_BIT None).
Proof. exact (@repeated_sample_is_ignored dmg dmg_synced false true false eq_refl). Defined.

(** ** Receiving *)

Lemma edges_bytes_app (ptr : gbp_rx_tx_byte_buffer_t) (xs ys : list bool) :
  edges_bytes ptr (xs ++ ys) = edges_bytes ptr xs ++ edges_bytes (edges_in ptr xs) ys.
Proof.
  revert ptr. induction xs as [|x xs IH]; intros ptr; cbn; [|rewrite IH]; reflexivity.
Qed.

(** Setting a bit that is clear adds its weight. *)
Lemma set_clear_bit (a k : Z) :
  0 <= k -> a mod 2 ^ (k + 1) = 0 -> Z.lor a (Z.shiftl 1 k) = a + 2 ^ k.
Proof.
  intros Hk Ha.
  assert (Hb : Z.testbit a k = false).
  { rewrite <- (Z.mod_pow2_bits_low a (k + 1) k) by lia. rewrite Ha. apply Z.bits_0. }
  pose proof (land_bit a k Hk) as L. rewrite Hb in L. unfold nonzero in L.
  apply negb_false_iff, Z.eqb_eq in L.
  pose proof (Z.add_lor_land a (Z.shiftl 1 k)) as E. rewrite L in E.
  rewrite Z.shiftl_1_l in *. lia.
Qed.

(** A clock period of a synchronised streamer, as the receiver sees it. *)
Lemma edge_period_rx (ptr : gbp_rx_tx_byte_buffer_t) (b : bool) :
  initialized ptr = true -> syncronised ptr = true ->
  let r := edge_period ptr b in
  let rx := if b then u8 (Z.lor (rx_byte_buffer ptr) (Z.shiftl 1 (byte_frame_bit_pos ptr)))
            else rx_byte_buffer ptr in
  initialized r.1.1 = true /\ syncronised r.1.1 = true /\
  (if byte_frame_bit_pos ptr >? 0
   then byte_frame_bit_pos r.1.1 = u8 (byte_frame_bit_pos ptr - 1) /\
        rx_byte_buffer r.1.1 = rx /\ r.2 = None
   else byte_frame_bit_pos r.1.1 = 7 /\ rx_byte_buffer r.1.1 = 0 /\ r.2 = Some rx).
Proof.
  destruct ptr as [ini prev syn word buf pos rxb stg txb]. cbn. intros -> ->.
  unfold edge_period, clock_edge, byte_read, bit_tx.
  destruct prev, b; cbn; repeat (split_test; cbn); repeat split; reflexivity.
Qed.

(** From frame position [k] on, the remaining bits of the frame complete
    the byte: nothing is delivered before the last rising edge, which
    delivers the byte assembled from what was received before and the
    bits of this run. *)
Lemma edges_bytes_frame (k : nat) (ptr : gbp_rx_tx_byte_buffer_t)
    (bits : list bool) :
  initialized ptr = true -> syncronised ptr = true ->
  byte_frame_bit_pos ptr = Z.of_nat k -> (k <= 7)%nat ->
  0 <= rx_byte_buffer ptr < 256 ->
  rx_byte_buffer ptr mod 2 ^ (Z.of_nat k + 1) = 0 ->
  length bits = S k ->
  edges_bytes ptr bits = replicate k None ++ [Some (rx_byte_buffer ptr + bits_value bits)] /\
  initialized (edges_in ptr bits) = true /\ syncronised (edges_in ptr bits) = true /\
  byte_frame_bit_pos (edges_in ptr bits) = 7 /\
  rx_byte_buffer (edges_in ptr bits) = 0.
Proof.
  revert ptr bits. induction k as [|k IH]; intros ptr bits Hi Hs Hp Hk Hr Hm Hl.
  - destruct bits as [|b [|? ?]]; try discriminate.
    pose proof (edge_period_rx ptr b Hi Hs) as P. cbn zeta in P.
    rewrite Hp in P. cbn [Z.of_nat] in P.
    change (0 >? 0) with false in P. cbn iota in P.
    destruct P as (Hi' & Hs' & Hq & Hb & Ho).
    cbn [edges_bytes edges_in replicate app]. rewrite Ho.
    repeat split; try assumption. do 2 f_equal.
    rewrite bits_value_cons. cbn [length Z.of_nat]. change (2 ^ 0) with 1.
    change (bits_value []) with 0.
    destruct b; cbn [Z.b2z]; [|lia].
    rewrite set_clear_bit by (cbn; lia). change (2 ^ 0) with 1.
    unfold u8. rewrite Z.mod_small; [lia|].
    cbn [Z.of_nat] in Hm. change (2 ^ (0 + 1)) with 2 in Hm.
    assert (rx_byte_buffer ptr <> 255) by (intros E; rewrite E in Hm; discriminate). lia.
  - destruct bits as [|b bits]; [discriminate|]. injection Hl as Hl.
    pose proof (edge_period_rx ptr b Hi Hs) as P. cbn zeta in P.
    rewrite Hp in P.
    destruct (Z.gtb_spec (Z.of_nat (S k)) 0) as [_|]; [|lia].
    destruct P as (Hi' & Hs' & Hq & Hb & Ho).
    assert (Hu : u8 (Z.of_nat (S k) - 1) = Z.of_nat k)
      by (unfold u8; rewrite Z.mod_small; lia).
    rewrite Hu in Hq.
    set (w := 2 ^ Z.of_nat (S k)) in *.
    assert (Hw : 0 < w) by (apply Z.pow_pos_nonneg; lia).
    assert (Hw2 : 2 ^ (Z.of_nat (S k) + 1) = 2 * w)
      by (subst w; rewrite Z.pow_add_r by lia; change (2 ^ 1) with 2; lia).
    assert (Hwk : w = 2 ^ (Z.of_nat k + 1)) by (subst w; f_equal; lia).
    assert (Hdiv : exists q, rx_byte_buffer ptr = q * (2 * w)).
    { exists (rx_byte_buffer ptr / (2 * w)).
      rewrite Hw2 in Hm. pose proof (Z.div_mod (rx_byte_buffer ptr) (2 * w)). lia. }
    destruct Hdiv as (q & Hq2).
    assert (H256 : exists m, 256 = m * (2 * w) /\ 0 < m).
    { assert (Hcases : (S k = 1 \/ S k = 2 \/ S k = 3 \/ S k = 4 \/ S k = 5 \/ S k = 6
                        \/ S k = 7)%nat) by lia.
      subst w. destruct Hcases as [E|[E|[E|[E|[E|[E|E]]]]]]; rewrite E; cbn.
      - exists 64; lia.
      - exists 32; lia.
      - exists 16; lia.
      - exists 8; lia.
      - exists 4; lia.
      - exists 2; lia.
      - exists 1; lia. }
    destruct H256 as (m & Hm256 & Hmpos).
    assert (Hroom : rx_byte_buffer ptr + 2 * w <= 256).
    { assert (q < m) by nia.
      assert ((q + 1) * (2 * w) <= m * (2 * w)) by (apply Z.mul_le_mono_nonneg_r; lia).
      lia. }
    assert (Hrx : rx_byte_buffer (edge_period ptr b).1.1 = rx_byte_buffer ptr + Z.b2z b * w).
    { rewrite Hb. destruct b; cbn [Z.b2z]; [|lia].
      rewrite set_clear_bit by (try rewrite Hm; lia). fold w.
      unfold u8. rewrite Z.mod_small by lia. lia. }
    destruct (IH (edge_period ptr b).1.1 bits Hi' Hs' Hq ltac:(lia)) as (E & R).
    + rewrite Hrx. destruct b; cbn [Z.b2z]; lia.
    + rewrite Hrx, <- Hwk, Hq2. destruct b; cbn [Z.b2z].
      * replace (q * (2 * w) + 1 * w) with ((2 * q + 1) * w) by lia. apply Z.mod_mul. lia.
      * replace (q * (2 * w) + 0 * w) with ((2 * q) * w) by lia. apply Z.mod_mul. lia.
    + exact Hl.
    + cbn [edges_bytes edges_in replicate]. rewrite Ho, E, Hrx.
      split; [|exact R]. cbn [app]. rewrite (bits_value_cons b bits), Hl.
      replace (rx_byte_buffer ptr + (Z.b2z b * 2 ^ Z.of_nat (S k) + bits_value bits))
        with (rx_byte_buffer ptr + Z.b2z b * w + bits_value bits) by (subst w; lia).
      reflexivity.
Qed.

(** X4.  Reception round trip: a synchronised streamer at the start of a
    byte frame with an empty receive buffer, clocked with the eight bits
    of a byte, most significant first, delivers nothing on the first seven
    rising edges and exactly that byte on the eighth, and is then at the
    start of the next frame with the receive buffer empty again. *)
Theorem byte_frame_received `{gbp_protocol} (ptr : gbp_rx_tx_byte_buffer_t) (B : Z) :
  initialized ptr = true -> syncronised ptr = true ->
  byte_frame_bit_pos ptr = 7 -> rx_byte_buffer ptr = 0 ->
  0 <= B < 256 ->
  clock_bytes ptr (msb_first 8 B) = Returned (replicate 7 None ++ [Some B]) /\
  exists q,
    clock_in ptr (msb_first 8 B) = Returned q /\
    byte_frame_bit_pos q = 7 /\
    rx_byte_buffer q = 0 /\
    syncronised q = true.
Proof.
  intros Hi Hs Hp Hr HB.
  destruct (edges_bytes_frame 7 ptr (msb_first 8 B) Hi Hs Hp ltac:(lia))
    as (E & _ & S' & P' & R'); [rewrite Hr; lia | rewrite Hr; reflexivity | reflexivity |].
  rewrite clock_bytes_returns, clock_in_returns by exact Hi.
  rewrite E, Hr, bits_value_msb_first. change (2 ^ Z.of_nat 8) with 256.
  rewrite Z.mod_small by lia. split; [reflexivity|]. eauto.
Qed.

Lemma byte_frame_received_witness :
  @clock_bytes dmg dmg_synced (msb_first 8 0xA5) = Returned (replicate 7 None ++ [Some 0xA5]).
Proof.
  exact (proj1 (@byte_frame_received dmg dmg_synced 0xA5 eq_refl eq_refl eq_refl eq_refl
                  ltac:(lia))).
Defined.

(** ** Scanning for the preamble *)

Lemma edge_period_scan_rx (ptr : gbp_rx_tx_byte_buffer_t) (b : bool) :
  initialized ptr = true -> syncronised ptr = false ->
  rx_byte_buffer (edge_period ptr b).1.1 = rx_byte_buffer ptr /\
  (edge_period ptr b).2 = None.
Proof.
  destruct ptr as [ini prev syn word buf pos rxb stg txb]. cbn. intros -> ->.
  unfold edge_period, clock_edge, sync_scan, bit_tx.
  destruct prev, b; cbn; repeat (split_test; cbn); split; reflexivity.
Qed.

(** While the preamble is scanned for, no byte is delivered and the
    receive buffer is not touched. *)
Lemma edges_bytes_scan (bits : list bool) (ptr : gbp_rx_tx_byte_buffer_t) :
  initialized ptr = true ->
  syncronised (edges_in ptr bits) = false ->
  edges_bytes ptr bits = replicate (length bits) None /\
  rx_byte_buffer (edges_in ptr bits) = rx_byte_buffer ptr.
Proof.
  revert ptr. induction bits as [|b bits IH]; intros ptr Hi Hs; [cbn; auto|].
  cbn [edges_in edges_bytes length replicate] in *.
  destruct (syncronised ptr) eqn:Hp.
  - pose proof (edges_in_synced (b :: bits) ptr Hi Hp) as E.
    cbn [edges_in] in E. congruence.
  - destruct (edge_period_scan ptr b Hi Hp) as (Hi' & _).
    destruct (edge_period_scan_rx ptr b Hi Hp) as (Hr & Ho).
    destruct (IH _ Hi' Hs) as (E & R). rewrite Ho, E, R, Hr. auto.
Qed.

(** X5.  The first byte after the preamble.  A scanning streamer with an
    empty receive buffer is given any bits and then the sixteen bits of the
    sync word, and the word is not completed before its last bit, that is
    at no earlier bit are the sixteen most recent bits the sync word.  Then
    nothing is delivered while these bits go by, nothing during the first
    seven bits after them, and with the eighth bit the byte those eight
    bits spell. *)
Theorem first_byte_after_sync `{gbp_protocol}
    (ptr : gbp_rx_tx_byte_buffer_t) (garbage : list bool) (B : Z) :
  initialized ptr = true -> syncronised ptr = false -> rx_byte_buffer ptr = 0 ->
  0 <= sync_word ptr < 65536 -> 0 <= sync_buffer ptr < 65536 -> 0 <= B < 256 ->
  (forall k, (0 < k < length garbage + 16)%nat ->
     ~ sync_word_ends (sync_word ptr) (sync_buffer ptr)
         (garbage ++ msb_first 16 (sync_word ptr)) k) ->
  clock_bytes ptr (garbage ++ msb_first 16 (sync_word ptr) ++ msb_first 8 B)
  = Returned (replicate (length garbage + 16 + 7) None ++ [Some B]).
Proof.
  intros Hi Hu Hr Hw Hbf HB Hfirst.
  rewrite clock_bytes_returns by exact Hi. f_equal.
  set (word := msb_first 16 (sync_word ptr)) in *.
  set (last := Z.testbit (sync_word ptr) 0).
  assert (Hsplit : word = take 15 word ++ [last]) by reflexivity.
  assert (Hlen : length (garbage ++ take 15 word) = (length garbage + 15)%nat).
  { rewrite length_app, length_take. unfold word. rewrite length_msb_first. lia. }
  assert (Hb : syncronised (edges_in ptr (garbage ++ take 15 word)) = false).
  { apply edges_in_no_match; [exact Hi | exact Hu |]. intros k Hk. rewrite Hlen in Hk.
    assert (Ht : take k (garbage ++ take 15 word) = take k (garbage ++ word)).
    { rewrite Hsplit at 2. rewrite app_assoc. symmetry. apply take_app_le. lia. }
    rewrite Ht, sync_word_ends_window; [apply Hfirst; lia | exact Hw | exact Hbf |].
    rewrite length_app. unfold word. rewrite length_msb_first. lia. }
  set (before := edges_in ptr (garbage ++ take 15 word)) in *.
  destruct (edges_in_scan _ ptr Hi Hb) as (Hi' & Hw' & Hbuf).
  destruct (edges_bytes_scan _ ptr Hi Hb) as (Eb & Rb).
  fold before in Hi', Hw', Hbuf, Rb.
  destruct (edge_period_scan before last Hi' Hb) as (Hi2 & _ & _ & Hsyn & Hpos).
  destruct (edge_period_scan_rx before last Hi' Hb) as (Hr2 & Ho2).
  assert (E : shift_in (sync_buffer before) last = sync_word ptr).
  { rewrite Hbuf, <- shift_in_snoc, <- app_assoc, <- Hsplit, fold_left_app.
    apply shift_in_word, Hw. }
  rewrite E, Hw', Z.eqb_refl in Hsyn. specialize (Hpos Hsyn).
  set (synced := (edge_period before last).1.1) in *.
  assert (Hin : edges_in ptr (garbage ++ word) = synced).
  { rewrite Hsplit, app_assoc, edges_in_app. reflexivity. }
  assert (Hby : edges_bytes ptr (garbage ++ word) = replicate (length garbage + 16) None).
  { rewrite Hsplit, app_assoc, edges_bytes_app, Eb. fold before.
    cbn [edges_bytes]. rewrite Ho2.
    change [None] with (replicate 1 (@None Z)). rewrite <- replicate_add.
    f_equal. rewrite Hlen. lia. }
  rewrite app_assoc, edges_bytes_app, Hby, Hin.
  destruct (edges_bytes_frame 7 synced (msb_first 8 B) Hi2 Hsyn Hpos ltac:(lia))
    as (Ef & _); [rewrite Hr2, Rb, Hr; lia | rewrite Hr2, Rb, Hr; reflexivity | reflexivity |].
  rewrite Ef, Hr2, Rb, Hr, bits_value_msb_first. change (2 ^ Z.of_nat 8) with 256.
  rewrite Z.mod_small by lia. rewrite app_assoc, <- replicate_add. reflexivity.
Qed.

Lemma first_byte_after_sync_witness :
  @clock_bytes dmg (gbp_rx_tx_byte_buffer dmg_printer)
    ([true; true; false] ++ msb_first 16 0x8833 ++ msb_first 8 0x0F)
  = Returned (replicate (3 + 16 + 7) None ++ [Some 0x0F]).
Proof.
  refine (@first_byte_after_sync dmg (gbp_rx_tx_byte_buffer dmg_printer)
            [true; true; false] 0x0F eq_refl eq_refl eq_refl
            ltac:(cbn; lia) ltac:(cbn; lia) ltac:(lia) _).
  intros k Hk. cbn [length Nat.add] in Hk.
  do 19 (destruct k as [|k]; [first [lia | vm_compute; discriminate]|]). lia.
Defined.

(** X6.  No false synchronisation: when a scanning streamer has become
    synchronised, then at some sampled bit the sixteen most recent bits,
    those left in the sync buffer from before included, were exactly the
    sync word, most significant bit first. *)
Theorem synchronised_only_by_sync_word `{gbp_protocol}
    (ptr q : gbp_rx_tx_byte_buffer_t) (bits : list bool) :
  initialized ptr = true -> syncronised ptr = false ->
  0 <= sync_buffer ptr < 65536 ->
  clock_in ptr bits = Returned q ->
  syncronised q = true ->
  exists p rest q',
    bits = p ++ rest /\ p <> [] /\
    clock_in ptr p = Returned q' /\
    syncronised q' = true /\
    drop (length p) (msb_first 16 (sync_buffer ptr) ++ p) = msb_first 16 (sync_word ptr).
Proof.
  intros Hi Hu Hb Hq. rewrite clock_in_returns in Hq by exact Hi. injection Hq as <-.
  assert (G : syncronised (edges_in ptr bits) = true ->
              exists p rest,
                bits = p ++ rest /\ p <> [] /\
                syncronised (edges_in ptr p) = true /\
                drop (length p) (msb_first 16 (sync_buffer ptr) ++ p)
                = msb_first 16 (sync_word ptr)).
  { induction bits as [|b bits IH] using rev_ind.
    - cbn [edges_in]. congruence.
    - intros Hs. destruct (syncronised (edges_in ptr bits)) eqn:Hbits.
      + destruct (IH eq_refl) as (p & rest & -> & Hp & Hsp & Hd).
        exists p, (rest ++ [b]). rewrite app_assoc. auto.
      + exists (bits ++ [b]), []. rewrite app_nil_r.
        split; [reflexivity|]. split; [destruct bits; discriminate|]. split; [exact Hs|].
        destruct (edges_in_scan _ ptr Hi Hbits) as (Hi' & Hw' & Hbuf).
        destruct (edge_period_scan _ b Hi' Hbits) as (_ & _ & _ & Hsyn & _).
        rewrite edges_in_app in Hs. cbn [edges_in] in Hs.
        rewrite Hs, Hbuf, Hw', <- shift_in_snoc in Hsyn.
        symmetry in Hsyn. apply Z.eqb_eq in Hsyn.
        pose proof (sync_buffer_window (sync_buffer ptr) (bits ++ [b]) Hb) as W.
        rewrite Hsyn in W.
        set (win := drop (length (bits ++ [b]))
                         (msb_first 16 (sync_buffer ptr) ++ bits ++ [b])) in *.
        assert (Hlen : length win = 16%nat).
        { subst win. rewrite length_drop, !length_app, length_msb_first. cbn [length]. lia. }
        assert (Hrange : 0 <= sync_word ptr < 65536).
        { rewrite <- Hsyn, shift_in_snoc. unfold shift_in. apply Z.mod_pos_bound. lia. }
        rewrite Z.mod_small in W by exact Hrange.
        rewrite W, <- Hlen. symmetry. apply msb_first_bits_value. }
  intros Hs. destruct (G Hs) as (p & rest & E & Hp & Hsp & Hd).
  exists p, rest, (edges_in ptr p). split; [exact E|]. split; [exact Hp|].
  split; [apply clock_in_returns, Hi|]. split; [exact Hsp | exact Hd].
Qed.

Lemma synchronised_only_by_sync_word_witness :
  exists p rest q',
    [true; false] ++ msb_first 16 0x8833 ++ [true] = p ++ rest /\ p <> [] /\
    @clock_in dmg (gbp_rx_tx_byte_buffer dmg_printer) p = Returned q' /\
    syncronised q' = true /\
    drop (length p) (msb_first 16 0 ++ p) = msb_first 16 0x8833.
Proof.
  exact (@synchronised_only_by_sync_word dmg (gbp_rx_tx_byte_buffer dmg_printer)
           (mk_rx_tx true true true 0x8833 0x8833 6 128 0 0)
           ([true; false] ++ msb_first 16 0x8833 ++ [true]) eq_refl eq_refl
           ltac:(cbn; lia) ltac:(vm_compute; reflexivity) eq_refl).
Defined.

(** * Further properties of the parser *)

(** X7.  What a call of the parser never touches: the streamer, the
    inactivity deadline and the [initialized] flag of the printer are left
    as they were, the two buffers keep their lengths, and
    [packet_ready_flag], once set, is not cleared by the parser. *)
Theorem parser_leaves_alone `{gbp_protocol}
    (s s' : gbp_printer_t) (rx tx : option Z) (millis : Z) :
  gbp_parse_message_update s rx millis = Returned (s', tx) ->
  gbp_rx_tx_byte_buffer s' = gbp_rx_tx_byte_buffer s /\
  uptime_til_timeout_ms s' = uptime_til_timeout_ms s /\
  printer_initialized s' = printer_initialized s /\
  length (gbp_print_buffer s') = length (gbp_print_buffer s) /\
  length (gbp_print_settings_buffer s') = length (gbp_print_settings_buffer s) /\
  (packet_ready_flag s = true -> packet_ready_flag s' = true).
Proof.
  open_printer s. destruct rx as [b|]; run_update.
  - destruct p_st; cbn; repeat (split_test; cbn);
      intros E; try discriminate; injection E as <- <-; cbn;
      rewrite ?length_insert; repeat split; auto.
  - rewrite (proj2 (parse_state_eqb_spec _ _) eq_refl). cbn.
    intros E; injection E as <- <-; cbn; repeat split; auto.
Qed.

Lemma parser_leaves_alone_witness :
  let s := dmg_fed [0x04; 0; 3; 0] in
  let s' := dmg_fed [0x04; 0; 3; 0; 0x11] in
  @gbp_parse_message_update dmg s (Some 0x11) 0 = Returned (s', None) /\
  gbp_rx_tx_byte_buffer s' = gbp_rx_tx_byte_buffer s /\
  length (gbp_print_buffer s') = length (gbp_print_buffer s).
Proof.
  intros s s'.
  assert (E : @gbp_parse_message_update dmg s (Some 0x11) 0 = Returned (s', None))
    by (vm_compute; reflexivity).
  split; [exact E|].
  destruct (@parser_leaves_alone dmg s s' (Some 0x11) None 0 E) as (A & _ & _ & B & _).
  split; [exact A | exact B].
Defined.

(** X8.  Each write of the parser belongs to one stage.  The buffers
    change only in a call made in VARIABLE_PAYLOAD; the status flags and
    the pretend-print deadline only in a call made in DEVICE_ID (the entry
    to PRINTER_STATUS); [packet_ready_flag] only in a call made in
    PRINTER_STATUS; and a byte is staged for transmission only by a call
    made in CHECKSUM_HIGH or DEVICE_ID. *)
Theorem parser_writes_by_stage `{gbp_protocol}
    (s s' : gbp_printer_t) (rx tx : option Z) (millis : Z) :
  gbp_parse_message_update s rx millis = Returned (s', tx) ->
  (st s <> GBP_PARSE_STATE_VARIABLE_PAYLOAD ->
     gbp_print_buffer s' = gbp_print_buffer s /\
     gbp_print_settings_buffer s' = gbp_print_settings_buffer s) /\
  (st s <> GBP_PARSE_STATE_DEVICE_ID ->
     gbp_printer_status s' = gbp_printer_status s /\
     uptime_til_pretend_print_finish_ms s' = uptime_til_pretend_print_finish_ms s) /\
  (st s <> GBP_PARSE_STATE_PRINTER_STATUS ->
     packet_ready_flag s' = packet_ready_flag s) /\
  (st s <> GBP_PARSE_STATE_CHECKSUM_HIGH -> st s <> GBP_PARSE_STATE_DEVICE_ID ->
     tx = None).
Proof.
  open_printer s. destruct rx as [b|]; run_update.
  - destruct p_st; cbn; repeat (split_test; cbn);
      intros E; try discriminate; injection E as <- <-; cbn;
      repeat split; intros; try reflexivity; congruence.
  - rewrite (proj2 (parse_state_eqb_spec _ _) eq_refl). cbn.
    intros E; injection E as <- <-; cbn; repeat split; intros; reflexivity.
Qed.

Lemma parser_writes_by_stage_witness :
  let s := dmg_after 3 in
  let s' := dmg_after 4 in
  @gbp_parse_message_update dmg s (Some 0) 0 = Returned (s', None) /\
  gbp_print_buffer s' = gbp_print_buffer s /\
  gbp_printer_status s' = gbp_printer_status s /\
  packet_ready_flag s' = packet_ready_flag s.
Proof.
  intros s s'.
  assert (E : @gbp_parse_message_update dmg s (Some 0) 0 = Returned (s', None))
    by (vm_compute; reflexivity).
  split; [exact E|].
  destruct (@parser_writes_by_stage dmg s s' (Some 0) None 0 E) as (A & B & C & _).
  split; [apply A; discriminate|]. split; [apply B; discriminate | apply C; discriminate].
Defined.

(** X9.  The calls that do not return.  A call without a new byte returns
    the printer unchanged.  A call hangs exactly when the high byte of the
    length arrives, the length is not zero and the command has no buffer.
    A store leaves its buffer only in VARIABLE_PAYLOAD, at the running
    index, and only if that index is outside of the selected buffer (or
    there is none). *)
Theorem parser_returns_except `{gbp_protocol}
    (s : gbp_printer_t) (b millis : Z) :
  gbp_parse_message_update s None millis = Returned (s, None) /\
  (forall h,
     gbp_parse_message_update s (Some b) millis = Hangs h <->
     st s = GBP_PARSE_STATE_PACKET_DATA_LENGTH_HIGH /\
     data_ptr (gbp_packet s) = None /\
     0 < length_with_high s b /\
     h = upd_packet (set_data_length (length_with_high s b)) s) /\
  (forall t i,
     gbp_parse_message_update s (Some b) millis = OutOfBounds t i ->
     st s = GBP_PARSE_STATE_VARIABLE_PAYLOAD /\
     t = data_ptr (gbp_packet s) /\
     i = data_index (gbp_packet_parser s) /\
     forall buf, t = Some buf -> ~ 0 <= i < capacity buf).
Proof.
  split; [|split].
  - unfold gbp_parse_message_update. cbn [bind].
    rewrite (proj2 (parse_state_eqb_spec _ _) eq_refl). reflexivity.
  - intros h. split.
    + open_printer s. unfold length_with_high. run_update.
      destruct p_st; cbn; repeat (split_test; cbn); intros E; try discriminate.
      injection E as <-.
      match goal with G : (_ >? 0) = true |- _ => apply Z.gtb_lt in G end.
      repeat split; auto.
    + intros (Hs & Hp & Hl & ->). apply update_length_high_hangs; assumption.
  - intros t i. open_printer s. run_update.
    destruct p_st; cbn; repeat (split_test; cbn); intros E; try discriminate;
      injection E as <- <-; repeat split; try reflexivity.
    all: intros buf Hb; try discriminate; injection Hb as <-.
    all: repeat match goal with
           | G : (_ <=? _) = false |- _ => apply Z.leb_gt in G
           | G : (_ <? _) = false |- _ => apply Z.ltb_ge in G
           | G : (_ && _) = false |- _ => apply andb_false_iff in G; destruct G
           end; cbn [capacity] in *; lia.
Qed.

(** ** Checksums of whole packets *)

Lemma u16_add_l (a b : Z) : u16 (u16 a + b) = u16 (a + b).
Proof. unfold u16. apply Z.add_mod_idemp_l. lia. Qed.

Lemma bytes_of_word (x : Z) :
  0 <= x < 65536 -> 0 <= x mod 256 < 256 /\ 0 <= x / 256 < 256 /\ x mod 256 + 256 * (x / 256) = x.
Proof.
  intros Hx. pose proof (Z.mod_pos_bound x 256 ltac:(lia)).
  pose proof (Z.div_mod x 256 ltac:(lia)).
  assert (0 <= x / 256) by (apply Z.div_pos; lia).
  assert (x / 256 < 256) by (apply Z.div_lt_upper_bound; lia). lia.
Qed.

(** The end of every packet, from CHECKSUM_LOW on: the two bytes of the
    checksum field, then the bytes of the device-id and status slots. *)
Lemma packet_tail `{gbp_protocol} (s : gbp_printer_t) (cl ch d t millis : Z) :
  st s = GBP_PARSE_STATE_CHECKSUM_LOW ->
  0 <= cl < 256 -> 0 <= ch < 256 ->
  exists s',
    feed s millis [cl; ch; d; t] = Returned s' /\
    st s' = GBP_PARSE_STATE_PACKET_RECEIVED /\
    packet_ready_flag s' = true /\
    checksum_error (gbp_printer_status s')
    = negb (calculated_checksum (gbp_packet_parser s) =? cl + 256 * ch) /\
    gbp_print_buffer s' = gbp_print_buffer s /\
    gbp_print_settings_buffer s' = gbp_print_settings_buffer s /\
    command (gbp_packet s') = command (gbp_packet s) /\
    acknowledgement (gbp_packet s') = u8 GBP_DEVICE_ID /\
    printer_status (gbp_packet s') = u8 (gbp_status_byte (gbp_printer_status s')).
Proof.
  intros Hs Hcl Hch.
  step update_checksum_low; [|exact Hs].
  step update_checksum_high.
  step update_device_id.
  step update_printer_status.
  cbn [feed]. eexists. split; [reflexivity|].
  split; [fields; reflexivity|]. split; [fields; reflexivity|].
  split.
  { fields. rewrite status_entered_checksum_error. fields.
    rewrite word_of_bytes by assumption. reflexivity. }
  split; [fields; reflexivity|]. split; [fields; reflexivity|].
  split; [fields; reflexivity|]. split; fields; reflexivity.
Qed.

(** X10.  A packet without payload, whatever its command: the checksum
    field is compared with the sum of command and compression bytes modulo
    65536, [checksum_error] tells whether they differ, the packet completes
    either way and no buffer is written. *)
Theorem empty_packet_checked `{gbp_protocol}
    (s : gbp_printer_t) (cmd comp cl ch d t millis : Z) :
  st s = GBP_PARSE_STATE_COMMAND ->
  0 <= cl < 256 -> 0 <= ch < 256 ->
  exists s',
    feed s millis [cmd; comp; 0; 0; cl; ch; d; t] = Returned s' /\
    st s' = GBP_PARSE_STATE_PACKET_RECEIVED /\
    packet_ready_flag s' = true /\
    checksum_error (gbp_printer_status s') = negb ((cmd + comp) mod 65536 =? cl + 256 * ch) /\
    gbp_print_buffer s' = gbp_print_buffer s /\
    gbp_print_settings_buffer s' = gbp_print_settings_buffer s.
Proof.
  intros Hs Hcl Hch.
  assert (E4 : exists s4, feed s millis [cmd; comp; 0; 0] = Returned s4 /\
                 st s4 = GBP_PARSE_STATE_CHECKSUM_LOW /\
                 calculated_checksum (gbp_packet_parser s4) = (cmd + comp) mod 65536 /\
                 gbp_print_buffer s4 = gbp_print_buffer s /\
                 gbp_print_settings_buffer s4 = gbp_print_settings_buffer s).
  { step update_command; [|exact Hs].
    step update_compression.
    step update_length_low.
    step update_length_high_zero.
    cbn [feed]. eexists. split; [reflexivity|]. split; [fields; reflexivity|].
    split; [|split; fields; reflexivity].
    fields. rewrite !Z.add_0_r, Z.add_0_l. unfold u16.
    rewrite !Z.mod_mod by lia. apply Z.add_mod_idemp_l. lia. }
  destruct E4 as (s4 & F4 & S4 & C4 & B4 & G4).
  destruct (packet_tail s4 cl ch d t millis S4 Hcl Hch)
    as (s' & F & S' & R' & X' & B' & G' & _).
  exists s'. change [cmd; comp; 0; 0; cl; ch; d; t] with ([cmd; comp; 0; 0] ++ [cl; ch; d; t]).
  rewrite feed_app, F4. cbn [bind].
  rewrite X', C4, B', G', B4, G4. auto 10.
Qed.

Lemma empty_packet_checked_witness :
  exists s',
    @feed dmg dmg_printer 0 [0x0F; 0; 0; 0; 0x0F; 0; 0; 0] = Returned s' /\
    st s' = GBP_PARSE_STATE_PACKET_RECEIVED /\
    packet_ready_flag s' = true /\
    checksum_error (gbp_printer_status s') = negb ((0x0F + 0) mod 65536 =? 0x0F + 256 * 0) /\
    gbp_print_buffer s' = gbp_print_buffer dmg_printer /\
    gbp_print_settings_buffer s' = gbp_print_settings_buffer dmg_printer.
Proof.
  exact (@empty_packet_checked dmg dmg_printer 0x0F 0 0x0F 0 0 0 0 eq_refl
           ltac:(lia) ltac:(lia)).
Defined.

(** ** Payloads *)

Lemma sum_bytes_snoc (bytes : list Z) (b : Z) : sum_bytes (bytes ++ [b]) = sum_bytes bytes + b.
Proof.
  unfold sum_bytes. induction bytes as [|x bytes IH]; cbn [app fold_right]; [lia|].
  rewrite IH. lia.
Qed.

(** Storing right behind a prefix that was already stored. *)
Lemma insert_after_prefix (old pre : list Z) (b : Z) :
  (length pre < length old)%nat ->
  <[length pre := b]> (pre ++ drop (length pre) old)
  = (pre ++ [b]) ++ drop (S (length pre)) old.
Proof.
  intros Hl. rewrite insert_app_r_alt by lia. rewrite Nat.sub_diag, <- app_assoc.
  f_equal. destruct (drop (length pre) old) as [|y rest] eqn:E.
  - apply (f_equal length) in E. rewrite length_drop in E. cbn in E. lia.
  - cbn. f_equal.
    replace (S (length pre)) with (length pre + 1)%nat by lia.
    rewrite <- drop_drop, E. reflexivity.
Qed.

Lemma buffer_of_other (buf other : buffer_t) (i v : Z) (s : gbp_printer_t) :
  other <> buf -> buffer_of other (store buf i v s) = buffer_of other s.
Proof. destruct buf, other, s; intros N; try reflexivity; congruence. Qed.

(** The payload stage while it lasts, from index 0: the bytes received so
    far are a prefix of the selected buffer and are in the running sum. *)
Lemma payload_prefix `{gbp_protocol} (s : gbp_printer_t) (buf : buffer_t) (millis : Z) :
  st s = GBP_PARSE_STATE_VARIABLE_PAYLOAD ->
  data_ptr (gbp_packet s) = Some buf ->
  data_index (gbp_packet_parser s) = 0 ->
  data_length (gbp_packet s) < capacity buf ->
  length (buffer_of buf s) = Z.to_nat (capacity buf) ->
  forall bytes : list Z,
    Z.of_nat (length bytes) <= data_length (gbp_packet s) ->
    exists s',
      feed s millis bytes = Returned s' /\
      st s' = GBP_PARSE_STATE_VARIABLE_PAYLOAD /\
      data_ptr (gbp_packet s') = Some buf /\
      data_length (gbp_packet s') = data_length (gbp_packet s) /\
      data_index (gbp_packet_parser s') = Z.of_nat (length bytes) /\
      buffer_of buf s' = bytes ++ drop (length bytes) (buffer_of buf s) /\
      (forall other, other <> buf -> buffer_of other s' = buffer_of other s) /\
      u16 (calculated_checksum (gbp_packet_parser s'))
      = u16 (calculated_checksum (gbp_packet_parser s) + sum_bytes bytes) /\
      gbp_printer_status s' = gbp_printer_status s.
Proof.
  intros Hs Hp Hi Hl Hlen. pose proof (capacity_bound buf) as Hcap.
  induction bytes as [|b bytes IH] using rev_ind; intros Hn.
  - exists s. cbn [feed length app drop]. rewrite Hi.
    change (sum_bytes []) with 0. rewrite Z.add_0_r.
    repeat split; try assumption; reflexivity.
  - rewrite length_app in Hn. cbn [length] in Hn.
    destruct IH as (sk & F & S' & P' & L' & I' & B' & O' & C' & T'); [lia|].
    assert (Hu : u16 (data_index (gbp_packet_parser sk) + 1)
                 = data_index (gbp_packet_parser sk) + 1)
      by (unfold u16; apply Z.mod_small; lia).
    rewrite feed_app, F. cbn [bind feed].
    rewrite (update_payload_more sk b millis buf) by (try assumption; lia).
    cbn [bind]. exists (payload_stored sk buf b).
    split; [reflexivity|]. split; [fields; exact S'|]. split; [fields; exact P'|].
    split; [fields; exact L'|].
    split; [fields; rewrite Hu, I', length_app; cbn [length]; lia|].
    split.
    { unfold payload_stored. autorewrite with printer. rewrite B', I', Nat2Z.id.
      rewrite insert_after_prefix by lia.
      rewrite length_app. cbn [length]. do 2 f_equal. lia. }
    split.
    { intros other Ho. unfold payload_stored.
      rewrite buffer_of_upd_parser, buffer_of_tally, buffer_of_other by exact Ho.
      apply O', Ho. }
    split.
    { fields. rewrite sum_bytes_snoc, Z.add_assoc.
      rewrite <- (u16_add_l (calculated_checksum (gbp_packet_parser s) + sum_bytes bytes)).
      rewrite <- C', u16_add_l. unfold u16. apply Z.mod_mod. lia. }
    fields. exact T'.
Qed.

(** The payload stage as a whole, from its entry to CHECKSUM_LOW. *)
Lemma payload_stage_stores `{gbp_protocol}
    (s : gbp_printer_t) (buf : buffer_t) (payload : list Z) (millis : Z) :
  st s = GBP_PARSE_STATE_VARIABLE_PAYLOAD ->
  data_ptr (gbp_packet s) = Some buf ->
  data_index (gbp_packet_parser s) = 0 ->
  0 <= data_length (gbp_packet s) < capacity buf ->
  length (buffer_of buf s) = Z.to_nat (capacity buf) ->
  Z.of_nat (length payload) = data_length (gbp_packet s) + 1 ->
  exists s',
    feed s millis payload = Returned s' /\
    st s' = GBP_PARSE_STATE_CHECKSUM_LOW /\
    buffer_of buf s' = payload ++ drop (length payload) (buffer_of buf s) /\
    (forall other, other <> buf -> buffer_of other s' = buffer_of other s) /\
    calculated_checksum (gbp_packet_parser s')
    = u16 (calculated_checksum (gbp_packet_parser s) + sum_bytes payload) /\
    gbp_printer_status s' = gbp_printer_status s.
Proof.
  intros Hs Hp Hi Hl Hlen Hn. pose proof (capacity_bound buf) as Hcap.
  destruct payload as [|b0 rest] using rev_ind; [cbn in Hn; lia|]. clear IHrest.
  rename b0 into last, rest into bytes.
  rewrite length_app in Hn. cbn [length] in Hn.
  destruct (payload_prefix s buf millis Hs Hp Hi ltac:(lia) Hlen bytes ltac:(lia))
    as (sk & F & S' & P' & L' & I' & B' & O' & C' & T').
  assert (Hu : u16 (data_index (gbp_packet_parser sk) + 1)
               = data_index (gbp_packet_parser sk) + 1)
    by (unfold u16; apply Z.mod_small; lia).
  rewrite feed_app, F. cbn [bind feed].
  rewrite (update_payload_last sk last millis buf) by (try assumption; lia).
  cbn [bind]. eexists. split; [reflexivity|]. split; [fields; reflexivity|].
  split.
  { unfold payload_stored. autorewrite with printer. rewrite B', I', Nat2Z.id.
    rewrite insert_after_prefix by lia.
    rewrite length_app. cbn [length]. do 2 f_equal. lia. }
  split.
  { intros other Ho. unfold payload_stored.
    rewrite !buffer_of_upd_parser, buffer_of_tally, buffer_of_other by exact Ho.
    apply O', Ho. }
  split.
  { fields. rewrite sum_bytes_snoc, Z.add_assoc.
    rewrite <- (u16_add_l (calculated_checksum (gbp_packet_parser s) + sum_bytes bytes)).
    rewrite <- C', u16_add_l. reflexivity. }
  fields. exact T'.
Qed.

(** X11.  The payload is stored verbatim.  From the entry of
    VARIABLE_PAYLOAD, with a data length [L] below the capacity of the
    selected buffer, the [L + 1] bytes the stage consumes are the first
    [L + 1] bytes of that buffer afterwards, in the order received; the rest
    of the buffer and the other buffer are as before, every byte is in the
    running sum, and the status flags are untouched. *)
Theorem payload_stored_verbatim `{gbp_protocol}
    (s : gbp_printer_t) (buf : buffer_t) (payload : list Z) (millis : Z) :
  st s = GBP_PARSE_STATE_VARIABLE_PAYLOAD ->
  data_ptr (gbp_packet s) = Some buf ->
  data_index (gbp_packet_parser s) = 0 ->
  0 <= data_length (gbp_packet s) < capacity buf ->
  length (buffer_of buf s) = Z.to_nat (capacity buf) ->
  Z.of_nat (length payload) = data_length (gbp_packet s) + 1 ->
  exists s',
    feed s millis payload = Returned s' /\
    st s' = GBP_PARSE_STATE_CHECKSUM_LOW /\
    buffer_of buf s' = payload ++ drop (length payload) (buffer_of buf s) /\
    (forall other, other <> buf -> buffer_of other s' = buffer_of other s) /\
    calculated_checksum (gbp_packet_parser s')
    = u16 (calculated_checksum (gbp_packet_parser s) + sum_bytes payload) /\
    gbp_printer_status s' = gbp_printer_status s.
Proof. apply payload_stage_stores. Qed.

Lemma payload_stored_verbatim_witness :
  let s := dmg_fed [0x04; 0; 3; 0] in
  exists s',
    @feed dmg s 0 [0x11; 0x22; 0x33; 0x44] = Returned s' /\
    st s' = GBP_PARSE_STATE_CHECKSUM_LOW /\
    buffer_of print_buffer s'
    = [0x11; 0x22; 0x33; 0x44] ++ drop 4 (buffer_of print_buffer s) /\
    (forall other, other <> print_buffer -> buffer_of other s' = buffer_of other s) /\
    calculated_checksum (gbp_packet_parser s')
    = u16 (calculated_checksum (gbp_packet_parser s) + sum_bytes [0x11; 0x22; 0x33; 0x44]) /\
    gbp_printer_status s' = gbp_printer_status s.
Proof.
  intros s.
  exact (@payload_stored_verbatim dmg s print_buffer [0x11; 0x22; 0x33; 0x44] 0
           eq_refl eq_refl eq_refl ltac:(vm_compute; split; [discriminate | reflexivity])
           eq_refl eq_refl).
Defined.

(** The header of a packet that carries a payload. *)
Lemma header_with_payload `{gbp_protocol}
    (s : gbp_printer_t) (buf : buffer_t) (cmd comp lo hi millis : Z) :
  st s = GBP_PARSE_STATE_COMMAND ->
  select_data_ptr cmd = Some buf ->
  0 <= lo < 256 -> 0 <= hi < 256 -> 0 < lo + 256 * hi ->
  exists s4,
    feed s millis [cmd; comp; lo; hi] = Returned s4 /\
    st s4 = GBP_PARSE_STATE_VARIABLE_PAYLOAD /\
    data_ptr (gbp_packet s4) = Some buf /\
    data_index (gbp_packet_parser s4) = 0 /\
    data_length (gbp_packet s4) = lo + 256 * hi /\
    calculated_checksum (gbp_packet_parser s4) = u16 (cmd + comp + lo + hi) /\
    command (gbp_packet s4) = cmd /\
    (forall b, buffer_of b s4 = buffer_of b s) /\
    gbp_printer_status s4 = gbp_printer_status s.
Proof.
  intros Hs Hp Hlo Hhi Hl.
  step update_command; [|exact Hs].
  step update_compression.
  step update_length_low.
  step (update_length_high_payload _ _ _ buf).
  - cbn [feed]. eexists. split; [reflexivity|]. split; [fields; reflexivity|].
    split; [fields; exact Hp|]. split; [fields; reflexivity|].
    split; [fields; apply word_of_bytes; assumption|].
    split.
    { fields. rewrite (u16_add_l (0 + cmd) comp), (u16_add_l (0 + cmd + comp) lo),
        (u16_add_l (0 + cmd + comp + lo) hi). reflexivity. }
    split; [fields; reflexivity|].
    split; [intros b; destruct b; cbn [buffer_of]; fields; reflexivity|].
    fields. reflexivity.
  - fields. rewrite word_of_bytes by assumption. exact Hl.
  - fields. exact Hp.
Qed.

(** X12.  A whole packet with payload, framed the way the parser reads
    it: command, compression, the length [L] low byte first, [L + 1]
    payload bytes, the checksum field low byte first, and the two slot
    bytes.  For [0 < L] below the capacity of the buffer of the command the
    packet completes, the payload is at the start of that buffer, and
    [checksum_error] tells whether the checksum field differs from the sum
    of all header and payload bytes modulo 65536. *)
Theorem framed_packet_checked `{gbp_protocol}
    (s : gbp_printer_t) (buf : buffer_t) (payload : list Z)
    (cmd comp L cl ch d t millis : Z) :
  st s = GBP_PARSE_STATE_COMMAND ->
  select_data_ptr cmd = Some buf ->
  0 < L < capacity buf ->
  Z.of_nat (length payload) = L + 1 ->
  length (buffer_of buf s) = Z.to_nat (capacity buf) ->
  0 <= cl < 256 -> 0 <= ch < 256 ->
  exists s',
    feed s millis ([cmd; comp; L mod 256; L / 256] ++ payload ++ [cl; ch; d; t])
    = Returned s' /\
    st s' = GBP_PARSE_STATE_PACKET_RECEIVED /\
    packet_ready_flag s' = true /\
    buffer_of buf s' = payload ++ drop (length payload) (buffer_of buf s) /\
    checksum_error (gbp_printer_status s')
    = negb ((cmd + comp + L mod 256 + L / 256 + sum_bytes payload) mod 65536
            =? cl + 256 * ch).
Proof.
  intros Hs Hp HL Hn Hlen Hcl Hch. pose proof (capacity_bound buf) as Hcap.
  destruct (bytes_of_word L ltac:(lia)) as (Hlo & Hhi & HLw).
  destruct (header_with_payload s buf cmd comp (L mod 256) (L / 256) millis Hs Hp Hlo Hhi)
    as (s4 & F4 & S4 & P4 & I4 & L4 & C4 & _ & B4 & _); [lia|].
  rewrite HLw in L4.
  destruct (payload_stage_stores s4 buf payload millis S4 P4 I4)
    as (s5 & F5 & S5 & B5 & _ & C5 & _);
    [rewrite L4; lia | rewrite B4; exact Hlen | rewrite L4; exact Hn |].
  destruct (packet_tail s5 cl ch d t millis S5 Hcl Hch)
    as (s' & F & S' & R' & X' & Bi & Bs & _).
  exists s'. rewrite feed_app, F4. cbn [bind]. rewrite feed_app, F5. cbn [bind].
  split; [exact F|]. split; [exact S'|]. split; [exact R'|].
  split.
  - rewrite <- B4, <- B5. destruct buf; cbn [buffer_of]; assumption.
  - rewrite X', C5, C4, u16_add_l. reflexivity.
Qed.

Lemma framed_packet_checked_witness :
  exists s',
    @feed dmg dmg_printer 0
      ([0x04; 0; 3 mod 256; 3 / 256] ++ [0x11; 0x22; 0x33; 0x44] ++ [0xB1; 0x00; 0; 0])
    = Returned s' /\
    st s' = GBP_PARSE_STATE_PACKET_RECEIVED /\
    packet_ready_flag s' = true /\
    buffer_of print_buffer s'
    = [0x11; 0x22; 0x33; 0x44] ++ drop 4 (buffer_of print_buffer dmg_printer) /\
    checksum_error (gbp_printer_status s') = false.
Proof.
  exact (@framed_packet_checked dmg dmg_printer print_buffer [0x11; 0x22; 0x33; 0x44]
           0x04 0 3 0xB1 0x00 0 0 0 eq_refl eq_refl ltac:(cbn; lia) eq_refl eq_refl
           ltac:(lia) ltac:(lia)).
Defined.

(** ** Status flags *)

(** X13.  What completing a DATA or a PRINT packet does to the status, on
    entry to PRINTER_STATUS (the byte received in the device-id slot is
    ignored).  DATA sets [unprocessed_data] and leaves the rest.  PRINT
    clears [unprocessed_data], sets [print_buffer_full] and
    [printer_busy], and arms the pretend-print deadline 2000 ms ahead in
    32-bit arithmetic: within the last 2000 ms before the millisecond
    counter wraps, the deadline lies before the current time.  The status
    byte staged and recorded is computed from the flags so updated. *)
Theorem data_and_print_set_status `{gbp_protocol} (s : gbp_printer_t) (b millis : Z) :
  st s = GBP_PARSE_STATE_DEVICE_ID ->
  GBP_COMMAND_DATA <> GBP_COMMAND_INIT ->
  GBP_COMMAND_PRINT <> GBP_COMMAND_INIT ->
  GBP_COMMAND_PRINT <> GBP_COMMAND_DATA ->
  exists s',
    gbp_parse_message_update s (Some b) millis
    = Returned (s', Some (u8 (gbp_status_byte (gbp_printer_status s')))) /\
    printer_status (gbp_packet s') = u8 (gbp_status_byte (gbp_printer_status s')) /\
    (command (gbp_packet s) = GBP_COMMAND_DATA ->
       unprocessed_data (gbp_printer_status s') = true /\
       print_buffer_full (gbp_printer_status s') = print_buffer_full (gbp_printer_status s) /\
       printer_busy (gbp_printer_status s') = printer_busy (gbp_printer_status s) /\
       uptime_til_pretend_print_finish_ms s' = uptime_til_pretend_print_finish_ms s) /\
    (command (gbp_packet s) = GBP_COMMAND_PRINT ->
       unprocessed_data (gbp_printer_status s') = false /\
       print_buffer_full (gbp_printer_status s') = true /\
       printer_busy (gbp_printer_status s') = true /\
       uptime_til_pretend_print_finish_ms s' = (millis + 2000) mod 2 ^ 32 /\
       (2 ^ 32 - 2000 <= millis < 2 ^ 32 ->
          uptime_til_pretend_print_finish_ms s' < millis)).
Proof.
  intros Hs Hd Hp Hpd.
  exists (upd_packet
            (set_printer_status
               (u8 (gbp_status_byte (gbp_printer_status (status_entered s millis)))))
            (status_entered s millis)).
  assert (Hst : forall v x, gbp_printer_status (upd_packet (set_printer_status v) x)
                            = gbp_printer_status x) by (intros; fields; reflexivity).
  rewrite Hst. split; [apply update_device_id, Hs|].
  split; [fields; reflexivity|].
  assert (Hfin : forall v x,
            uptime_til_pretend_print_finish_ms (upd_packet (set_printer_status v) x)
            = uptime_til_pretend_print_finish_ms x) by (intros; fields; reflexivity).
  rewrite Hfin. unfold status_entered, status_for_command. fields.
  split; intros Hc; rewrite Hc.
  - destruct (Z.eqb_spec GBP_COMMAND_DATA GBP_COMMAND_INIT); [contradiction|].
    rewrite Z.eqb_refl. fields. repeat split; reflexivity.
  - destruct (Z.eqb_spec GBP_COMMAND_PRINT GBP_COMMAND_INIT); [contradiction|].
    destruct (Z.eqb_spec GBP_COMMAND_PRINT GBP_COMMAND_DATA); [contradiction|].
    rewrite Z.eqb_refl. fields.
    split; [reflexivity|]. split; [reflexivity|]. split; [reflexivity|].
    split; [reflexivity|]. intros Hm. unfold u32, GBP_PACKET_PRETEND_PRINT_TIME_MS.
    change 4294967296 with (2 ^ 32).
    replace (millis + 2000) with (millis + 2000 - 2 ^ 32 + 1 * 2 ^ 32) by lia.
    rewrite Z.mod_add, Z.mod_small by lia. lia.
Qed.

Lemma data_and_print_set_status_witness :
  let s := upd_packet (set_command 0x02) (dmg_after 6) in
  exists s',
    @gbp_parse_message_update dmg s (Some 0) 4294967000
    = Returned (s', Some (u8 (dmg_status_byte (gbp_printer_status s')))) /\
    printer_busy (gbp_printer_status s') = true /\
    uptime_til_pretend_print_finish_ms s' = (4294967000 + 2000) mod 2 ^ 32 /\
    uptime_til_pretend_print_finish_ms s' < 4294967000.
Proof.
  intros s.
  destruct (@data_and_print_set_status dmg s 0 4294967000 eq_refl
              ltac:(discriminate) ltac:(discriminate) ltac:(discriminate))
    as (s' & E & _ & _ & P).
  destruct (P eq_refl) as (_ & _ & B & F & W).
  exists s'. split; [exact E|]. split; [exact B|]. split; [exact F|].
  apply W. lia.
Defined.

(** * The interrupt routine *)

Lemma update_without_byte `{gbp_protocol} (s : gbp_printer_t) (millis : Z) :
  gbp_parse_message_update s None millis = Returned (s, None).
Proof.
  unfold gbp_parse_message_update. cbn [bind].
  rewrite (proj2 (parse_state_eqb_spec _ _) eq_refl). reflexivity.
Qed.


(** A byte is delivered only on the rising edge that ends a byte frame of
    a synchronised streamer, which is then at the start of the next frame
    with the clock high and the staged byte as it was. *)
Lemma byte_delivered (q : gbp_rx_tx_byte_buffer_t) (c d : bool) (b : Z) :
  rx_byte_out (clock_edge q c d) = Some b ->
  let q' := rx_tx_ptr (clock_edge q c d) in
  c = true /\ syncronised q' = true /\
  serial_clock_state_prev q' = true /\ byte_frame_bit_pos q' = 7 /\
  tx_byte_staging q' = tx_byte_staging q.
Proof.
  destruct q as [ini prev syn word buf pos rxb stg txb].
  unfold clock_edge, sync_scan, byte_read, bit_tx.
  destruct ini, c, d, prev, syn; cbn; repeat (split_test; cbn);
    intros E; try discriminate; repeat split; reflexivity.
Qed.

(** X15.  An interrupt that completes no byte, that is every falling edge
    and every rising edge but the last of a byte frame, changes nothing of
    the printer but the streamer: parser, packet, status, buffers, ready
    flag and deadlines are as before, and the routine returns. *)
Theorem isr_without_byte `{gbp_protocol} (s : gbp_printer_t) (c d : bool) (millis : Z) :
  initialized (gbp_rx_tx_byte_buffer s) = true ->
  exists r,
    gbp_rx_tx_byte_update (gbp_rx_tx_byte_buffer s) c d = Returned r /\
    (c = false \/ rx_byte_out r = None ->
     serialClock_ISR s c d millis
     = Returned (set_gbp_rx_tx_byte_buffer (rx_tx_ptr r) s, si_pin_write r)).
Proof.
  intros Hi. exists (clock_edge (gbp_rx_tx_byte_buffer s) c d).
  split; [apply update_returns, Hi|]. intros Hc.
  assert (Hn : rx_byte_out (clock_edge (gbp_rx_tx_byte_buffer s) c d) = None).
  { destruct Hc as [->|Hn]; [|exact Hn].
    destruct (rx_byte_out (clock_edge (gbp_rx_tx_byte_buffer s) false d))
      as [b|] eqn:E; [|reflexivity].
    destruct (byte_delivered _ _ _ _ E) as (Hf & _). discriminate. }
  unfold serialClock_ISR. rewrite update_returns by exact Hi. cbn [bind].
  rewrite Hn, update_without_byte. reflexivity.
Qed.

Lemma isr_without_byte_witness :
  exists r,
    @gbp_rx_tx_byte_update dmg (gbp_rx_tx_byte_buffer dmg_printer) false true = Returned r /\
    @serialClock_ISR dmg dmg_printer false true 7
    = Returned (set_gbp_rx_tx_byte_buffer (rx_tx_ptr r) dmg_printer, si_pin_write r).
Proof.
  destruct (@isr_without_byte dmg dmg_printer false true 7 eq_refl) as (r & E & R).
  exists r. split; [exact E | exact (R (or_introl eq_refl))].
Defined.




(** ** Replies *)






